(** * A verification development for the church-administration dashboard

    The development embeds these source files:
    - [src/Services/apiClient.js]: the transport core (request interceptor,
      response interceptor with the token-refresh protocol), the file
      helpers and the token manager;
    - [src/Services/attendanceAPI.js]: the attendance gateway;
    - [src/Services/eventsAPI.js]: the events gateway;
    - [src/pages/admin/EventsManagement.jsx] and
      [src/pages/admin/AttendanceManagement.jsx]: the filter, paging and
      export handlers of the two listing pages.

    JavaScript values are embedded as the inductive type [JsVal]. Number
    values are the whole numbers among the doubles (within the safe range,
    where they print in decimal), the two infinities and NaN; zero has no
    sign. A numeric string is read with its fraction and exponent and
    rounded to the nearest double before it is compared. Strings are
    well-formed UTF-8 byte strings (a lone surrogate is its three bytes);
    their [length] counts UTF-16 code units. *)

From Stdlib Require Import ZArith Ascii String List Bool Lia.
From stdpp Require Import base option list strings pretty gmap.

Set Warnings "-register-all".

Open Scope string_scope.
Open Scope Z_scope.

(* ===================================================================== *)
(** * The subset of JavaScript the gateways rely on                       *)
(* ===================================================================== *)

Module JS.

Inductive JsVal : Type :=
| JUndefined
| JNull
| JBool (b : bool)
| JNum (n : Z)
| JInfinity (negative : bool)
| JNaN
| JStr (s : string)
| JArr (xs : list JsVal)
| JObj (fields : list (string * JsVal)).

(** An [Error] object as the code inspects it: [error.message] and
    [error.response] (an axios error carries the HTTP status and the
    response body; a plain [Error] or [TypeError] has no response). *)
Record JsError : Type := mkError {
  err_name : string;
  err_message : string;
  err_response : option (Z * JsVal)
}.

Definition newError (msg : string) : JsError := mkError "Error" msg None.
Definition typeError (msg : string) : JsError := mkError "TypeError" msg None.

(** ToBoolean. *)
Definition truthy (v : JsVal) : bool :=
  match v with
  | JUndefined | JNull | JNaN => false
  | JBool b => b
  | JNum n => negb (n =? 0)
  | JStr s => negb (String.eqb s "")
  | JInfinity _ | JArr _ | JObj _ => true
  end.

(** [a || b] *)
Definition jsOr (a b : JsVal) : JsVal := if truthy a then a else b.

(** [a === b] on primitives; two object or array values are never the same
    reference here, and NaN is different from itself. *)
Definition strictEq (a b : JsVal) : bool :=
  match a, b with
  | JUndefined, JUndefined => true
  | JNull, JNull => true
  | JBool x, JBool y => Bool.eqb x y
  | JNum x, JNum y => x =? y
  | JInfinity x, JInfinity y => Bool.eqb x y
  | JStr x, JStr y => String.eqb x y
  | _, _ => false
  end.

Definition joinWith (sep : string) (parts : list string) : string :=
  match parts with
  | [] => ""
  | p :: ps => fold_left (fun acc q => acc ++ sep ++ q) ps p
  end.

(** ToString; [Array.prototype.join] prints [null] and [undefined] as the
    empty string. *)
Fixpoint toString (v : JsVal) : string :=
  match v with
  | JUndefined => "undefined"
  | JNull => "null"
  | JBool true => "true"
  | JBool false => "false"
  | JNum n => pretty n
  | JInfinity false => "Infinity"
  | JInfinity true => "-Infinity"
  | JNaN => "NaN"
  | JStr s => s
  | JArr xs =>
      joinWith ","
        (map (fun x => match x with
                       | JUndefined | JNull => ""
                       | _ => toString x
                       end) xs)
  | JObj _ => "[object Object]"
  end.

(** [arr.join(sep)] *)
Definition arrayJoin (sep : string) (xs : list JsVal) : string :=
  joinWith sep
    (map (fun x => match x with
                   | JUndefined | JNull => ""
                   | _ => toString x
                   end) xs).

(** ** Objects as ordered field lists *)

Fixpoint lookupField (k : string) (fs : list (string * JsVal)) : option JsVal :=
  match fs with
  | [] => None
  | (k', v) :: rest => if String.eqb k k' then Some v else lookupField k rest
  end.

Fixpoint setField (k : string) (v : JsVal) (fs : list (string * JsVal))
  : list (string * JsVal) :=
  match fs with
  | [] => [(k, v)]
  | (k', v') :: rest =>
      if String.eqb k k' then (k, v) :: rest else (k', v') :: setField k v rest
  end.

Definition setFields (new : list (string * JsVal)) (fs : list (string * JsVal))
  : list (string * JsVal) :=
  fold_left (fun acc kv => setField (fst kv) (snd kv) acc) new fs.

Fixpoint indexed (i : nat) (xs : list JsVal) : list (string * JsVal) :=
  match xs with
  | [] => []
  | x :: rest => (pretty i, x) :: indexed (S i) rest
  end.

Definition bytes (l : list nat) : list ascii := map ascii_of_nat l.

(** ** Strings as sequences of UTF-16 code units

    A string is held in UTF-8. [sequences] cuts it into the byte sequences
    of its code points: a continuation byte (0x80 to 0xBF) belongs to the
    sequence of the byte before it. A sequence of four bytes is a code
    point outside the basic plane, which takes two code units (a surrogate
    pair); every other sequence takes one. *)
Definition continuation (b : ascii) : bool :=
  let n := nat_of_ascii b in (128 <=? n)%nat && (n <? 192)%nat.

Fixpoint sequences (l : list ascii) : list (list ascii) :=
  match l with
  | [] => []
  | b :: rest =>
      match sequences rest with
      | (c :: g) :: gs =>
          if continuation c then (b :: c :: g) :: gs else [b] :: (c :: g) :: gs
      | gs => [b] :: gs
      end
  end.

(** The code point of a sequence of four bytes, less 0x10000. *)
Definition astral (b0 b1 b2 b3 : ascii) : Z :=
  let byte (b : ascii) : Z := Z.of_nat (nat_of_ascii b) in
  (byte b0 - 240) * 262144 + (byte b1 - 128) * 4096 + (byte b2 - 128) * 64 +
  (byte b3 - 128) - 65536.

(** A code unit between 0x800 and 0xFFFF in three bytes. *)
Definition threeBytes (u : Z) : list ascii :=
  bytes (map Z.to_nat [224 + u / 4096; 128 + (u / 64) mod 64; 128 + u mod 64]).

(** The code units of one sequence, each in UTF-8. *)
Definition unitsOf (g : list ascii) : list (list ascii) :=
  match g with
  | [b0; b1; b2; b3] =>
      let v := astral b0 b1 b2 b3 in
      [threeBytes (55296 + v / 1024); threeBytes (56320 + v mod 1024)]
  | _ => [g]
  end.

Definition codeUnits (s : string) : list (list ascii) :=
  concat (map unitsOf (sequences (list_ascii_of_string s))).

(** [s.length] *)
Definition stringLength (s : string) : Z := Z.of_nat (List.length (codeUnits s)).

(** The indexed properties of a string: one string per code unit. *)
Definition charsOf (s : string) : list JsVal :=
  map (fun u => JStr (string_of_list_ascii u)) (codeUnits s).

(** The own enumerable properties copied by a spread [{...v}]. *)
Definition spread (v : JsVal) : list (string * JsVal) :=
  match v with
  | JObj fs => fs
  | JArr xs => indexed 0 xs
  | JStr s => indexed 0 (charsOf s)
  | _ => []
  end.

(** [v.k]: reading a property of [undefined] or [null] throws a TypeError. *)
Definition prop (v : JsVal) (k : string) : JsError + JsVal :=
  match v with
  | JUndefined =>
      inl (typeError ("Cannot read properties of undefined (reading '" ++ k ++ "')"))
  | JNull =>
      inl (typeError ("Cannot read properties of null (reading '" ++ k ++ "')"))
  | JObj fs => inr (default JUndefined (lookupField k fs))
  | JArr xs =>
      inr (if String.eqb k "length" then JNum (Z.of_nat (List.length xs))
           else JUndefined)
  | JStr s =>
      inr (if String.eqb k "length" then JNum (stringLength s) else JUndefined)
  | _ => inr JUndefined
  end.

(** [v?.k] *)
Definition optProp (v : JsVal) (k : string) : JsVal :=
  match prop v k with
  | inl _ => JUndefined
  | inr x => x
  end.

(** ** Strings: [trim], [includes] *)

(** The WhiteSpace and LineTerminator code points that
    [String.prototype.trim] strips, in UTF-8. *)
Definition whitespace : list (list ascii) :=
  map bytes
    [ [9%nat]; [10%nat]; [11%nat]; [12%nat]; [13%nat]; [32%nat];
      [194; 160]%nat;
      [225; 154; 128]%nat;
      [226; 128; 128]%nat; [226; 128; 129]%nat; [226; 128; 130]%nat;
      [226; 128; 131]%nat; [226; 128; 132]%nat; [226; 128; 133]%nat;
      [226; 128; 134]%nat; [226; 128; 135]%nat; [226; 128; 136]%nat;
      [226; 128; 137]%nat; [226; 128; 138]%nat;
      [226; 128; 168]%nat; [226; 128; 169]%nat; [226; 128; 175]%nat;
      [226; 129; 159]%nat;
      [227; 128; 128]%nat;
      [239; 187; 191]%nat ].

Fixpoint stripPrefix (p l : list ascii) : option (list ascii) :=
  match p, l with
  | [], _ => Some l
  | a :: p', b :: l' => if Ascii.eqb a b then stripPrefix p' l' else None
  | _ :: _, [] => None
  end.

Fixpoint firstStrip (ps : list (list ascii)) (l : list ascii) : option (list ascii) :=
  match ps with
  | [] => None
  | p :: rest =>
      match stripPrefix p l with
      | Some l' => Some l'
      | None => firstStrip rest l
      end
  end.

Fixpoint trimStartWith (ps : list (list ascii)) (fuel : nat) (l : list ascii)
  : list ascii :=
  match fuel with
  | O => l
  | S fuel' =>
      match firstStrip ps l with
      | Some l' => trimStartWith ps fuel' l'
      | None => l
      end
  end.

Definition trimStart (l : list ascii) : list ascii :=
  trimStartWith whitespace (List.length l) l.

Definition trimEnd (l : list ascii) : list ascii :=
  rev (trimStartWith (map (@rev ascii) whitespace) (List.length l) (rev l)).

Definition trim (s : string) : string :=
  string_of_list_ascii (trimEnd (trimStart (list_ascii_of_string s))).

Fixpoint isPrefix (p s : string) : bool :=
  match p, s with
  | EmptyString, _ => true
  | String a p', String b s' => Ascii.eqb a b && isPrefix p' s'
  | String _ _, EmptyString => false
  end.

(** [s.includes(sub)] *)
Fixpoint includes (sub s : string) : bool :=
  isPrefix sub s ||
  match s with
  | EmptyString => false
  | String _ s' => includes sub s'
  end.

(** ** Numbers: [parseInt], ToNumber and the comparisons with a literal *)

Definition digitOf (radix : Z) (c : ascii) : option Z :=
  let n := Z.of_nat (nat_of_ascii c) in
  let d :=
    if (48 <=? n) && (n <=? 57) then Some (n - 48)
    else if (97 <=? n) && (n <=? 122) then Some (n - 87)
    else if (65 <=? n) && (n <=? 90) then Some (n - 55)
    else None in
  match d with
  | Some x => if x <? radix then Some x else None
  | None => None
  end.

(** The longest prefix of digits, read in [radix]; [None] when it is empty. *)
Fixpoint readDigits (radix : Z) (acc : option Z) (l : list ascii)
  : option Z * list ascii :=
  match l with
  | [] => (acc, [])
  | c :: rest =>
      match digitOf radix c with
      | Some d => readDigits radix (Some (default 0 acc * radix + d)) rest
      | None => (acc, l)
      end
  end.

Definition readSign (l : list ascii) : Z * list ascii :=
  match l with
  | c :: rest =>
      if Ascii.eqb c "-" then (-1, rest)
      else if Ascii.eqb c "+" then (1, rest)
      else (1, l)
  | [] => (1, l)
  end.

Definition hexPrefix (l : list ascii) : option (list ascii) :=
  match l with
  | z :: x :: rest =>
      if Ascii.eqb z "0" && (Ascii.eqb x "x" || Ascii.eqb x "X")
      then Some rest else None
  | _ => None
  end.

Definition numOf (o : option Z) : JsVal :=
  match o with
  | Some n => JNum n
  | None => JNaN
  end.

(** A double: [mantissa * 2 ^ exponent] with a mantissa of at most
    [2 ^ 53] in absolute value and an exponent of at least -1074, or an
    infinity. *)
Inductive Double : Type :=
| Exactly (mantissa exponent : Z)
| Infinite (negative : bool).

(** The fraction [a / d] in units of [2 ^ e]: numerator and denominator. *)
Definition scaled (a d e : Z) : Z * Z :=
  (a * 2 ^ Z.max 0 (- e), d * 2 ^ Z.max 0 e).

(** The exponent of the double nearest to [a / d] (for [0 < a] and
    [0 < d]): the one that leaves 53 bits before the binary point, or -1074
    for a subnormal. *)
Definition exponentOf (a d : Z) : Z :=
  let e1 := Z.max (Z.log2 a - Z.log2 d - 53) (-1074) in
  let '(x, y) := scaled a d e1 in
  if x / y <? 2 ^ 53 then e1 else e1 + 1.

(** [a / d] in units of [2 ^ e], rounded to the nearest whole number, ties
    to the even one. *)
Definition roundedAt (a d e : Z) : Z :=
  let '(x, y) := scaled a d e in
  let q := x / y in
  let r := x mod y in
  if 2 * r <? y then q
  else if y <? 2 * r then q + 1
  else if Z.even q then q else q + 1.

(** The double nearest to the fraction [n / d] (for [0 < d]), ties to the
    even mantissa; what reaches [2 ^ 1024] is infinite. *)
Definition nearest (n d : Z) : Double :=
  if n =? 0 then Exactly 0 0
  else
    let a := Z.abs n in
    let e := exponentOf a d in
    let m := roundedAt a d e in
    if (0 <=? e) && (2 ^ 1024 <=? m * 2 ^ e) then Infinite (n <? 0)
    else Exactly (Z.sgn n * m) e.

(** The number value of a double that is a whole number or infinite. *)
Definition numberValue (x : Double) : JsVal :=
  match x with
  | Exactly m e => JNum (if 0 <=? e then m * 2 ^ e else m / 2 ^ (- e))
  | Infinite negative => JInfinity negative
  end.

(** [x / d] for a double and a whole number other than 0: the double
    nearest to the quotient. *)
Definition quotient (x : Double) (d : Z) : Double :=
  match x with
  | Exactly m e =>
      if 0 <=? e then nearest (Z.sgn d * (m * 2 ^ e)) (Z.abs d)
      else nearest (Z.sgn d * m) (Z.abs d * 2 ^ (- e))
  | Infinite negative => Infinite (xorb negative (d <? 0))
  end.

(** [Math.round(x)]: the whole number nearest to [x], the upper one of two. *)
Definition mathRound (x : Double) : JsVal :=
  match x with
  | Exactly m e =>
      JNum (if 0 <=? e then m * 2 ^ e else (2 * m + 2 ^ (- e)) / (2 * 2 ^ (- e)))
  | Infinite negative => JInfinity negative
  end.

(** The digits that [parseInt] read, as a number value: the double nearest
    to the integer they denote, or NaN when there is none. *)
Definition parsed (sign : Z) (digits : option Z) : JsVal :=
  match digits with
  | Some n => numberValue (nearest (sign * n) 1)
  | None => JNaN
  end.

(** [parseInt(v)] with no radix argument. *)
Definition parseInt (v : JsVal) : JsVal :=
  let l := trimStart (list_ascii_of_string (toString v)) in
  let '(sign, l1) := readSign l in
  match hexPrefix l1 with
  | Some l2 => parsed sign (fst (readDigits 16 None l2))
  | None => parsed sign (fst (readDigits 10 None l1))
  end.

(** The mathematical value that a number or a numeric string denotes: a
    decimal [mantissa * 10 ^ exponent] or an infinity. *)
Inductive Number : Type :=
| Finite (mantissa exponent : Z)
| PosInfinity
| NegInfinity.

(** The number value itself: the nearest double. *)
Definition doubleOf (x : Number) : Double :=
  match x with
  | Finite m e => if 0 <=? e then nearest (m * 10 ^ e) 1 else nearest m (10 ^ (- e))
  | PosInfinity => Infinite false
  | NegInfinity => Infinite true
  end.

(** The longest prefix of decimal digits. *)
Fixpoint readDecimals (l : list ascii) : list Z * list ascii :=
  match l with
  | [] => ([], [])
  | c :: rest =>
      match digitOf 10 c with
      | Some d => let '(ds, l') := readDecimals rest in (d :: ds, l')
      | None => ([], l)
      end
  end.

Definition valueOf (ds : list Z) : Z := fold_left (fun acc d => acc * 10 + d) ds 0.

(** The prefix [0x], [0o] or [0b] (in either case) and the radix it announces. *)
Definition radixPrefix (l : list ascii) : option (Z * list ascii) :=
  match l with
  | z :: x :: rest =>
      if Ascii.eqb z "0" then
        if Ascii.eqb x "x" || Ascii.eqb x "X" then Some (16, rest)
        else if Ascii.eqb x "o" || Ascii.eqb x "O" then Some (8, rest)
        else if Ascii.eqb x "b" || Ascii.eqb x "B" then Some (2, rest)
        else None
      else None
  | _ => None
  end.

(** An optional exponent part [e], [e+] or [e-] followed by digits. *)
Definition readExponent (l : list ascii) : option (Z * list ascii) :=
  match l with
  | c :: rest =>
      if Ascii.eqb c "e" || Ascii.eqb c "E" then
        let '(sign, l1) := readSign rest in
        match readDecimals l1 with
        | ([], _) => None
        | (ds, l2) => Some (sign * valueOf ds, l2)
        end
      else Some (0, l)
  | [] => Some (0, [])
  end.

(** [digits], [digits.], [digits.digits] or [.digits], then an optional
    exponent, and nothing after it. *)
Definition unsignedDecimal (l : list ascii) : option (Z * Z) :=
  let '(ints, l1) := readDecimals l in
  let '(fracs, l2) :=
    match l1 with
    | c :: rest => if Ascii.eqb c "." then readDecimals rest else ([], l1)
    | [] => ([], [])
    end in
  match (ints ++ fracs)%list with
  | [] => None
  | digits =>
      match readExponent l2 with
      | Some (e, []) => Some (valueOf digits, e - Z.of_nat (List.length fracs))
      | _ => None
      end
  end.

(** StringToNumber: the empty string is 0; [None] is NaN. *)
Definition stringToNumber (s : string) : option Number :=
  let l := list_ascii_of_string (trim s) in
  match l with
  | [] => Some (Finite 0 0)
  | _ =>
      match radixPrefix l with
      | Some (radix, digits) =>
          match readDigits radix None digits with
          | (Some n, []) => Some (Finite n 0)
          | _ => None
          end
      | None =>
          let '(sign, l1) := readSign l in
          if String.eqb (string_of_list_ascii l1) "Infinity"
          then Some (if sign =? 1 then PosInfinity else NegInfinity)
          else
            match unsignedDecimal l1 with
            | Some (m, e) => Some (Finite (sign * m) e)
            | None => None
            end
      end
  end.

(** ToNumber; [None] is NaN. *)
Definition toNumber (v : JsVal) : option Number :=
  match v with
  | JUndefined => None
  | JNull => Some (Finite 0 0)
  | JBool b => Some (Finite (if b then 1 else 0) 0)
  | JNum n => Some (Finite n 0)
  | JInfinity negative => Some (if negative then NegInfinity else PosInfinity)
  | JNaN => None
  | JStr s => stringToNumber s
  | JArr _ => stringToNumber (toString v)
  | JObj _ => None
  end.

Definition below (x : Double) (n : Z) : bool :=
  match x with
  | Exactly m e => if 0 <=? e then m * 2 ^ e <? n else m <? n * 2 ^ (- e)
  | Infinite negative => negative
  end.

Definition above (x : Double) (n : Z) : bool :=
  match x with
  | Exactly m e => if 0 <=? e then n <? m * 2 ^ e else n * 2 ^ (- e) <? m
  | Infinite negative => negb negative
  end.

(** [v < n] and [v > n] for a whole-number literal [n]: the operand is
    converted to a number value first; false on NaN. *)
Definition ltNum (v : JsVal) (n : Z) : bool :=
  match toNumber v with
  | Some x => below (doubleOf x) n
  | None => false
  end.

Definition gtNum (v : JsVal) (n : Z) : bool :=
  match toNumber v with
  | Some x => above (doubleOf x) n
  | None => false
  end.

(** [Boolean(v)] *)
Definition jsBoolean (v : JsVal) : JsVal := JBool (truthy v).

(** [Array.isArray(v)] *)
Definition isArray (v : JsVal) : bool :=
  match v with
  | JArr _ => true
  | _ => false
  end.

(** A parameter with a default value: [f = (x = d) => ...]. *)
Definition defaultArg (v d : JsVal) : JsVal :=
  match v with
  | JUndefined => d
  | _ => v
  end.

End JS.

(* ===================================================================== *)
(** * Gateway operations as computations over a request log              *)
(* ===================================================================== *)

Module Gateway.
Import JS.

(** One call of [apiClient.get/post/put/patch/delete]: method, URL, the
    data argument and the config argument ([undefined] when not passed). *)
Record HttpRequest : Type := mkRequest {
  req_method : string;
  req_url : string;
  req_data : JsVal;
  req_config : JsVal
}.

(** What a gateway operation does to the outside: it issues requests
    through [apiClient] and, for CSV exports, saves a file through a
    temporary link ([link.setAttribute('download', filename); link.click()]). *)
Inductive Effect : Type :=
| Http (r : HttpRequest)
| Download (filename : string) (mime : string) (content : JsVal).

Definition World : Type := list Effect.

(** An async function body: it may throw (reject) or return, and it extends
    the log. *)
Definition M (A : Type) : Type := World -> (JsError + A) * World.

Definition ret {A} (x : A) : M A := fun w => (inr x, w).

Definition throw {A} (e : JsError) : M A := fun w => (inl e, w).

Definition bind {A B} (m : M A) (k : A -> M B) : M B :=
  fun w =>
    match m w with
    | (inr x, w') => k x w'
    | (inl e, w') => (inl e, w')
    end.

(** [try { body } catch (error) { handler }] *)
Definition tryCatch {A} (body : M A) (handler : JsError -> M A) : M A :=
  fun w =>
    match body w with
    | (inr x, w') => (inr x, w')
    | (inl e, w') => handler e w'
    end.

Definition lift {A} (r : JsError + A) : M A := fun w => (r, w).

Definition emit (e : Effect) : M unit := fun w => (inr tt, (w ++ [e])%list).

Notation "'let*' x ':=' m 'in' k" := (bind m (fun x => k))
  (at level 10, x name, m at level 100, k at level 200).

(** [v.k] inside an async body. *)
Definition get (v : JsVal) (k : string) : M JsVal := lift (prop v k).

(** [if (!cond) throw new Error(msg)] continues only when [cond] is truthy. *)
Definition require (cond : JsVal) (msg : string) : M unit :=
  if truthy cond then ret tt else throw (newError msg).

Fixpoint mapM {A B} (f : A -> M B) (l : list A) : M (list B) :=
  match l with
  | [] => ret []
  | x :: rest =>
      let* y := f x in
      let* ys := mapM f rest in
      ret (y :: ys)
  end.

Fixpoint filterM {A} (p : A -> M bool) (l : list A) : M (list A) :=
  match l with
  | [] => ret []
  | x :: rest =>
      let* b := p x in
      let* ys := filterM p rest in
      ret (if b then x :: ys else ys)
  end.

(** ** What a catch block reads off the caught error *)

(** [error.response?.data] *)
Definition responseData (e : JsError) : JsVal :=
  match err_response e with
  | Some (_, d) => d
  | None => JUndefined
  end.

(** [error.response?.data?.message] *)
Definition responseMessage (e : JsError) : JsVal := optProp (responseData e) "message".

(** [error.response?.data?.errors] *)
Definition responseErrors (e : JsError) : JsVal := optProp (responseData e) "errors".

(** [error.message] *)
Definition errorMessage (e : JsError) : JsVal := JStr (err_message e).

(** The rejection reason as [Promise.allSettled] reports it. *)
Definition errorValue (e : JsError) : JsVal :=
  JObj [("name", JStr (err_name e)); ("message", JStr (err_message e));
        ("response",
         match err_response e with
         | Some (status, d) => JObj [("status", JNum status); ("data", d)]
         | None => JUndefined
         end)].

(** ** [URLSearchParams] *)

Definition Query : Type := list (string * string).

Definition hexDigit (n : nat) : ascii :=
  ascii_of_nat (if (n <? 10)%nat then 48 + n else 55 + n)%nat.

Definition urlencodeByte (c : ascii) : string :=
  let n := nat_of_ascii c in
  if ((48 <=? n) && (n <=? 57) || (65 <=? n) && (n <=? 90) ||
      (97 <=? n) && (n <=? 122) ||
      (n =? 42) || (n =? 45) || (n =? 46) || (n =? 95))%nat
  then String c EmptyString
  else if (n =? 32)%nat then "+"
  else String "%" (String (hexDigit (n / 16)) (String (hexDigit (n mod 16)) EmptyString)).

Fixpoint urlencode (s : string) : string :=
  match s with
  | EmptyString => EmptyString
  | String c rest => urlencodeByte c ++ urlencode rest
  end.

(** [queryParams.toString()] *)
Definition queryString (q : Query) : string :=
  joinWith "&" (map (fun kv => urlencode (fst kv) ++ "=" ++ urlencode (snd kv)) q).

(** [if (filters.k) queryParams.append('k', filters.k)] *)
Definition appendIf (filters : JsVal) (k : string) (q : Query) : M Query :=
  let* v := get filters k in
  ret (if truthy v then (q ++ [(k, toString v)])%list else q).

(** [if (filters.k && filters.k !== 'all') queryParams.append('k', filters.k)] *)
Definition appendUnlessAll (filters : JsVal) (k : string) (q : Query) : M Query :=
  let* v := get filters k in
  ret (if truthy v && negb (strictEq v (JStr "all")) then (q ++ [(k, toString v)])%list else q).

(** [s.trim()]: a method call on a value that is not a string fails. *)
Definition callTrim (v : JsVal) : M JsVal :=
  match v with
  | JStr s => ret (JStr (trim s))
  | JUndefined | JNull => lift (prop v "trim")
  | _ => throw (typeError "trim is not a function")
  end.

(** [s?.trim()] *)
Definition optTrim (v : JsVal) : M JsVal :=
  match v with
  | JUndefined | JNull => ret JUndefined
  | _ => callTrim v
  end.

(** [s.includes(sub)] for a string [s]. *)
Definition callIncludes (v : JsVal) (sub : string) : M bool :=
  match v with
  | JStr s => ret (includes sub s)
  | JArr xs => ret (existsb (fun x => strictEq x (JStr sub)) xs)
  | JUndefined | JNull => let* _ := lift (prop v "includes") in ret false
  | _ => throw (typeError "includes is not a function")
  end.

(** ** The transport as the gateways see it

    [backend w r] is how the intercepted call [r] settles after the calls
    logged in [w]: with the response body ([response.data]) or with the
    error the response interceptor rejects with. *)

Section Transport.

Variable backend : World -> HttpRequest -> JsError + JsVal.

Definition apiCall (r : HttpRequest) : M JsVal :=
  fun w => (backend w r, (w ++ [Http r])%list).

Definition apiGet (url : string) : M JsVal :=
  apiCall (mkRequest "get" url JUndefined JUndefined).

Definition apiGetWith (url : string) (config : JsVal) : M JsVal :=
  apiCall (mkRequest "get" url JUndefined config).

Definition apiPost (url : string) (data : JsVal) : M JsVal :=
  apiCall (mkRequest "post" url data JUndefined).

Definition apiPostWith (url : string) (data config : JsVal) : M JsVal :=
  apiCall (mkRequest "post" url data config).

Definition apiPut (url : string) (data : JsVal) : M JsVal :=
  apiCall (mkRequest "put" url data JUndefined).

Definition apiPatch (url : string) (data : JsVal) : M JsVal :=
  apiCall (mkRequest "patch" url data JUndefined).

Definition apiDelete (url : string) : M JsVal :=
  apiCall (mkRequest "delete" url JUndefined JUndefined).

End Transport.

(** [Promise.allSettled] reports each promise as fulfilled or rejected. *)
Definition settled (m : M JsVal) : M JsVal :=
  fun w =>
    match m w with
    | (inr v, w') => (inr (JObj [("status", JStr "fulfilled"); ("value", v)]), w')
    | (inl e, w') =>
        (inr (JObj [("status", JStr "rejected"); ("reason", errorValue e)]), w')
    end.

(** [result.status === 'fulfilled' && result.value.success] *)
Definition fulfilledOk (result : JsVal) : M bool :=
  let* status := get result "status" in
  if strictEq status (JStr "fulfilled") then
    let* value := get result "value" in
    let* ok := get value "success" in
    ret (truthy ok)
  else ret false.

(** [result.status === 'rejected' || !result.value.success] *)
Definition rejectedOrFailed (result : JsVal) : M bool :=
  let* status := get result "status" in
  if strictEq status (JStr "rejected") then ret true
  else
    let* value := get result "value" in
    let* ok := get value "success" in
    ret (negb (truthy ok)).

Definition lengthOf (xs : list JsVal) : JsVal := JNum (Z.of_nat (List.length xs)).

Definition arrayElements (v : JsVal) : list JsVal :=
  match v with
  | JArr xs => xs
  | _ => []
  end.

(** [!Array.isArray(v) || v.length === 0] *)
Definition notAnArrayOrEmpty (v : JsVal) : M bool :=
  if negb (isArray v) then ret true
  else
    let* len := get v "length" in
    ret (strictEq len (JNum 0)).

(** [arr.filter(p)]: a method call, failing on a value without [filter]. *)
Definition callFilter (v : JsVal) (p : JsVal -> M bool) : M JsVal :=
  match v with
  | JArr xs => let* ys := filterM p xs in ret (JArr ys)
  | JUndefined | JNull => lift (prop v "filter")
  | _ => throw (typeError "filter is not a function")
  end.

End Gateway.

(* ===================================================================== *)
(** * src/Services/attendanceAPI.js                                      *)
(* ===================================================================== *)

Module Attendance.
Import JS Gateway.

Section AttendanceAPI.

Variable backend : World -> HttpRequest -> JsError + JsVal.

(** The date part of [new Date().toISOString()] when a report is saved. *)
Variable today : string.

Definition getAttendanceRecords (filters : JsVal) : M JsVal :=
  let filters := defaultArg filters (JObj []) in
  tryCatch
    (let* q := appendIf filters "page" [] in
     let* q := appendIf filters "limit" q in
     let* q := appendIf filters "startDate" q in
     let* q := appendIf filters "endDate" q in
     let* q := appendUnlessAll filters "serviceType" q in
     let* q := appendIf filters "sortBy" q in
     let* q := appendIf filters "sortOrder" q in
     let* body := apiGet backend ("/attendance?" ++ queryString q) in
     let* data := get body "data" in
     let* pagination := get body "pagination" in
     let* message := get body "message" in
     ret (JObj [("success", JBool true);
                ("data", data);
                ("pagination", pagination);
                ("message", jsOr message (JStr "Attendance records retrieved successfully"))]))
    (fun error =>
       ret (JObj [("success", JBool false);
                  ("message", jsOr (responseMessage error)
                                   (JStr "Failed to fetch attendance records"));
                  ("error", responseData error)])).

Definition getAttendanceById (id : JsVal) : M JsVal :=
  tryCatch
    (let* _ := require id "Attendance ID is required" in
     let* body := apiGet backend ("/attendance/" ++ toString id) in
     let* data := get body "data" in
     let* message := get body "message" in
     ret (JObj [("success", JBool true);
                ("data", data);
                ("message", jsOr message (JStr "Attendance record retrieved successfully"))]))
    (fun error =>
       ret (JObj [("success", JBool false);
                  ("message", jsOr (responseMessage error)
                                   (JStr "Failed to fetch attendance record"));
                  ("error", responseData error)])).

(** The validation shared by [createAttendance] and [updateAttendance],
    followed by the request body both build. *)
Definition attendancePayload (attendanceData : JsVal) : M JsVal :=
  let* date := get attendanceData "date" in
  let* _ := require date "Date is required" in
  let* serviceType := get attendanceData "serviceType" in
  let* _ := require serviceType "Service type is required" in
  let* total := get attendanceData "totalAttendance" in
  if strictEq total JUndefined || ltNum total 0
  then throw (newError "Total attendance must be a non-negative number")
  else
    let* adults := get attendanceData "adults" in
    let* youth := get attendanceData "youth" in
    let* children := get attendanceData "children" in
    let* visitors := get attendanceData "visitors" in
    let* notes := get attendanceData "notes" in
    let* members := get attendanceData "members" in
    ret (JObj [("date", date);
               ("serviceType", serviceType);
               ("totalAttendance", parseInt total);
               ("adults", jsOr (parseInt adults) (JNum 0));
               ("youth", jsOr (parseInt youth) (JNum 0));
               ("children", jsOr (parseInt children) (JNum 0));
               ("visitors", jsOr (parseInt visitors) (JNum 0));
               ("notes", jsOr notes (JStr ""));
               ("members", jsOr members (JArr []))]).

Definition createAttendance (attendanceData : JsVal) : M JsVal :=
  tryCatch
    (let* payload := attendancePayload attendanceData in
     let* body := apiPost backend "/attendance" payload in
     let* data := get body "data" in
     let* message := get body "message" in
     ret (JObj [("success", JBool true);
                ("data", data);
                ("message", jsOr message (JStr "Attendance recorded successfully"))]))
    (fun error =>
       ret (JObj [("success", JBool false);
                  ("message", jsOr (jsOr (responseMessage error) (errorMessage error))
                                   (JStr "Failed to record attendance"));
                  ("errors", responseErrors error)])).

Definition updateAttendance (id attendanceData : JsVal) : M JsVal :=
  tryCatch
    (let* _ := require id "Attendance ID is required" in
     let* payload := attendancePayload attendanceData in
     let* body := apiPut backend ("/attendance/" ++ toString id) payload in
     let* data := get body "data" in
     let* message := get body "message" in
     ret (JObj [("success", JBool true);
                ("data", data);
                ("message", jsOr message (JStr "Attendance updated successfully"))]))
    (fun error =>
       ret (JObj [("success", JBool false);
                  ("message", jsOr (jsOr (responseMessage error) (errorMessage error))
                                   (JStr "Failed to update attendance"));
                  ("errors", responseErrors error)])).

Definition deleteAttendance (id : JsVal) : M JsVal :=
  tryCatch
    (let* _ := require id "Attendance ID is required" in
     let* body := apiDelete backend ("/attendance/" ++ toString id) in
     let* data := get body "data" in
     let* message := get body "message" in
     ret (JObj [("success", JBool true);
                ("data", data);
                ("message", jsOr message (JStr "Attendance record deleted successfully"))]))
    (fun error =>
       ret (JObj [("success", JBool false);
                  ("message", jsOr (responseMessage error)
                                   (JStr "Failed to delete attendance record"))])).

Definition validPeriods : list JsVal := [JStr "week"; JStr "month"; JStr "year"].

Definition getAttendanceStats (period : JsVal) : M JsVal :=
  let period := defaultArg period (JStr "month") in
  tryCatch
    (if negb (existsb (strictEq period) validPeriods)
     then throw (newError "Period must be one of: week, month, year")
     else
       let* body := apiGet backend ("/attendance/stats?period=" ++ toString period) in
       let* data := get body "data" in
       let* message := get body "message" in
       ret (JObj [("success", JBool true);
                  ("data", data);
                  ("message", jsOr message
                                (JStr "Attendance statistics retrieved successfully"))]))
    (fun error =>
       ret (JObj [("success", JBool false);
                  ("message", jsOr (jsOr (responseMessage error) (errorMessage error))
                                   (JStr "Failed to fetch attendance statistics"));
                  ("data", JObj [("totalRecords", JNum 0);
                                 ("totalAttendance", JNum 0);
                                 ("averageAttendance", JNum 0);
                                 ("highestAttendance", JNum 0);
                                 ("lowestAttendance", JNum 0)])])).

Definition fallbackServiceTypes : JsVal :=
  JArr [JStr "Sunday Fire Service"; JStr "Sunday School"; JStr "Sunday Main Service";
        JStr "Tuesday Bible Study"; JStr "Wednesday Prayer"; JStr "Thursday Faith Clinic";
        JStr "Friday Night Service"; JStr "Holy Ghost Service"; JStr "Special Program"].

Definition getServiceTypes : M JsVal :=
  tryCatch
    (let* body := apiGet backend "/attendance/service-types" in
     let* data := get body "data" in
     let* message := get body "message" in
     ret (JObj [("success", JBool true);
                ("data", data);
                ("message", jsOr message (JStr "Service types retrieved successfully"))]))
    (fun error =>
       ret (JObj [("success", JBool false);
                  ("message", jsOr (responseMessage error)
                                   (JStr "Failed to fetch service types"));
                  ("data", fallbackServiceTypes)])).

Definition getMembersForAttendance : M JsVal :=
  tryCatch
    (let* body := apiGet backend "/attendance/members" in
     let* data := get body "data" in
     let* message := get body "message" in
     ret (JObj [("success", JBool true);
                ("data", data);
                ("message", jsOr message (JStr "Members retrieved successfully"))]))
    (fun error =>
       ret (JObj [("success", JBool false);
                  ("message", jsOr (responseMessage error) (JStr "Failed to fetch members"));
                  ("data", JArr [])])).

Definition generateReport (filters : JsVal) : M JsVal :=
  let filters := defaultArg filters (JObj []) in
  tryCatch
    (let* format := get filters "format" in
     let* startDate := get filters "startDate" in
     let* endDate := get filters "endDate" in
     let* serviceType := get filters "serviceType" in
     let reportData :=
       [("format", jsOr format (JStr "csv"));
        ("startDate", jsOr startDate JNull);
        ("endDate", jsOr endDate JNull);
        ("serviceType", jsOr serviceType (JStr "all"))] in
     if strictEq (jsOr format (JStr "csv")) (JStr "csv") then
       let* blob :=
         apiPostWith backend "/attendance/report" (JObj reportData)
           (JObj [("responseType", JStr "blob");
                  ("headers", JObj [("Accept", JStr "text/csv")])]) in
       let filename := "attendance_report_" ++ today ++ ".csv" in
       let* _ := emit (Download filename "text/csv" blob) in
       ret (JObj [("success", JBool true);
                  ("data", JObj [("filename", JStr filename); ("type", JStr "download")]);
                  ("message", JStr "CSV report downloaded successfully")])
     else
       let* body :=
         apiPost backend "/attendance/report"
           (JObj (setField "format" (JStr "json") reportData)) in
       let* data := get body "data" in
       let* count := get body "count" in
       let* message := get body "message" in
       ret (JObj [("success", JBool true);
                  ("data", data);
                  ("count", count);
                  ("message", jsOr message (JStr "Report generated successfully"))]))
    (fun error =>
       ret (JObj [("success", JBool false);
                  ("message", jsOr (responseMessage error)
                                   (JStr "Failed to generate report"))])).

Definition bulkCreateAttendance (attendanceRecords : JsVal) : M JsVal :=
  tryCatch
    (let* missing := notAnArrayOrEmpty attendanceRecords in
     if missing then throw (newError "Attendance records array is required")
     else
       let records := arrayElements attendanceRecords in
       let* results := mapM (fun record => settled (createAttendance record)) records in
       let* successful := filterM fulfilledOk results in
       let* failed := filterM rejectedOrFailed results in
       ret (JObj [("success", JBool (strictEq (lengthOf failed) (JNum 0)));
                  ("data", JObj [("successful", lengthOf successful);
                                 ("failed", lengthOf failed);
                                 ("total", lengthOf records);
                                 ("results", JArr results)]);
                  ("message", JStr ("Bulk create completed: "
                                    ++ toString (lengthOf successful) ++ " successful, "
                                    ++ toString (lengthOf failed) ++ " failed"))]))
    (fun error =>
       ret (JObj [("success", JBool false);
                  ("message", jsOr (errorMessage error)
                                   (JStr "Failed to bulk create attendance records"))])).

Definition searchAttendance (searchTerm filters : JsVal) : M JsVal :=
  let filters := defaultArg filters (JObj []) in
  tryCatch
    (let* blank :=
       if negb (truthy searchTerm) then ret true
       else
         let* trimmed := callTrim searchTerm in
         let* len := get trimmed "length" in
         ret (strictEq len (JNum 0)) in
     if blank then getAttendanceRecords filters
     else
       let* hit := callIncludes searchTerm "service" in
       let* serviceType :=
         if hit then ret searchTerm else get filters "serviceType" in
       getAttendanceRecords (JObj (setField "serviceType" serviceType (spread filters))))
    (fun error =>
       ret (JObj [("success", JBool false);
                  ("message", jsOr (errorMessage error)
                                   (JStr "Failed to search attendance records"));
                  ("data", JArr [])])).

Definition getAttendanceSummary (period : JsVal) : M JsVal :=
  let period := defaultArg period (JStr "month") in
  tryCatch
    (let* stats := getAttendanceStats period in
     let* ok := get stats "success" in
     if negb (truthy ok) then ret stats
     else
       let* recentRecords :=
         getAttendanceRecords
           (JObj [("limit", JNum 10); ("sortBy", JStr "date"); ("sortOrder", JStr "DESC")]) in
       let* statsData := get stats "data" in
       let* recentOk := get recentRecords "success" in
       let* recent :=
         if truthy recentOk then get recentRecords "data" else ret (JArr []) in
       ret (JObj [("success", JBool true);
                  ("data", JObj [("stats", statsData);
                                 ("recentRecords", recent);
                                 ("period", period)]);
                  ("message", JStr "Attendance summary retrieved successfully")]))
    (fun error =>
       ret (JObj [("success", JBool false);
                  ("message", jsOr (errorMessage error)
                                   (JStr "Failed to get attendance summary"))])).

End AttendanceAPI.

End Attendance.

(* ===================================================================== *)
(** * src/Services/eventsAPI.js                                          *)
(* ===================================================================== *)

Module Events.
Import JS Gateway.

Section EventsAPI.

Variable backend : World -> HttpRequest -> JsError + JsVal.

(** The date part of [new Date().toISOString()]. *)
Variable today : string.

(** [parseFloat]: its results are floating-point numbers in general; it only
    fills the [eventFee] field of a request body. *)
Variable parseFloat : JsVal -> JsVal.

Definition getEvents (filters : JsVal) : M JsVal :=
  let filters := defaultArg filters (JObj []) in
  tryCatch
    (let* q := appendIf filters "page" [] in
     let* q := appendIf filters "limit" q in
     let* q := appendIf filters "search" q in
     let* q := appendUnlessAll filters "status" q in
     let* q := appendUnlessAll filters "category" q in
     let* q := appendIf filters "upcoming" q in
     let* q := appendIf filters "sortBy" q in
     let* q := appendIf filters "sortOrder" q in
     let* body := apiGet backend ("/events?" ++ queryString q) in
     let* data := get body "data" in
     let* pagination := get body "pagination" in
     let* message := get body "message" in
     ret (JObj [("success", JBool true);
                ("data", data);
                ("pagination", pagination);
                ("message", jsOr message (JStr "Events retrieved successfully"))]))
    (fun error =>
       ret (JObj [("success", JBool false);
                  ("message", jsOr (responseMessage error) (JStr "Failed to fetch events"));
                  ("error", responseData error)])).

Definition getEventById (id : JsVal) : M JsVal :=
  tryCatch
    (let* _ := require id "Event ID is required" in
     let* body := apiGet backend ("/events/" ++ toString id) in
     let* data := get body "data" in
     let* message := get body "message" in
     ret (JObj [("success", JBool true);
                ("data", data);
                ("message", jsOr message (JStr "Event details retrieved successfully"))]))
    (fun error =>
       ret (JObj [("success", JBool false);
                  ("message", jsOr (responseMessage error)
                                   (JStr "Failed to fetch event details"));
                  ("error", responseData error)])).

(** [if (!eventData.k?.trim()) throw new Error(msg)]; the trimmed value. *)
Definition requireTrimmed (eventData : JsVal) (k msg : string) : M JsVal :=
  let* v := get eventData k in
  let* t := optTrim v in
  let* _ := require t msg in
  ret t.

Definition createEvent (eventData : JsVal) : M JsVal :=
  tryCatch
    (let* title := requireTrimmed eventData "title" "Event title is required" in
     let* description :=
       requireTrimmed eventData "description" "Event description is required" in
     let* date := get eventData "date" in
     let* _ := require date "Event date is required" in
     let* time := get eventData "time" in
     let* _ := require time "Event time is required" in
     let* location := requireTrimmed eventData "location" "Event location is required" in
     let* category := get eventData "category" in
     let* _ := require category "Event category is required" in
     let* endTime := get eventData "endTime" in
     let* maxAttendees := get eventData "maxAttendees" in
     let* isRecurring := get eventData "isRecurring" in
     let* recurringPattern := get eventData "recurringPattern" in
     let* registrationRequired := get eventData "registrationRequired" in
     let* registrationDeadline := get eventData "registrationDeadline" in
     let* eventFee := get eventData "eventFee" in
     let* tags := get eventData "tags" in
     let* image := get eventData "image" in
     let* body :=
       apiPost backend "/events"
         (JObj [("title", title);
                ("description", description);
                ("date", date);
                ("time", time);
                ("endTime", jsOr endTime JNull);
                ("location", location);
                ("category", category);
                ("maxAttendees", if truthy maxAttendees then parseInt maxAttendees else JNull);
                ("isRecurring", jsBoolean isRecurring);
                ("recurringPattern", jsOr recurringPattern JNull);
                ("registrationRequired", jsBoolean registrationRequired);
                ("registrationDeadline", jsOr registrationDeadline JNull);
                ("eventFee", if truthy eventFee then parseFloat eventFee else JNum 0);
                ("tags", if isArray tags then tags else JArr []);
                ("image", jsOr image JNull)]) in
     let* data := get body "data" in
     let* message := get body "message" in
     ret (JObj [("success", JBool true);
                ("data", data);
                ("message", jsOr message (JStr "Event created successfully"))]))
    (fun error =>
       ret (JObj [("success", JBool false);
                  ("message", jsOr (jsOr (responseMessage error) (errorMessage error))
                                   (JStr "Failed to create event"));
                  ("errors", responseErrors error)])).

(** [if (eventData.k !== undefined && !eventData.k?.trim()) throw new Error(msg)] *)
Definition requireNonEmptyIfGiven (eventData : JsVal) (k msg : string) : M unit :=
  let* v := get eventData k in
  if negb (strictEq v JUndefined) then
    let* t := optTrim v in
    require t msg
  else ret tt.

(** [...(eventData.k !== undefined && { k: f(eventData.k) })] *)
Definition spreadIfGiven (eventData : JsVal) (k : string) (f : JsVal -> M JsVal)
    (acc : list (string * JsVal)) : M (list (string * JsVal)) :=
  let* v := get eventData k in
  if negb (strictEq v JUndefined) then
    let* x := f v in
    ret (setField k x acc)
  else ret acc.

Definition updateEvent (id eventData : JsVal) : M JsVal :=
  tryCatch
    (let* _ := require id "Event ID is required" in
     let* _ := requireNonEmptyIfGiven eventData "title" "Event title cannot be empty" in
     let* _ :=
       requireNonEmptyIfGiven eventData "description" "Event description cannot be empty" in
     let* _ :=
       requireNonEmptyIfGiven eventData "location" "Event location cannot be empty" in
     let* u := spreadIfGiven eventData "title" callTrim [] in
     let* u := spreadIfGiven eventData "description" callTrim u in
     let* u := spreadIfGiven eventData "date" ret u in
     let* u := spreadIfGiven eventData "time" ret u in
     let* u := spreadIfGiven eventData "endTime" ret u in
     let* u := spreadIfGiven eventData "location" callTrim u in
     let* u := spreadIfGiven eventData "category" ret u in
     let* u :=
       spreadIfGiven eventData "maxAttendees"
         (fun v => ret (if truthy v then parseInt v else JNull)) u in
     let* u := spreadIfGiven eventData "isRecurring" (fun v => ret (jsBoolean v)) u in
     let* u := spreadIfGiven eventData "recurringPattern" ret u in
     let* u := spreadIfGiven eventData "status" ret u in
     let* u :=
       spreadIfGiven eventData "registrationRequired" (fun v => ret (jsBoolean v)) u in
     let* u := spreadIfGiven eventData "registrationDeadline" ret u in
     let* u :=
       spreadIfGiven eventData "eventFee"
         (fun v => ret (if truthy v then parseFloat v else JNum 0)) u in
     let* u :=
       spreadIfGiven eventData "tags" (fun v => ret (if isArray v then v else JArr [])) u in
     let* u := spreadIfGiven eventData "image" ret u in
     let* body := apiPut backend ("/events/" ++ toString id) (JObj u) in
     let* data := get body "data" in
     let* message := get body "message" in
     ret (JObj [("success", JBool true);
                ("data", data);
                ("message", jsOr message (JStr "Event updated successfully"))]))
    (fun error =>
       ret (JObj [("success", JBool false);
                  ("message", jsOr (jsOr (responseMessage error) (errorMessage error))
                                   (JStr "Failed to update event"));
                  ("errors", responseErrors error)])).

Definition deleteEvent (id : JsVal) : M JsVal :=
  tryCatch
    (let* _ := require id "Event ID is required" in
     let* body := apiDelete backend ("/events/" ++ toString id) in
     let* data := get body "data" in
     let* message := get body "message" in
     ret (JObj [("success", JBool true);
                ("data", data);
                ("message", jsOr message (JStr "Event deleted successfully"))]))
    (fun error =>
       ret (JObj [("success", JBool false);
                  ("message", jsOr (responseMessage error) (JStr "Failed to delete event"))])).

Definition fallbackCategories : JsVal :=
  JArr [JStr "Service"; JStr "Conference"; JStr "Seminar"; JStr "Workshop";
        JStr "Outreach"; JStr "Fellowship"; JStr "Youth Event"; JStr "Children Event";
        JStr "Prayer Meeting"; JStr "Special Program"; JStr "Other"].

Definition getEventCategories : M JsVal :=
  tryCatch
    (let* body := apiGet backend "/events/categories" in
     let* data := get body "data" in
     let* message := get body "message" in
     ret (JObj [("success", JBool true);
                ("data", data);
                ("message", jsOr message (JStr "Categories retrieved successfully"))]))
    (fun error =>
       ret (JObj [("success", JBool false);
                  ("message", jsOr (responseMessage error) (JStr "Failed to fetch categories"));
                  ("data", fallbackCategories)])).

Definition getEventsStats : M JsVal :=
  tryCatch
    (let* body := apiGet backend "/events/stats" in
     let* data := get body "data" in
     let* message := get body "message" in
     ret (JObj [("success", JBool true);
                ("data", data);
                ("message", jsOr message (JStr "Events statistics retrieved successfully"))]))
    (fun error =>
       ret (JObj [("success", JBool false);
                  ("message", jsOr (responseMessage error)
                                   (JStr "Failed to fetch events statistics"));
                  ("data", JObj [("totalEvents", JNum 0);
                                 ("upcomingEvents", JNum 0);
                                 ("completedEvents", JNum 0);
                                 ("thisMonthEvents", JNum 0);
                                 ("categoryStats", JArr []);
                                 ("statusStats", JArr [])])])).

Definition updateEventAttendance (id attendanceCount : JsVal) : M JsVal :=
  tryCatch
    (let* _ := require id "Event ID is required" in
     if ltNum attendanceCount 0
     then throw (newError "Attendance count cannot be negative")
     else
       let* body :=
         apiPatch backend ("/events/" ++ toString id ++ "/attendance")
           (JObj [("attendanceCount", parseInt attendanceCount)]) in
       let* data := get body "data" in
       let* message := get body "message" in
       ret (JObj [("success", JBool true);
                  ("data", data);
                  ("message", jsOr message (JStr "Event attendance updated successfully"))]))
    (fun error =>
       ret (JObj [("success", JBool false);
                  ("message", jsOr (jsOr (responseMessage error) (errorMessage error))
                                   (JStr "Failed to update event attendance"))])).

Definition getUpcomingEvents (limit : JsVal) : M JsVal :=
  let limit := defaultArg limit (JNum 10) in
  tryCatch
    (let* body := apiGet backend ("/events/upcoming?limit=" ++ toString limit) in
     let* data := get body "data" in
     let* message := get body "message" in
     ret (JObj [("success", JBool true);
                ("data", data);
                ("message", jsOr message (JStr "Upcoming events retrieved successfully"))]))
    (fun error =>
       ret (JObj [("success", JBool false);
                  ("message", jsOr (responseMessage error)
                                   (JStr "Failed to fetch upcoming events"));
                  ("data", JArr [])])).

Definition exportEvents (filters : JsVal) : M JsVal :=
  let filters := defaultArg filters (JObj []) in
  tryCatch
    (let* format := get filters "format" in
     let* status := get filters "status" in
     let* category := get filters "category" in
     let exportData :=
       [("format", jsOr format (JStr "csv"));
        ("status", jsOr status (JStr "all"));
        ("category", jsOr category (JStr "all"))] in
     if strictEq (jsOr format (JStr "csv")) (JStr "csv") then
       let* blob :=
         apiGetWith backend "/events/export"
           (JObj [("params", JObj exportData);
                  ("responseType", JStr "blob");
                  ("headers", JObj [("Accept", JStr "text/csv")])]) in
       let filename := "events_export_" ++ today ++ ".csv" in
       let* _ := emit (Download filename "text/csv" blob) in
       ret (JObj [("success", JBool true);
                  ("data", JObj [("filename", JStr filename); ("type", JStr "download")]);
                  ("message", JStr "CSV export downloaded successfully")])
     else
       let* body :=
         apiGetWith backend "/events/export"
           (JObj [("params", JObj (setField "format" (JStr "json") exportData))]) in
       let* data := get body "data" in
       let* count := get body "count" in
       let* message := get body "message" in
       ret (JObj [("success", JBool true);
                  ("data", data);
                  ("count", count);
                  ("message", jsOr message (JStr "Events exported successfully"))]))
    (fun error =>
       ret (JObj [("success", JBool false);
                  ("message", jsOr (responseMessage error) (JStr "Failed to export events"))])).

Definition duplicateEvent (id : JsVal) : M JsVal :=
  tryCatch
    (let* _ := require id "Event ID is required" in
     let* body := apiPost backend ("/events/" ++ toString id ++ "/duplicate") JUndefined in
     let* data := get body "data" in
     let* message := get body "message" in
     ret (JObj [("success", JBool true);
                ("data", data);
                ("message", jsOr message (JStr "Event duplicated successfully"))]))
    (fun error =>
       ret (JObj [("success", JBool false);
                  ("message", jsOr (responseMessage error) (JStr "Failed to duplicate event"))])).

Definition bulkCreateEvents (eventsData : JsVal) : M JsVal :=
  tryCatch
    (let* missing := notAnArrayOrEmpty eventsData in
     if missing then throw (newError "Events data array is required")
     else
       let records := arrayElements eventsData in
       let* results := mapM (fun eventData => settled (createEvent eventData)) records in
       let* successful := filterM fulfilledOk results in
       let* failed := filterM rejectedOrFailed results in
       ret (JObj [("success", JBool (strictEq (lengthOf failed) (JNum 0)));
                  ("data", JObj [("successful", lengthOf successful);
                                 ("failed", lengthOf failed);
                                 ("total", lengthOf records);
                                 ("results", JArr results)]);
                  ("message", JStr ("Bulk create completed: "
                                    ++ toString (lengthOf successful) ++ " successful, "
                                    ++ toString (lengthOf failed) ++ " failed"))]))
    (fun error =>
       ret (JObj [("success", JBool false);
                  ("message", jsOr (errorMessage error)
                                   (JStr "Failed to bulk create events"))])).

Definition searchEvents (searchTerm filters : JsVal) : M JsVal :=
  let filters := defaultArg filters (JObj []) in
  tryCatch
    (let* blank :=
       if negb (truthy searchTerm) then ret true
       else
         let* trimmed := callTrim searchTerm in
         let* len := get trimmed "length" in
         ret (strictEq len (JNum 0)) in
     if blank then getEvents filters
     else
       let* trimmed := callTrim searchTerm in
       getEvents (JObj (setField "search" trimmed (spread filters))))
    (fun error =>
       ret (JObj [("success", JBool false);
                  ("message", jsOr (errorMessage error) (JStr "Failed to search events"));
                  ("data", JArr [])])).

Definition getEventsSummary (filters : JsVal) : M JsVal :=
  let filters := defaultArg filters (JObj []) in
  tryCatch
    (let* stats := getEventsStats in
     let* ok := get stats "success" in
     if negb (truthy ok) then ret stats
     else
       let* recentEvents :=
         getEvents
           (JObj (setFields (spread filters)
                    [("limit", JNum 5); ("sortBy", JStr "date"); ("sortOrder", JStr "DESC")])) in
       let* upcomingEvents := getUpcomingEvents (JNum 5) in
       let* statsData := get stats "data" in
       let* recentOk := get recentEvents "success" in
       let* recent := if truthy recentOk then get recentEvents "data" else ret (JArr []) in
       let* upcomingOk := get upcomingEvents "success" in
       let* upcoming :=
         if truthy upcomingOk then get upcomingEvents "data" else ret (JArr []) in
       ret (JObj [("success", JBool true);
                  ("data", JObj [("stats", statsData);
                                 ("recentEvents", recent);
                                 ("upcomingEvents", upcoming)]);
                  ("message", JStr "Events summary retrieved successfully")]))
    (fun error =>
       ret (JObj [("success", JBool false);
                  ("message", jsOr (errorMessage error)
                                   (JStr "Failed to get events summary"))])).

Definition getEventsByCategory (category : JsVal) : M JsVal :=
  tryCatch
    (let* _ := require category "Category is required" in
     getEvents (JObj [("category", category); ("limit", JNum 50);
                      ("sortBy", JStr "date"); ("sortOrder", JStr "ASC")]))
    (fun error =>
       ret (JObj [("success", JBool false);
                  ("message", jsOr (errorMessage error)
                                   (JStr "Failed to get events by category"));
                  ("data", JArr [])])).

Definition getEventsByDateRange (startDate endDate : JsVal) : M JsVal :=
  tryCatch
    (if negb (truthy startDate) || negb (truthy endDate)
     then throw (newError "Start date and end date are required")
     else
       getEvents (JObj [("limit", JNum 100); ("sortBy", JStr "date");
                        ("sortOrder", JStr "ASC")]))
    (fun error =>
       ret (JObj [("success", JBool false);
                  ("message", jsOr (errorMessage error)
                                   (JStr "Failed to get events by date range"));
                  ("data", JArr [])])).

Definition getTodaysEvents : M JsVal :=
  tryCatch
    (let* allEvents :=
       getEvents (JObj [("limit", JNum 50); ("sortBy", JStr "time");
                        ("sortOrder", JStr "ASC")]) in
     let* ok := get allEvents "success" in
     if negb (truthy ok) then ret allEvents
     else
       let* data := get allEvents "data" in
       let* todaysEvents :=
         callFilter data
           (fun event =>
              let* date := get event "date" in
              ret (strictEq date (JStr today))) in
       ret (JObj [("success", JBool true);
                  ("data", todaysEvents);
                  ("message", JStr "Today's events retrieved successfully")]))
    (fun error =>
       ret (JObj [("success", JBool false);
                  ("message", JStr "Failed to get today's events");
                  ("data", JArr [])])).

(** ** The two synchronous helpers *)

(** The time value of [new Date(v)]; [None] for an invalid date. *)
Variable dateValue : JsVal -> option Z.

(** [new Date().setHours(0, 0, 0, 0)] *)
Variable startOfToday : Z.

(** [new Date()] as a time value. *)
Variable now : Z.

(** [toLocaleDateString('en-US', ...)], [toLocaleTimeString('en-US', ...)]
    and [Intl.NumberFormat('en-NG', ...).format]. *)
Variable localeDate : option Z -> string.
Variable localeTime : option Z -> string.
Variable formatNaira : JsVal -> string.

Definition pushIf (c : bool) (msg : string) (errors : list JsVal) : list JsVal :=
  if c then (errors ++ [JStr msg])%list else errors.

Definition timeOn2000 (t : JsVal) : option Z :=
  dateValue (JStr ("2000-01-01T" ++ toString t)).

Definition validateEventData (eventData : JsVal) : JsError + JsVal :=
  let run : M JsVal :=
    let* titleRaw := get eventData "title" in
    let* title := optTrim titleRaw in
    let* titleLen := (if truthy title then get titleRaw "length" else ret JUndefined) in
    let errors :=
      if negb (truthy title) then [JStr "Event title is required"]
      else pushIf (ltNum titleLen 3 || gtNum titleLen 200)
             "Event title must be between 3 and 200 characters" [] in
    let* descriptionRaw := get eventData "description" in
    let* description := optTrim descriptionRaw in
    let* descriptionLen :=
      (if truthy description then get descriptionRaw "length" else ret JUndefined) in
    let errors :=
      if negb (truthy description)
      then (errors ++ [JStr "Event description is required"])%list
      else pushIf (ltNum descriptionLen 10)
             "Event description must be at least 10 characters" errors in
    let* date := get eventData "date" in
    let errors :=
      if negb (truthy date) then (errors ++ [JStr "Event date is required"])%list
      else pushIf (match dateValue date with
                   | Some d => d <? startOfToday
                   | None => false
                   end)
             "Event date cannot be in the past" errors in
    let* time := get eventData "time" in
    let errors := pushIf (negb (truthy time)) "Event time is required" errors in
    let* locationRaw := get eventData "location" in
    let* location := optTrim locationRaw in
    let errors := pushIf (negb (truthy location)) "Event location is required" errors in
    let* category := get eventData "category" in
    let errors := pushIf (negb (truthy category)) "Event category is required" errors in
    let* maxAttendees := get eventData "maxAttendees" in
    let errors :=
      pushIf (truthy maxAttendees && (ltNum maxAttendees 1 || gtNum maxAttendees 50000))
        "Max attendees must be between 1 and 50,000" errors in
    let* endTime := get eventData "endTime" in
    let errors :=
      pushIf (truthy time && truthy endTime &&
              match timeOn2000 endTime, timeOn2000 time with
              | Some e, Some s => e <=? s
              | _, _ => false
              end)
        "End time must be after start time" errors in
    let* isRecurring := get eventData "isRecurring" in
    let* recurringPattern := get eventData "recurringPattern" in
    let errors :=
      pushIf (truthy isRecurring && negb (truthy recurringPattern))
        "Recurring pattern is required for recurring events" errors in
    let* eventFee := get eventData "eventFee" in
    let errors :=
      pushIf (truthy eventFee && ltNum eventFee 0) "Event fee cannot be negative" errors in
    ret (JObj [("isValid", JBool (strictEq (lengthOf errors) (JNum 0)));
               ("errors", JArr errors)]) in
  fst (run []).

Definition formatEventForDisplay (event : JsVal) : JsError + JsVal :=
  if negb (truthy event) then inr JNull
  else
    let run : M JsVal :=
      let* date := get event "date" in
      let* time := get event "time" in
      let* endTime := get event "endTime" in
      let* eventFee := get event "eventFee" in
      ret (JObj (setFields
                   [("formattedDate", JStr (localeDate (dateValue date)));
                    ("formattedTime",
                     JStr (if truthy time then localeTime (timeOn2000 time) else ""));
                    ("formattedEndTime",
                     JStr (if truthy endTime then localeTime (timeOn2000 endTime) else ""));
                    ("formattedFee",
                     JStr (if truthy eventFee then formatNaira eventFee else "Free"));
                    ("daysUntil",
                     numOf (option_map (fun d => - ((now - d) / 86400000)) (dateValue date)))]
                   (spread event))) in
    fst (run []).

End EventsAPI.

End Events.

(* ===================================================================== *)
(** * src/Services/apiClient.js                                          *)
(* ===================================================================== *)

Module ApiClient.
Import JS.

(** A request config object. Only the fields the interceptors read or write
    are distinguished; [data] stands for the rest of the request. *)
Record Config : Type := mkConfig {
  url : string;
  method : string;
  headers : gmap string string;
  data : JsVal;
  _retry : bool;
  metadata : option Z
}.

Definition setAuthorization (value : string) (config : Config) : Config :=
  mkConfig (url config) (method config) (<["Authorization" := value]> (headers config))
    (data config) (_retry config) (metadata config).

Definition setRetry (config : Config) : Config :=
  mkConfig (url config) (method config) (headers config) (data config) true
    (metadata config).

Definition setMetadata (startTime : Z) (config : Config) : Config :=
  mkConfig (url config) (method config) (headers config) (data config) (_retry config)
    (Some startTime).

(** [localStorage.getItem(key)] followed by a truthiness test: the stored
    string when there is one and it is not empty. *)
Definition truthyItem (localStorage : gmap string string) (key : string) : option string :=
  match localStorage !! key with
  | Some v => if String.eqb v "" then None else Some v
  | None => None
  end.

(** The request interceptor; [now] is [new Date()]. *)
Definition requestInterceptor (localStorage : gmap string string) (now : Z)
    (config : Config) : Config :=
  let config :=
    match truthyItem localStorage "churchAdminToken" with
    | Some token => setAuthorization ("Bearer " ++ token) config
    | None => config
    end in
  setMetadata now config.

(** The error the response interceptor receives: [error.config] (a
    reference to the request's config object), [error.code] and the error
    itself with [error.message] and [error.response]. *)
Record AxiosError : Type := mkAxiosError {
  ax_config : nat;
  ax_code : string;
  ax_error : JsError
}.

(** What the interceptor does to the outside: the refresh call
    ([axios.post] to [/auth/refresh] with the refresh token as bearer),
    notifications, the logout broadcast, the redirect, the settlement of a
    queued promise, the resubmission [apiClient(originalRequest)] whose
    result the handler returns, and the rejection of a handler's promise.
    Console output is left out. *)
Inductive Action : Type :=
| RefreshCall (bearer : string)
| Toast (msg : string)
| Dispatch (event : string)
| Navigate (href : string)
| QueueResolve (request : nat) (token : JsVal)
| QueueReject (request : nat) (error : JsError)
| Resubmit (request : nat) (config : Config)
| Reject (request : nat) (error : JsError).

(** The module state ([isRefreshing], [failedQueue]), the browser state the
    interceptor touches, the config objects by identity, the handler
    suspended at [await axios.post(...)] with its [originalRequest] and
    [refreshToken], and the effects so far. A queue entry is the
    [{resolve, reject}] pair of the promise created for that request. *)
Record Client : Type := mkClient {
  isRefreshing : bool;
  failedQueue : list nat;
  localStorage : gmap string string;
  requests : gmap nat Config;
  pathname : string;
  awaiting : option (nat * string);
  trace : list Action
}.

Definition act (e : Action) (st : Client) : Client :=
  mkClient (isRefreshing st) (failedQueue st) (localStorage st) (requests st)
    (pathname st) (awaiting st) (trace st ++ [e])%list.

Definition setRefreshing (b : bool) (st : Client) : Client :=
  mkClient b (failedQueue st) (localStorage st) (requests st) (pathname st)
    (awaiting st) (trace st).

Definition setQueue (q : list nat) (st : Client) : Client :=
  mkClient (isRefreshing st) q (localStorage st) (requests st) (pathname st)
    (awaiting st) (trace st).

Definition setStorage (ls : gmap string string) (st : Client) : Client :=
  mkClient (isRefreshing st) (failedQueue st) ls (requests st) (pathname st)
    (awaiting st) (trace st).

Definition setRequests (rs : gmap nat Config) (st : Client) : Client :=
  mkClient (isRefreshing st) (failedQueue st) (localStorage st) rs (pathname st)
    (awaiting st) (trace st).

Definition setAwaiting (a : option (nat * string)) (st : Client) : Client :=
  mkClient (isRefreshing st) (failedQueue st) (localStorage st) (requests st)
    (pathname st) a (trace st).

Definition setItem (key value : string) (st : Client) : Client :=
  setStorage (<[key := value]> (localStorage st)) st.

Definition removeItem (key : string) (st : Client) : Client :=
  setStorage (delete key (localStorage st)) st.

(** [processQueue(error, token)]: every queued promise is rejected with
    [error] when there is one and resolved with [token] otherwise; then the
    queue is emptied. *)
Definition processQueue (error : option JsError) (token : JsVal) (st : Client) : Client :=
  let st :=
    fold_left
      (fun st prom =>
         match error with
         | Some e => act (QueueReject prom e) st
         | None => act (QueueResolve prom token) st
         end)
      (failedQueue st) st in
  setQueue [] st.

(** [originalRequest.headers.Authorization = `Bearer ${token}`;
     return apiClient(originalRequest)] *)
Definition resubmit (request : nat) (token : JsVal) (st : Client) : Client :=
  match requests st !! request with
  | Some config =>
      let config := setAuthorization ("Bearer " ++ toString token) config in
      act (Resubmit request config) (setRequests (<[request := config]> (requests st)) st)
  | None =>
      act (Reject request
              (typeError "Cannot read properties of undefined (reading 'headers')")) st
  end.

(** The [.then]/[.catch] continuations of the queued promises; they run
    once the handler that settled the queue has finished. *)
Definition resumeResolved (queued : list nat) (token : JsVal) (st : Client) : Client :=
  fold_left (fun st request => resubmit request token st) queued st.

Definition resumeRejected (queued : list nat) (error : JsError) (st : Client) : Client :=
  fold_left (fun st request => act (Reject request error) st) queued st.

(** The new access token of a refresh response body:
    [(data.data || data).accessToken || (data.data || data).token]. *)
Definition newAccessTokenOf (body : JsVal) : option JsVal :=
  if truthy body then
    let responseData := jsOr (optProp body "data") body in
    let newAccessToken :=
      jsOr (optProp responseData "accessToken") (optProp responseData "token") in
    if truthy newAccessToken then Some newAccessToken else None
  else None.

(** The [try] block after the refresh call resolved with a new token, and
    the [finally] step. *)
Definition refreshSucceeded (request : nat) (refreshToken : string)
    (newAccessToken : JsVal) (st : Client) : Client :=
  let queued := failedQueue st in
  let st := setItem "churchAdminToken" (toString newAccessToken) st in
  let st := setItem "churchAdminRefreshToken" refreshToken st in
  let st := processQueue None newAccessToken st in
  let st := resubmit request newAccessToken st in
  let st := setRefreshing false st in
  resumeResolved queued newAccessToken st.

(** The [catch] block and the [finally] step. *)
Definition refreshFailed (request : nat) (refreshError : JsError) (st : Client) : Client :=
  let queued := failedQueue st in
  let st := processQueue (Some refreshError) JNull st in
  let st := removeItem "churchAdminToken" st in
  let st := removeItem "churchAdminRefreshToken" st in
  let st := act (Dispatch "auth:logout") st in
  let st :=
    if negb (String.eqb (pathname st) "/login") then act (Navigate "/login") st else st in
  let st := act (Reject request refreshError) st in
  let st := setRefreshing false st in
  resumeRejected queued refreshError st.

Definition getDefaultErrorMessage (status : Z) : string :=
  if status =? 400 then "Bad Request"
  else if status =? 401 then "Unauthorized"
  else if status =? 403 then "Forbidden"
  else if status =? 404 then "Not Found"
  else if status =? 409 then "Conflict"
  else if status =? 422 then "Validation Error"
  else if status =? 429 then "Too Many Requests"
  else if status =? 500 then "Internal Server Error"
  else if status =? 502 then "Bad Gateway"
  else if status =? 503 then "Service Unavailable"
  else "An error occurred".

(** [Object.values(v).flat()] *)
Definition valuesFlat (v : JsVal) : list JsVal :=
  let values :=
    match v with
    | JObj fs => map snd fs
    | JArr xs => xs
    | JStr s => charsOf s
    | _ => []
    end in
  concat (map (fun x => match x with
                        | JArr ys => ys
                        | _ => [x]
                        end) values).

(** The notification for an HTTP error that is not handled by a refresh. *)
Definition notify (status : Z) (body : JsVal) : list Action :=
  let errorMessage :=
    toString (jsOr (jsOr (optProp body "message") (optProp body "error"))
                (JStr (getDefaultErrorMessage status))) in
  let errors := optProp body "errors" in
  if status =? 400 then
    match errors with
    | JArr xs => [Toast ("Validation Error: " ++ arrayJoin ", " xs)]
    | _ => [Toast ("Bad Request: " ++ errorMessage)]
    end
  else if status =? 403 then
    [Toast "Access forbidden. You do not have permission to perform this action."]
  else if status =? 404 then [Toast "Resource not found."]
  else if status =? 409 then [Toast ("Conflict: " ++ errorMessage)]
  else if status =? 422 then
    if truthy errors
    then [Toast ("Validation Error: " ++ arrayJoin ", " (valuesFlat errors))]
    else [Toast ("Validation Error: " ++ errorMessage)]
  else if status =? 429 then [Toast "Too many requests. Please try again later."]
  else if status =? 500 then [Toast "Internal server error. Please try again later."]
  else if status =? 502 then [Toast "Bad Gateway. The server is temporarily unavailable."]
  else if status =? 503 then
    [Toast "Service temporarily unavailable. Please try again later."]
  else if (400 <=? status) && (status <? 500) then [Toast errorMessage]
  else if 500 <=? status then [Toast "Server error. Please try again later."]
  else [].

Definition actAll (es : list Action) (st : Client) : Client :=
  fold_left (fun st e => act e st) es st.

(** The response interceptor's rejection handler, up to its first
    suspension point. *)
Definition responseErrorHandler (error : AxiosError) (st : Client) : Client :=
  let originalRequest := ax_config error in
  match err_response (ax_error error) with
  | None =>
      let st :=
        if String.eqb (ax_code error) "ECONNABORTED" then
          act (Toast "Request timeout. Please check your internet connection and try again.") st
        else if String.eqb (ax_code error) "ERR_NETWORK" then
          act (Toast "Network error. Please check your internet connection.") st
        else
          act (Toast "Unable to connect to server. Please check your internet connection.") st in
      act (Reject originalRequest (ax_error error)) st
  | Some (status, body) =>
      let otherwise :=
        act (Reject originalRequest (ax_error error)) (actAll (notify status body) st) in
      if status =? 401 then
        match requests st !! originalRequest with
        | None =>
            act (Reject originalRequest
                    (typeError "Cannot read properties of undefined (reading '_retry')")) st
        | Some config =>
            if _retry config then otherwise
            else if isRefreshing st then
              setQueue (failedQueue st ++ [originalRequest])%list st
            else
              let st :=
                setRequests (<[originalRequest := setRetry config]> (requests st)) st in
              let st := setRefreshing true st in
              match truthyItem (localStorage st) "churchAdminRefreshToken" with
              | Some refreshToken =>
                  setAwaiting (Some (originalRequest, refreshToken))
                    (act (RefreshCall refreshToken) st)
              | None =>
                  refreshFailed originalRequest (newError "No refresh token available") st
              end
        end
      else otherwise
  end.

(** The handler suspended at [await axios.post(...)] resumes when the
    refresh call settles: with the response body, or with the error of a
    network failure or of a status outside 2xx. *)
Definition refreshSettled (outcome : JsError + JsVal) (st : Client) : Client :=
  match awaiting st with
  | None => st
  | Some (originalRequest, refreshToken) =>
      let st := setAwaiting None st in
      match outcome with
      | inr body =>
          match newAccessTokenOf body with
          | Some newAccessToken =>
              refreshSucceeded originalRequest refreshToken newAccessToken st
          | None =>
              refreshFailed originalRequest (newError "No refresh token available") st
          end
      | inl refreshError => refreshFailed originalRequest refreshError st
      end
  end.

(** What the event loop delivers to the response interceptor. Other code
    of the page runs between two events and can write the storage (the
    [tokenManager] of this module does): such a write is a [setStorage] on
    the state, not an event. *)
Inductive Event : Type :=
| ResponseFailed (error : AxiosError)
| RefreshSettled (outcome : JsError + JsVal).

Definition step (st : Client) (ev : Event) : Client :=
  match ev with
  | ResponseFailed error => responseErrorHandler error st
  | RefreshSettled outcome => refreshSettled outcome st
  end.

Definition run (evs : list Event) (st : Client) : Client := fold_left step evs st.

(** A 401 response to the request whose config object is [request]. *)
Definition unauthorized (request : nat) (body : JsVal) : AxiosError :=
  mkAxiosError request "ERR_BAD_REQUEST"
    (mkError "AxiosError" "Request failed with status code 401" (Some (401, body))).

(** The error every settled request of a refresh attempt ends with, if the
    attempt fails. *)
Definition refreshError (outcome : JsError + JsVal) : option JsError :=
  match outcome with
  | inl e => Some e
  | inr body =>
      match newAccessTokenOf body with
      | Some _ => None
      | None => Some (newError "No refresh token available")
      end
  end.

Definition isRefreshCall (e : Action) : bool :=
  match e with
  | RefreshCall _ => true
  | _ => false
  end.

Definition isDispatch (e : Action) : bool :=
  match e with
  | Dispatch _ => true
  | _ => false
  end.

Definition count (p : Action -> bool) (es : list Action) : nat :=
  List.length (List.filter p es).

End ApiClient.

(* ===================================================================== *)
(** * src/Services/apiClient.js: the file helpers and the token manager   *)
(* ===================================================================== *)

Module ApiHelpers.
Import JS Gateway.

Section Files.

Variable backend : World -> HttpRequest -> JsError + JsVal.

(** [uploadFile(endpoint, file, onUploadProgress)]. The form data is the
    list of its entries; the config is shown without its progress handler,
    which is [onProgress] below. *)
Definition uploadFile (endpoint : string) (file : JsVal) : M JsVal :=
  let formData := JObj [("file", file)] in
  tryCatch
    (let* body :=
       apiPostWith backend endpoint formData
         (JObj [("headers", JObj [("Content-Type", JStr "multipart/form-data")])]) in
     ret (JObj [("success", JBool true);
                ("data", body);
                ("message", jsOr (optProp body "message")
                              (JStr "File uploaded successfully"))]))
    (fun error =>
       ret (JObj [("success", JBool false);
                  ("message", jsOr (jsOr (responseMessage error) (errorMessage error))
                                   (JStr "File upload failed"))])).

(** [downloadFile(endpoint, filename)]: the blob is made without a type. *)
Definition downloadFile (endpoint filename : string) : M JsVal :=
  tryCatch
    (let* blob :=
       apiGetWith backend endpoint (JObj [("responseType", JStr "blob")]) in
     let* _ := emit (Download filename "" blob) in
     ret (JObj [("success", JBool true);
                ("message", JStr "File downloaded successfully")]))
    (fun error =>
       ret (JObj [("success", JBool false);
                  ("message", jsOr (jsOr (responseMessage error) (errorMessage error))
                                   (JStr "File download failed"))])).

End Files.

(** [Math.round((loaded * 100) / total)] for whole numbers of bytes: the
    product and the quotient are doubles. *)
Definition percentCompleted (loaded total : Z) : JsVal :=
  mathRound (quotient (nearest (loaded * 100) 1) total).

(** The progress handler [uploadFile] installs: what it passes to the
    caller's handler, if anything. [total] is [None] when the length is not
    computable. *)
Definition onProgress (onUploadProgress : bool) (loaded : Z) (total : option Z)
  : option JsVal :=
  match total with
  | Some t =>
      if onUploadProgress && negb (t =? 0) then Some (percentCompleted loaded t) else None
  | None => None
  end.

(** ** [tokenManager], on the storage of the browser *)

Definition setTokens (token refreshToken : JsVal) (localStorage : gmap string string)
  : gmap string string :=
  <["churchAdminRefreshToken" := toString refreshToken]>
    (<["churchAdminToken" := toString token]> localStorage).

Definition getToken (localStorage : gmap string string) : option string :=
  localStorage !! "churchAdminToken".

Definition getRefreshToken (localStorage : gmap string string) : option string :=
  localStorage !! "churchAdminRefreshToken".

Definition clearTokens (localStorage : gmap string string) : gmap string string :=
  delete "churchAdminRefreshToken" (delete "churchAdminToken" localStorage).

End ApiHelpers.

(* ===================================================================== *)
(** * src/pages/admin: the handlers of the two listing pages              *)
(* ===================================================================== *)

Module Pages.
Import JS Gateway.

(** [handleFilterChange(key, value)], as the update of the filters state:
    [{...prev, [key]: value, page: key === 'page' ? value : 1}]. *)
Definition handleFilterChange (key : string) (value : JsVal) (prev : JsVal) : JsVal :=
  JObj (setField "page" (if String.eqb key "page" then value else JNum 1)
          (setField key value (spread prev))).

(** [handleClearFilters] of EventsManagement.jsx. *)
Definition clearEventFilters (prev : JsVal) : JsVal :=
  JObj (setFields [("search", JStr ""); ("status", JStr "all"); ("category", JStr "all");
                   ("page", JNum 1)] (spread prev)).

(** [handleClearFilters] of AttendanceManagement.jsx. *)
Definition clearAttendanceFilters (prev : JsVal) : JsVal :=
  JObj (setFields [("startDate", JStr ""); ("endDate", JStr ""); ("serviceType", JStr "all");
                   ("page", JNum 1)] (spread prev)).

(** [handlePageChange(newPage)], page numbers being whole numbers: the
    filters state it leaves. *)
Definition handlePageChange (totalPages newPage : Z) (prev : JsVal) : JsVal :=
  if (1 <=? newPage) && (newPage <=? totalPages)
  then handleFilterChange "page" (JNum newPage) prev
  else prev.

(** The page buttons, which the pages render under
    [pagination.totalPages > 1] only:
    [Array.from({ length: Math.min(5, totalPages) }, (_, i) => ...)], with
    [None] where the callback returns null. *)
Definition pageButtons (totalPages currentPage : Z) : list (option Z) :=
  if 1 <? totalPages then
    map (fun i : nat =>
           let i := Z.of_nat i in
           if totalPages <=? 5 then Some (i + 1)
           else
             let start := Z.max 1 (currentPage - 2) in
             let end_ := Z.min totalPages (start + 4) in
             let pageNum := start + i in
             if end_ <? pageNum then None else Some pageNum)
        (seq 0 (Z.to_nat (Z.min 5 totalPages)))
  else [].

(** What the page shows when a handler ends: [toast.success] or
    [toast.error] with a message. *)
Inductive Notice : Type :=
| Succeeded (message : JsVal)
| Failed (message : JsVal).

Section Handlers.

Variable backend : World -> HttpRequest -> JsError + JsVal.
Variable today : string.

(** [x !== 'all' ? x : undefined] *)
Definition unlessAll (v : JsVal) : JsVal :=
  if negb (strictEq v (JStr "all")) then v else JUndefined.

(** [handleExport] of EventsManagement.jsx. *)
Definition handleExport (filters : JsVal) : M Notice :=
  tryCatch
    (let* status := get filters "status" in
     let* category := get filters "category" in
     let exportFilters :=
       JObj [("status", unlessAll status); ("category", unlessAll category);
             ("format", JStr "csv")] in
     let* response := Events.exportEvents backend today exportFilters in
     let* ok := get response "success" in
     let* message := get response "message" in
     ret (if truthy ok then Succeeded message else Failed message))
    (fun error => ret (Failed (JStr "Failed to export events"))).

(** [generateReport] of AttendanceManagement.jsx. *)
Definition generateReport (filters : JsVal) : M Notice :=
  tryCatch
    (let* startDate := get filters "startDate" in
     let* endDate := get filters "endDate" in
     let* serviceType := get filters "serviceType" in
     let reportFilters :=
       JObj [("startDate", startDate); ("endDate", endDate);
             ("serviceType", unlessAll serviceType); ("format", JStr "csv")] in
     let* response := Attendance.generateReport backend today reportFilters in
     let* ok := get response "success" in
     let* message := get response "message" in
     ret (if truthy ok then Succeeded message else Failed message))
    (fun error => ret (Failed (JStr "Failed to generate report"))).

End Handlers.

End Pages.

(* ===================================================================== *)
(** * Statements about the gateways                                       *)
(* ===================================================================== *)

Module GatewaySpec.
Import JS Gateway.

(** Every asynchronous function of [attendanceAPI] and of [eventsAPI], with
    its arguments. *)
Inductive Operation : Type :=
| GetAttendanceRecords (filters : JsVal)
| GetAttendanceById (id : JsVal)
| CreateAttendance (attendanceData : JsVal)
| UpdateAttendance (id attendanceData : JsVal)
| DeleteAttendance (id : JsVal)
| GetAttendanceStats (period : JsVal)
| GetServiceTypes
| GetMembersForAttendance
| GenerateReport (filters : JsVal)
| BulkCreateAttendance (attendanceRecords : JsVal)
| SearchAttendance (searchTerm filters : JsVal)
| GetAttendanceSummary (period : JsVal)
| GetEvents (filters : JsVal)
| GetEventById (id : JsVal)
| CreateEvent (eventData : JsVal)
| UpdateEvent (id eventData : JsVal)
| DeleteEvent (id : JsVal)
| GetEventCategories
| GetEventsStats
| UpdateEventAttendance (id attendanceCount : JsVal)
| GetUpcomingEvents (limit : JsVal)
| ExportEvents (filters : JsVal)
| DuplicateEvent (id : JsVal)
| BulkCreateEvents (eventsData : JsVal)
| SearchEvents (searchTerm filters : JsVal)
| GetEventsSummary (filters : JsVal)
| GetEventsByCategory (category : JsVal)
| GetEventsByDateRange (startDate endDate : JsVal)
| GetTodaysEvents.

Section Specs.

Variable backend : World -> HttpRequest -> JsError + JsVal.
Variable today : string.
Variable parseFloat : JsVal -> JsVal.

Definition perform (op : Operation) : M JsVal :=
  match op with
  | GetAttendanceRecords filters => Attendance.getAttendanceRecords backend filters
  | GetAttendanceById id => Attendance.getAttendanceById backend id
  | CreateAttendance d => Attendance.createAttendance backend d
  | UpdateAttendance id d => Attendance.updateAttendance backend id d
  | DeleteAttendance id => Attendance.deleteAttendance backend id
  | GetAttendanceStats period => Attendance.getAttendanceStats backend period
  | GetServiceTypes => Attendance.getServiceTypes backend
  | GetMembersForAttendance => Attendance.getMembersForAttendance backend
  | GenerateReport filters => Attendance.generateReport backend today filters
  | BulkCreateAttendance records => Attendance.bulkCreateAttendance backend records
  | SearchAttendance term filters => Attendance.searchAttendance backend term filters
  | GetAttendanceSummary period => Attendance.getAttendanceSummary backend period
  | GetEvents filters => Events.getEvents backend filters
  | GetEventById id => Events.getEventById backend id
  | CreateEvent d => Events.createEvent backend parseFloat d
  | UpdateEvent id d => Events.updateEvent backend parseFloat id d
  | DeleteEvent id => Events.deleteEvent backend id
  | GetEventCategories => Events.getEventCategories backend
  | GetEventsStats => Events.getEventsStats backend
  | UpdateEventAttendance id n => Events.updateEventAttendance backend id n
  | GetUpcomingEvents limit => Events.getUpcomingEvents backend limit
  | ExportEvents filters => Events.exportEvents backend today filters
  | DuplicateEvent id => Events.duplicateEvent backend id
  | BulkCreateEvents records => Events.bulkCreateEvents backend parseFloat records
  | SearchEvents term filters => Events.searchEvents backend term filters
  | GetEventsSummary filters => Events.getEventsSummary backend filters
  | GetEventsByCategory category => Events.getEventsByCategory backend category
  | GetEventsByDateRange a b => Events.getEventsByDateRange backend a b
  | GetTodaysEvents => Events.getTodaysEvents backend today
  end.

(** The error is one the transport rejected some call with. *)
Definition fromBackend (e : JsError) : Prop := exists w r, backend w r = inl e.

(** An error raised by the gateway itself has no response attached. *)
Definition localOrBackend (e : JsError) : Prop :=
  err_response e = None \/ fromBackend e.

Definition clientText (v : JsVal) : Prop := exists s, v = JStr s /\ s <> "".

(** The message of a failure: a non-empty string written by the client
    (a literal of the gateway or the message of a caught [Error]), or else
    the truthy [message] value of the backend's own error response. *)
Definition failureMessage (v : JsVal) : Prop :=
  clientText v \/
  (truthy v = true /\ exists e, fromBackend e /\ v = responseMessage e).

(** The Result Envelope: an object with a boolean [success] and a
    [message], the message of a failure being non-empty. *)
Definition envelope (v : JsVal) : Prop :=
  exists fs b msg,
    v = JObj fs /\
    lookupField "success" fs = Some (JBool b) /\
    lookupField "message" fs = Some msg /\
    (b = false -> failureMessage msg).

(** What an async body may end with: a value satisfying [P] or a thrown
    error satisfying [Q]. *)
Definition outcomes {A} (P : A -> Prop) (Q : JsError -> Prop) (m : M A) : Prop :=
  forall w,
    match fst (m w) with
    | inr v => P v
    | inl e => Q e
    end.

Definition anything {A} (x : A) : Prop := True.

Definition never (e : JsError) : Prop := False.

End Specs.

(** ** The query a list operation sends *)

(** The filter keys an operation forwards, in the order it appends them;
    the flag marks the keys whose value ['all'] stands for no filter. *)
Definition eventsKeys : list (string * bool) :=
  [("page", false); ("limit", false); ("search", false); ("status", true);
   ("category", true); ("upcoming", false); ("sortBy", false); ("sortOrder", false)].

Definition attendanceKeys : list (string * bool) :=
  [("page", false); ("limit", false); ("startDate", false); ("endDate", false);
   ("serviceType", true); ("sortBy", false); ("sortOrder", false)].

(** A field is forwarded when its value is truthy and, for a flagged key,
    different from ['all']. *)
Definition forwarded (filters : list (string * JsVal)) (key : string * bool)
  : option (string * string) :=
  let v := default JUndefined (lookupField (fst key) filters) in
  if truthy v && negb (snd key && strictEq v (JStr "all"))
  then Some (fst key, toString v) else None.

Definition queryOf (keys : list (string * bool)) (filters : list (string * JsVal)) : Query :=
  omap (forwarded filters) keys.

Definition optionList {A} (o : option A) : list A :=
  match o with
  | Some x => [x]
  | None => []
  end.

(** ** Blank search terms *)

(** A string made of white space only: a concatenation of the code points
    [trim] strips. *)
Inductive whitespaceOnly : list ascii -> Prop :=
| ws_nil : whitespaceOnly []
| ws_app p l : In p whitespace -> whitespaceOnly l -> whitespaceOnly (p ++ l)%list.

(** A search term that is absent, empty or made of white space. *)
Definition blankTerm (searchTerm : JsVal) : Prop :=
  searchTerm = JUndefined \/
  exists s, searchTerm = JStr s /\ whitespaceOnly (list_ascii_of_string s).

(** ** Local validation of an attendance record *)

(** The message of the first check of [createAttendance] that fails. *)
Definition validationMessage (attendanceData : JsVal) : string :=
  if negb (truthy (optProp attendanceData "date")) then "Date is required"
  else if negb (truthy (optProp attendanceData "serviceType"))
       then "Service type is required"
       else "Total attendance must be a non-negative number".

(** The message with which [createAttendance] refuses its argument: the
    message of the first failing check, or that of the TypeError that
    reading a field of [undefined] or [null] throws. *)
Definition refusal (attendanceData : JsVal) : string :=
  match prop attendanceData "date" with
  | inl error => err_message error
  | inr _ => validationMessage attendanceData
  end.

(** ** Bulk creation *)

(** A settled result whose value is an object with a boolean [success]. *)
Definition settledEnvelope (result : JsVal) : Prop :=
  exists fs b,
    result = JObj [("status", JStr "fulfilled"); ("value", JObj fs)] /\
    lookupField "success" fs = Some (JBool b).

Definition fulfilled (value : JsVal) : JsVal :=
  JObj [("status", JStr "fulfilled"); ("value", value)].

(** One [createAttendance] per record, in order, each starting from the log
    the previous one left; every outcome is kept, failed or not. *)
Inductive createdEach (backend : World -> HttpRequest -> JsError + JsVal)
  : World -> list JsVal -> list JsVal -> World -> Prop :=
| created_nil w : createdEach backend w [] [] w
| created_cons w record value w1 records results w2 :
    Attendance.createAttendance backend record w = (inr value, w1) ->
    createdEach backend w1 records results w2 ->
    createdEach backend w (record :: records) (fulfilled value :: results) w2.

(** [result.value.success] of a settled result that is fulfilled. *)
Definition succeeded (result : JsVal) : bool :=
  strictEq (optProp result "status") (JStr "fulfilled") &&
  truthy (optProp (optProp result "value") "success").

Definition countOf (p : JsVal -> bool) (xs : list JsVal) : Z :=
  Z.of_nat (List.length (List.filter p xs)).

End GatewaySpec.

(* ===================================================================== *)
(** * Statements about the transport core                                 *)
(* ===================================================================== *)

Module TransportSpec.
Import JS ApiClient.

(** No refresh is in flight. *)
Definition idle (st : Client) : Prop :=
  isRefreshing st = false /\ failedQueue st = [] /\ awaiting st = None.

(** The data-model invariant of the refresh state: the flag is set exactly
    while a handler waits for the refresh call, that handler holds the
    stored refresh token, and the queue is empty outside a refresh. *)
Definition consistent (st : Client) : Prop :=
  match awaiting st with
  | Some (request, refreshToken) =>
      isRefreshing st = true /\
      localStorage st !! "churchAdminRefreshToken" = Some refreshToken /\
      refreshToken <> ""
  | None => isRefreshing st = false /\ failedQueue st = []
  end.

(** The error is a response with status 401. *)
Definition is401 (error : AxiosError) : Prop :=
  exists body, err_response (ax_error error) = Some (401, body).

(** The request's config object exists and is not marked as retried. *)
Definition notRetried (st : Client) (request : nat) : Prop :=
  exists config, requests st !! request = Some config /\ _retry config = false.

(** What resuming a request with [token] does, given the config objects. *)
Definition resubmitted (token : JsVal) (configs : gmap nat Config) (request : nat) : Action :=
  match configs !! request with
  | Some config => Resubmit request (setAuthorization ("Bearer " ++ toString token) config)
  | None =>
      Reject request (typeError "Cannot read properties of undefined (reading 'headers')")
  end.

(** A refresh attempt that fails: [refreshFails st request error st'] says
    that in state [st] the attempt made for [request] fails with [error] and
    leaves the client in [st']. *)
Inductive refreshFails : Client -> nat -> JsError -> Client -> Prop :=
| no_stored_refresh_token st error config :
    is401 error ->
    requests st !! ax_config error = Some config ->
    _retry config = false ->
    isRefreshing st = false ->
    truthyItem (localStorage st) "churchAdminRefreshToken" = None ->
    refreshFails st (ax_config error) (newError "No refresh token available")
      (responseErrorHandler error st)
| refresh_call_rejected st request refreshToken error :
    awaiting st = Some (request, refreshToken) ->
    refreshFails st request error (refreshSettled (inl error) st)
| no_token_in_payload st request refreshToken body :
    awaiting st = Some (request, refreshToken) ->
    newAccessTokenOf body = None ->
    refreshFails st request (newError "No refresh token available")
      (refreshSettled (inr body) st).

(** The effect settles the promise of [request]: the request is resubmitted
    (its result becomes the result of the original call) or rejected. *)
Definition settles (request : nat) (e : Action) : bool :=
  match e with
  | Resubmit q _ | Reject q _ => Nat.eqb q request
  | _ => false
  end.

(** The new access token a settled refresh call yields, if any. *)
Definition refreshedToken (outcome : JsError + JsVal) : option JsVal :=
  match outcome with
  | inr body => newAccessTokenOf body
  | inl _ => None
  end.

(** The fields of a config other than the Authorization header and the
    metadata are the same. *)
Definition sameRequest (a b : Config) : Prop :=
  url a = url b /\ method a = method b /\ data a = data b /\ _retry a = _retry b /\
  forall name, name <> "Authorization" -> headers a !! name = headers b !! name.

End TransportSpec.

(* ===================================================================== *)
(** * Concrete inputs                                                     *)
(* ===================================================================== *)

Module Examples.
Import JS Gateway ApiClient.

(** A backend that accepts every call. *)
Definition accepting (w : World) (r : HttpRequest) : JsError + JsVal :=
  inr (JObj [("data", JObj [("id", JNum (Z.of_nat (List.length w)))]);
             ("message", JStr "Saved")]).

(** A backend that answers every call with an error response. *)
Definition failing (status : Z) (body : JsVal) (w : World) (r : HttpRequest)
  : JsError + JsVal :=
  inl (mkError "AxiosError" "Request failed" (Some (status, body))).

(** A backend that answers every call with [payload]. *)
Definition serving (payload : JsVal) (w : World) (r : HttpRequest) : JsError + JsVal :=
  inr payload.

Definition csvBlob : JsVal := JStr "date,serviceType,total".

Definition sunday (total : Z) : JsVal :=
  JObj [("date", JStr "2025-03-02"); ("serviceType", JStr "Sunday Main Service");
        ("totalAttendance", JNum total)].

(** Three records that pass the local checks and two that do not. *)
Definition fiveRecords : list JsVal :=
  [sunday 120; sunday (-1); sunday 0;
   JObj [("serviceType", JStr "Sunday School"); ("totalAttendance", JNum 40)];
   sunday 95].

Definition noDates (v : JsVal) : option Z := None.

Definition noText (v : option Z) : string := "".

Definition noAmount (v : JsVal) : string := "".

Definition plainConfig (path : string) : Config :=
  mkConfig path "get" ∅ JUndefined false None.

Definition twoRequests : gmap nat Config :=
  {[ 1%nat := plainConfig "/members"; 2%nat := plainConfig "/events" ]}.

(** A session with both tokens stored and no refresh in flight. *)
Definition signedIn : Client :=
  mkClient false []
    {[ "churchAdminToken" := "expired"; "churchAdminRefreshToken" := "refresh-1" ]}
    twoRequests "/admin/members" None [].

(** A client on the login page that holds an access token and no refresh
    token. *)
Definition signedOut : Client :=
  mkClient false [] {[ "churchAdminToken" := "expired" ]} twoRequests "/login" None [].

Definition configOfTwo (r : nat) : Config :=
  if Nat.eqb r 1 then plainConfig "/members" else plainConfig "/events".

Definition expired (r : nat) : AxiosError := unauthorized r JNull.

Definition freshToken : JsVal := JObj [("accessToken", JStr "fresh")].

Definition refreshRejected : JsError :=
  mkError "AxiosError" "Request failed with status code 401" (Some (401, JNull)).

(** The first request has started a refresh. *)
Definition refreshing : Client := responseErrorHandler (expired 1) signedIn.

(** Both requests have received their 401; the second waits in the queue. *)
Definition bothWaiting : Client :=
  run [ResponseFailed (expired 1); ResponseFailed (expired 2)] signedIn.

(** The user has logged out while the refresh call was on its way:
    [tokenManager.clearTokens()] has emptied the storage. *)
Definition loggedOutMeanwhile : Client :=
  setStorage (ApiHelpers.clearTokens (localStorage bothWaiting)) bothWaiting.

End Examples.

(* ===================================================================== *)
(** * Further statements about the gateways                               *)
(* ===================================================================== *)

Module OperationSpec.
Import JS Gateway GatewaySpec.

(** The operations that take the id of a record, applied to [id], with the
    message each one answers when the id is missing. The readers and the
    removers answer with their general failure text; the three updates pass
    on the text of the error they raised. *)
Definition operationsById (id other : JsVal) : list (Operation * string) :=
  [(GetAttendanceById id, "Failed to fetch attendance record");
   (UpdateAttendance id other, "Attendance ID is required");
   (DeleteAttendance id, "Failed to delete attendance record");
   (GetEventById id, "Failed to fetch event details");
   (UpdateEvent id other, "Event ID is required");
   (DeleteEvent id, "Failed to delete event");
   (UpdateEventAttendance id other, "Event ID is required");
   (DuplicateEvent id, "Failed to duplicate event")].

(** The statistics an attendance statistics failure carries. *)
Definition noStatistics : JsVal :=
  JObj [("totalRecords", JNum 0); ("totalAttendance", JNum 0);
        ("averageAttendance", JNum 0); ("highestAttendance", JNum 0);
        ("lowestAttendance", JNum 0)].

(** The record passes the three checks of [createAttendance]. *)
Definition accepted (attendanceData : JsVal) : bool :=
  truthy (optProp attendanceData "date") &&
  truthy (optProp attendanceData "serviceType") &&
  negb (strictEq (optProp attendanceData "totalAttendance") JUndefined) &&
  negb (ltNum (optProp attendanceData "totalAttendance") 0).

(** A number value other than NaN: a whole number or an infinity. *)
Definition isNumber (v : JsVal) : bool :=
  match v with
  | JNum _ | JInfinity _ => true
  | _ => false
  end.

(** The requests among the effects of a run. *)
Definition requestsIn (new : World) : list HttpRequest :=
  omap (fun e => match e with
                 | Http r => Some r
                 | Download _ _ _ => None
                 end) new.

End OperationSpec.

(* ===================================================================== *)
(** * The requests an operation sends                                     *)
(* ===================================================================== *)

Module RequestSpec.
Import JS Gateway.

(** The step sends nothing; a value it returns satisfies [R]. *)
Definition quiet {A} (R : A -> Prop) (m : M A) : Prop :=
  forall w,
    snd (m w) = w /\
    match fst (m w) with
    | inr v => R v
    | inl _ => True
    end.

(** The operation sends nothing or one request, which satisfies [P]. *)
Definition atMostOne {A} (P : HttpRequest -> Prop) (m : M A) : Prop :=
  forall w,
    snd (m w) = w \/ exists r, snd (m w) = (w ++ [Http r])%list /\ P r.

(** A text that is not empty and has no white space around it. *)
Definition trimmedText (v : JsVal) : Prop :=
  exists s, v = JStr s /\ s <> "" /\ trim s = s.

(** The body [createEvent] posts for [eventData]. *)
Definition eventCreation (parseFloat : JsVal -> JsVal) (eventData : JsVal)
    (r : HttpRequest) : Prop :=
  req_method r = "post" /\ req_url r = "/events" /\
  exists body,
    req_data r = JObj body /\
    (forall k, In k ["title"; "description"; "location"] ->
               exists v, lookupField k body = Some v /\ trimmedText v) /\
    (forall k, In k ["date"; "time"; "category"] ->
               lookupField k body = Some (optProp eventData k) /\
               truthy (optProp eventData k) = true) /\
    (forall k, In k ["isRecurring"; "registrationRequired"] ->
               lookupField k body = Some (JBool (truthy (optProp eventData k)))) /\
    (forall k, In k ["endTime"; "recurringPattern"; "registrationDeadline"; "image"] ->
               lookupField k body = Some (jsOr (optProp eventData k) JNull)) /\
    lookupField "maxAttendees" body
    = Some (if truthy (optProp eventData "maxAttendees")
            then parseInt (optProp eventData "maxAttendees") else JNull) /\
    lookupField "eventFee" body
    = Some (if truthy (optProp eventData "eventFee")
            then parseFloat (optProp eventData "eventFee") else JNum 0) /\
    lookupField "tags" body
    = Some (JArr (arrayElements (optProp eventData "tags"))).

(** The fields [updateEvent] passes on, in the order it writes them. *)
Definition updatableFields : list string :=
  ["title"; "description"; "date"; "time"; "endTime"; "location"; "category";
   "maxAttendees"; "isRecurring"; "recurringPattern"; "status"; "registrationRequired";
   "registrationDeadline"; "eventFee"; "tags"; "image"].

(** The body [updateEvent] puts for [eventData]: it has a field exactly for
    each updatable field that [eventData] defines. *)
Definition eventUpdate (id eventData : JsVal) (r : HttpRequest) : Prop :=
  req_method r = "put" /\ req_url r = "/events/" ++ toString id /\
  exists body,
    req_data r = JObj body /\
    forall k,
      is_Some (lookupField k body) <->
      In k updatableFields /\ optProp eventData k <> JUndefined.

End RequestSpec.

(* ===================================================================== *)
(** * Bulk creation and the composite operations                          *)
(* ===================================================================== *)

Module CompositeSpec.
Import JS Gateway GatewaySpec.

(** One [create] per record, in order, each starting from the log the
    previous one left; every outcome is kept, failed or not. *)
Inductive settledEach (create : JsVal -> M JsVal)
  : World -> list JsVal -> list JsVal -> World -> Prop :=
| settled_nil w : settledEach create w [] [] w
| settled_cons w record value w1 records results w2 :
    create record w = (inr value, w1) ->
    settledEach create w1 records results w2 ->
    settledEach create w (record :: records) (fulfilled value :: results) w2.

(** The argument of a bulk operation holds no record. *)
Definition noRecords (v : JsVal) : Prop := isArray v = false \/ v = JArr [].

(** The list a composite shows for a listing: its data, or nothing when the
    listing failed. *)
Definition listed (listing : JsVal) : JsVal :=
  if truthy (optProp listing "success") then optProp listing "data" else JArr [].

(** The filters of the listing inside [getEventsSummary]. *)
Definition recentFilters (filters : JsVal) : list (string * JsVal) :=
  setFields (spread (defaultArg filters (JObj [])))
    [("limit", JNum 5); ("sortBy", JStr "date"); ("sortOrder", JStr "DESC")].

Definition getRequest (url : string) : Effect :=
  Http (mkRequest "get" url JUndefined JUndefined).

(** The events of [events] that take place on [today]. *)
Definition onDate (today : string) (events : list JsVal) : list JsVal :=
  List.filter (fun event => strictEq (optProp event "date") (JStr today)) events.

(** A value whose properties can be read. *)
Definition present (v : JsVal) : Prop := v <> JUndefined /\ v <> JNull.

(** The statistics an events statistics failure carries. *)
Definition noEventStatistics : JsVal :=
  JObj [("totalEvents", JNum 0); ("upcomingEvents", JNum 0); ("completedEvents", JNum 0);
        ("thisMonthEvents", JNum 0); ("categoryStats", JArr []); ("statusStats", JArr [])].

End CompositeSpec.

(* ===================================================================== *)
(** * The two modes of an export                                          *)
(* ===================================================================== *)

Module ExportSpec.
Import JS Gateway.

(** The config with which an export asks for a file. *)
Definition blobConfig : list (string * JsVal) :=
  [("responseType", JStr "blob"); ("headers", JObj [("Accept", JStr "text/csv")])].

(** The request of [generateReport] in the mode [format]. *)
Definition reportRequest (format : string) (filters : JsVal) : HttpRequest :=
  mkRequest "post" "/attendance/report"
    (JObj [("format", JStr format);
           ("startDate", jsOr (optProp filters "startDate") JNull);
           ("endDate", jsOr (optProp filters "endDate") JNull);
           ("serviceType", jsOr (optProp filters "serviceType") (JStr "all"))])
    (if String.eqb format "csv" then JObj blobConfig else JUndefined).

(** The request of [exportEvents] in the mode [format]. *)
Definition exportRequest (format : string) (filters : JsVal) : HttpRequest :=
  mkRequest "get" "/events/export" JUndefined
    (JObj (("params",
            JObj [("format", JStr format);
                  ("status", jsOr (optProp filters "status") (JStr "all"));
                  ("category", jsOr (optProp filters "category") (JStr "all"))])
           :: (if String.eqb format "csv" then blobConfig else []))).

(** The envelope of a download: it names the file and holds no record. *)
Definition downloaded (filename message : string) : JsVal :=
  JObj [("success", JBool true);
        ("data", JObj [("filename", JStr filename); ("type", JStr "download")]);
        ("message", JStr message)].

(** The envelope of a JSON export: the data and the count of the response
    body, if the body is one whose fields can be read. *)
Definition counted (body : JsVal) (message fallback : string) : JsVal :=
  match prop body "data" with
  | inr data =>
      JObj [("success", JBool true);
            ("data", data);
            ("count", optProp body "count");
            ("message", jsOr (optProp body "message") (JStr message))]
  | inl _ => JObj [("success", JBool false); ("message", JStr fallback)]
  end.

(** The envelope of an export whose request is rejected. *)
Definition rejected (error : JsError) (fallback : string) : JsVal :=
  JObj [("success", JBool false);
        ("message", jsOr (responseMessage error) (JStr fallback))].

(** An export in the file mode: one request, and when it is answered the
    content is saved under [filename]. *)
Definition exportsFile (backend : World -> HttpRequest -> JsError + JsVal)
    (request : HttpRequest) (filename message fallback : string) (w : World)
  : (JsError + JsVal) * World :=
  match backend w request with
  | inr content =>
      (inr (downloaded filename message),
       (w ++ [Http request; Download filename "text/csv" content])%list)
  | inl error => (inr (rejected error fallback), (w ++ [Http request])%list)
  end.

(** An export in the JSON mode: one request and no file. *)
Definition exportsRecords (backend : World -> HttpRequest -> JsError + JsVal)
    (request : HttpRequest) (message fallback : string) (w : World)
  : (JsError + JsVal) * World :=
  match backend w request with
  | inr body => (inr (counted body message fallback), (w ++ [Http request])%list)
  | inl error => (inr (rejected error fallback), (w ++ [Http request])%list)
  end.

End ExportSpec.

(* ===================================================================== *)
(** * More concrete inputs                                                *)
(* ===================================================================== *)

Module MoreExamples.
Import JS Gateway ApiClient.

(** A backend that answers the events statistics call and rejects every
    other call with status 500. *)
Definition statisticsOnly (w : World) (r : HttpRequest) : JsError + JsVal :=
  if String.eqb (req_url r) "/events/stats"
  then inr (JObj [("data", JObj [("totalEvents", JNum 12)])])
  else inl (mkError "AxiosError" "Request failed with status code 500" (Some (500, JNull))).

(** A backend that answers every call with three events, two of them on
    2026-04-05. *)
Definition threeEvents : list JsVal :=
  [JObj [("id", JNum 1); ("date", JStr "2026-04-05")];
   JObj [("id", JNum 2); ("date", JStr "2026-04-12")];
   JObj [("id", JNum 3); ("date", JStr "2026-04-05")]].

End MoreExamples.

(* ===================================================================== *)
(** * The display form of an event                                        *)
(* ===================================================================== *)

Module DisplaySpec.
Import JS.

(** The fields [formatEventForDisplay] adds to an event. *)
Definition displayFields : list string :=
  ["formattedDate"; "formattedTime"; "formattedEndTime"; "formattedFee"; "daysUntil"].

(** The length of a day in milliseconds. *)
Definition day : Z := 86400000.

End DisplaySpec.

(* ===================================================================== *)
(** * Statements about the listing pages                                  *)
(* ===================================================================== *)

Module PageSpec.
Import JS Gateway.

(** The page numbers on the buttons, without the empty places. *)
Definition shownPages (buttons : list (option Z)) : list Z := omap id buttons.

(** The whole numbers from [first] to [last]. *)
Definition fromTo (first last : Z) : list Z :=
  map (fun i : nat => first + Z.of_nat i) (seq 0 (Z.to_nat (last - first + 1))).

End PageSpec.

(* ===================================================================== *)
(** * The gateways: every operation returns an envelope                   *)
(* ===================================================================== *)

Import JS Gateway GatewaySpec ApiClient TransportSpec Examples.

Section OutcomeRules.

Context {A B : Type}.

Lemma outcomes_ret (P : A -> Prop) Q (x : A) : P x -> outcomes P Q (ret x).
Proof. intros H w. exact H. Qed.

Lemma outcomes_throw (P : A -> Prop) (Q : JsError -> Prop) e : Q e -> outcomes P Q (throw e).
Proof. intros H w. exact H. Qed.

Lemma outcomes_bind (R : A -> Prop) (P : B -> Prop) Q (m : M A) (k : A -> M B) :
  outcomes R Q m -> (forall x, R x -> outcomes P Q (k x)) -> outcomes P Q (bind m k).
Proof.
  intros Hm Hk w. unfold bind. specialize (Hm w).
  destruct (m w) as [[e | x] w']; simpl in *.
  - exact Hm.
  - apply Hk, Hm.
Qed.

Lemma outcomes_weaken (P P' : A -> Prop) (Q Q' : JsError -> Prop) (m : M A) :
  outcomes P Q m -> (forall x, P x -> P' x) -> (forall e, Q e -> Q' e) -> outcomes P' Q' m.
Proof.
  intros H HP HQ w. specialize (H w). destruct (fst (m w)); auto.
Qed.

Lemma outcomes_tryCatch (P : A -> Prop) (Q Q' : JsError -> Prop) (body : M A) handler :
  outcomes P Q' body -> (forall e, Q' e -> outcomes P Q (handler e)) ->
  outcomes P Q (tryCatch body handler).
Proof.
  intros Hb Hh w. unfold tryCatch. specialize (Hb w).
  destruct (body w) as [[e | x] w']; simpl in *.
  - apply Hh, Hb.
  - exact Hb.
Qed.

End OutcomeRules.

Lemma outcomes_total {A} (P : A -> Prop) (m : M A) :
  outcomes P never m -> forall w, exists v w', m w = (inr v, w') /\ P v.
Proof.
  intros H w. specialize (H w). destruct (m w) as [[e | v] w']; simpl in *.
  - destruct H.
  - eauto.
Qed.

Section Primitives.

Variable backend : World -> HttpRequest -> JsError + JsVal.

Let Q := localOrBackend backend.

Lemma local_typeError msg : Q (typeError msg).
Proof. left. reflexivity. Qed.

Lemma local_newError msg : Q (newError msg).
Proof. left. reflexivity. Qed.

Lemma outcomes_lift_prop v k : outcomes anything Q (lift (prop v k)).
Proof.
  intros w. unfold lift, prop. simpl.
  destruct v; simpl; try exact I; apply local_typeError.
Qed.

Lemma outcomes_get v k : outcomes anything Q (get v k).
Proof. apply outcomes_lift_prop. Qed.

Lemma outcomes_require c msg : outcomes anything Q (require c msg).
Proof.
  unfold require. destruct (truthy c).
  - now apply outcomes_ret.
  - apply outcomes_throw, local_newError.
Qed.

Lemma outcomes_apiCall r : outcomes anything Q (apiCall backend r).
Proof.
  intros w. unfold apiCall. simpl.
  destruct (backend w r) eqn:E; [right; now exists w, r | exact I].
Qed.

Lemma outcomes_emit e : outcomes anything Q (emit e).
Proof. intros w. exact I. Qed.

End Primitives.

Section MorePrimitives.

Variable backend : World -> HttpRequest -> JsError + JsVal.

Lemma outcomes_never {A} (P : A -> Prop) (m : M A) :
  outcomes P never m -> outcomes P (localOrBackend backend) m.
Proof. intros H. eapply outcomes_weaken; eauto. intros e []. Qed.

Lemma outcomes_anything {A} (P : A -> Prop) Q (m : M A) :
  outcomes P Q m -> outcomes anything Q m.
Proof. intros H. eapply outcomes_weaken; eauto. intros; exact I. Qed.

Lemma outcomes_appendIf f k q : outcomes anything (localOrBackend backend) (appendIf f k q).
Proof.
  unfold appendIf. eapply outcomes_bind; [apply outcomes_get | intros v _].
  now apply outcomes_ret.
Qed.

Lemma outcomes_appendUnlessAll f k q :
  outcomes anything (localOrBackend backend) (appendUnlessAll f k q).
Proof.
  unfold appendUnlessAll. eapply outcomes_bind; [apply outcomes_get | intros v _].
  now apply outcomes_ret.
Qed.

Lemma outcomes_callTrim v : outcomes anything (localOrBackend backend) (callTrim v).
Proof.
  destruct v; simpl;
    try (apply outcomes_throw, local_typeError);
    try apply outcomes_lift_prop.
  now apply outcomes_ret.
Qed.

Lemma outcomes_optTrim v : outcomes anything (localOrBackend backend) (optTrim v).
Proof.
  destruct v; try (now apply outcomes_ret); apply outcomes_callTrim.
Qed.

Lemma outcomes_callIncludes v sub :
  outcomes anything (localOrBackend backend) (callIncludes v sub).
Proof.
  destruct v; simpl;
    try (apply outcomes_throw, local_typeError);
    try (now apply outcomes_ret);
    (eapply outcomes_bind; [apply outcomes_lift_prop | intros; now apply outcomes_ret]).
Qed.

Lemma outcomes_mapM {A B} (f : A -> M B) Q l :
  (forall x, outcomes anything Q (f x)) -> outcomes anything Q (mapM f l).
Proof.
  intros Hf. induction l as [| x l IH]; simpl.
  - now apply outcomes_ret.
  - eapply outcomes_bind; [apply Hf | intros y _].
    eapply outcomes_bind; [apply IH | intros ys _]. now apply outcomes_ret.
Qed.

Lemma outcomes_filterM {A} (p : A -> M bool) Q l :
  (forall x, outcomes anything Q (p x)) -> outcomes anything Q (filterM p l).
Proof.
  intros Hp. induction l as [| x l IH]; simpl.
  - now apply outcomes_ret.
  - eapply outcomes_bind; [apply Hp | intros y _].
    eapply outcomes_bind; [apply IH | intros ys _]. now apply outcomes_ret.
Qed.

Lemma outcomes_settled Q (m : M JsVal) : outcomes anything Q (settled m).
Proof. intros w. unfold settled. destruct (m w) as [[e | v] w']; exact I. Qed.

Lemma outcomes_fulfilledOk r : outcomes anything (localOrBackend backend) (fulfilledOk r).
Proof.
  unfold fulfilledOk. eapply outcomes_bind; [apply outcomes_get | intros s _].
  destruct (strictEq s (JStr "fulfilled")); [| now apply outcomes_ret].
  eapply outcomes_bind; [apply outcomes_get | intros v _].
  eapply outcomes_bind; [apply outcomes_get | intros ok _]. now apply outcomes_ret.
Qed.

Lemma outcomes_rejectedOrFailed r :
  outcomes anything (localOrBackend backend) (rejectedOrFailed r).
Proof.
  unfold rejectedOrFailed. eapply outcomes_bind; [apply outcomes_get | intros s _].
  destruct (strictEq s (JStr "rejected")); [now apply outcomes_ret |].
  eapply outcomes_bind; [apply outcomes_get | intros v _].
  eapply outcomes_bind; [apply outcomes_get | intros ok _]. now apply outcomes_ret.
Qed.

Lemma outcomes_notAnArrayOrEmpty v :
  outcomes anything (localOrBackend backend) (notAnArrayOrEmpty v).
Proof.
  unfold notAnArrayOrEmpty. destruct (negb (isArray v)); [now apply outcomes_ret |].
  eapply outcomes_bind; [apply outcomes_get | intros; now apply outcomes_ret].
Qed.

Lemma outcomes_callFilter v p :
  (forall x, outcomes anything (localOrBackend backend) (p x)) ->
  outcomes anything (localOrBackend backend) (callFilter v p).
Proof.
  intros Hp. destruct v; simpl;
    try (apply outcomes_throw, local_typeError);
    try apply outcomes_lift_prop.
  eapply outcomes_bind; [now apply outcomes_filterM | intros; now apply outcomes_ret].
Qed.

(** *** Failure messages *)

Lemma responseMessage_local e : err_response e = None -> responseMessage e = JUndefined.
Proof. intros H. unfold responseMessage, responseData. now rewrite H. Qed.

Lemma clientText_lit s : s <> "" -> clientText (JStr s).
Proof. intros H. now exists s. Qed.

Lemma truthy_JStr s : truthy (JStr s) = true -> s <> "".
Proof. simpl. intros H ->. discriminate H. Qed.

Lemma failure_response_or_text e (v : JsVal) :
  localOrBackend backend e -> clientText v ->
  failureMessage backend (jsOr (responseMessage e) v).
Proof.
  intros He Hv. unfold jsOr. destruct (truthy (responseMessage e)) eqn:T.
  - destruct He as [Hl | Hb].
    + rewrite (responseMessage_local _ Hl) in T. discriminate T.
    + right. split; [exact T | now exists e].
  - now left.
Qed.

Lemma clientText_message_or e s : s <> "" -> clientText (jsOr (errorMessage e) (JStr s)).
Proof.
  intros Hs. unfold jsOr. destruct (truthy (errorMessage e)) eqn:T.
  - exists (err_message e). split; [reflexivity | now apply truthy_JStr].
  - now apply clientText_lit.
Qed.

Lemma failure_response_message_or e s :
  localOrBackend backend e -> s <> "" ->
  failureMessage backend (jsOr (jsOr (responseMessage e) (errorMessage e)) (JStr s)).
Proof.
  intros He Hs. unfold jsOr at 2.
  destruct (truthy (responseMessage e)) eqn:T.
  - unfold jsOr. rewrite T.
    destruct He as [Hl | Hb].
    + rewrite (responseMessage_local _ Hl) in T. discriminate T.
    + right. split; [exact T | now exists e].
  - left. now apply clientText_message_or.
Qed.

End MorePrimitives.

Create HintDb gateway.

#[export] Hint Resolve outcomes_get outcomes_require outcomes_apiCall outcomes_emit
  outcomes_appendIf outcomes_appendUnlessAll outcomes_callTrim outcomes_optTrim
  outcomes_callIncludes outcomes_settled outcomes_fulfilledOk outcomes_rejectedOrFailed
  outcomes_notAnArrayOrEmpty outcomes_lift_prop local_newError local_typeError : gateway.

Ltac prim :=
  solve [ eauto with gateway
        | apply outcomes_mapM; intros; eauto with gateway
        | apply outcomes_filterM; intros; eauto with gateway
        | apply outcomes_never; first [ eassumption | auto ] ].

Ltac walk :=
  lazymatch goal with
  | |- outcomes _ _ (ret _) => apply outcomes_ret
  | |- outcomes _ _ (throw _) => apply outcomes_throw; prim
  | |- outcomes _ _ (bind _ _) =>
      first [ eapply outcomes_bind; [ prim | intros ? ?; walk ]
            | eapply (outcomes_bind anything); [ walk; try exact I | intros ? ?; walk ] ]
  | |- outcomes _ _ (if ?c then _ else _) => destruct c; walk
  | |- _ => try prim
  end.

Ltac envelope_leaf :=
  first
    [ assumption
    | apply outcomes_never; auto; fail
    | eexists _, true, _; split; [reflexivity |]; split; [reflexivity |];
      split; [reflexivity |]; intros; discriminate ].

Ltac failure_text :=
  first
    [ apply failure_response_or_text; [assumption | apply clientText_lit; discriminate]
    | apply failure_response_message_or; [assumption | discriminate]
    | left; apply clientText_message_or; discriminate
    | left; apply clientText_lit; discriminate ].

Ltac failure_handler :=
  intros ? ?; apply outcomes_ret;
  eexists _, false, _; split; [reflexivity |]; split; [reflexivity |];
  split; [reflexivity |]; intros _; failure_text.

Ltac gateway_op :=
  lazymatch goal with
  | |- outcomes (envelope ?b) _ _ =>
      eapply outcomes_tryCatch with (Q' := localOrBackend b);
      [ walk; envelope_leaf | failure_handler ]
  end.

Section Envelopes.

Variable backend : World -> HttpRequest -> JsError + JsVal.
Variable today : string.
Variable parseFloat : JsVal -> JsVal.

Lemma bulk_envelope (failed : bool) data text :
  envelope backend
    (JObj [("success", JBool failed); ("data", data);
           ("message", JStr ("Bulk create completed: " ++ text))]).
Proof.
  eexists _, failed, _. split; [reflexivity |]. split; [reflexivity |].
  split; [reflexivity |]. intros _. left. apply clientText_lit. discriminate.
Qed.

Lemma getAttendanceRecords_ok filters :
  outcomes (envelope backend) never (Attendance.getAttendanceRecords backend filters).
Proof. unfold Attendance.getAttendanceRecords, apiGet. gateway_op. Qed.

Lemma getAttendanceById_ok id :
  outcomes (envelope backend) never (Attendance.getAttendanceById backend id).
Proof. unfold Attendance.getAttendanceById, apiGet. gateway_op. Qed.

Lemma outcomes_attendancePayload d :
  outcomes anything (localOrBackend backend) (Attendance.attendancePayload d).
Proof. unfold Attendance.attendancePayload. walk; exact I. Qed.

Hint Resolve outcomes_attendancePayload : gateway.

Lemma createAttendance_ok d :
  outcomes (envelope backend) never (Attendance.createAttendance backend d).
Proof. unfold Attendance.createAttendance, apiPost. gateway_op. Qed.

Lemma updateAttendance_ok id d :
  outcomes (envelope backend) never (Attendance.updateAttendance backend id d).
Proof. unfold Attendance.updateAttendance, apiPut. gateway_op. Qed.

Lemma deleteAttendance_ok id :
  outcomes (envelope backend) never (Attendance.deleteAttendance backend id).
Proof. unfold Attendance.deleteAttendance, apiDelete. gateway_op. Qed.

Lemma getAttendanceStats_ok period :
  outcomes (envelope backend) never (Attendance.getAttendanceStats backend period).
Proof. unfold Attendance.getAttendanceStats, apiGet. gateway_op. Qed.

Lemma getServiceTypes_ok :
  outcomes (envelope backend) never (Attendance.getServiceTypes backend).
Proof. unfold Attendance.getServiceTypes, apiGet. gateway_op. Qed.

Lemma getMembersForAttendance_ok :
  outcomes (envelope backend) never (Attendance.getMembersForAttendance backend).
Proof. unfold Attendance.getMembersForAttendance, apiGet. gateway_op. Qed.

Lemma generateReport_ok filters :
  outcomes (envelope backend) never (Attendance.generateReport backend today filters).
Proof. unfold Attendance.generateReport, apiPost, apiPostWith. gateway_op. Qed.

Lemma bulkCreateAttendance_ok records :
  outcomes (envelope backend) never (Attendance.bulkCreateAttendance backend records).
Proof.
  unfold Attendance.bulkCreateAttendance.
  eapply outcomes_tryCatch with (Q' := localOrBackend backend);
    [ walk; apply bulk_envelope | failure_handler ].
Qed.

Lemma searchAttendance_ok term filters :
  outcomes (envelope backend) never (Attendance.searchAttendance backend term filters).
Proof.
  pose proof getAttendanceRecords_ok as H.
  unfold Attendance.searchAttendance. gateway_op.
Qed.

Lemma getAttendanceSummary_ok period :
  outcomes (envelope backend) never (Attendance.getAttendanceSummary backend period).
Proof.
  pose proof getAttendanceRecords_ok as H1. pose proof getAttendanceStats_ok as H2.
  unfold Attendance.getAttendanceSummary. gateway_op.
Qed.

Lemma outcomes_requireTrimmed d k msg :
  outcomes anything (localOrBackend backend) (Events.requireTrimmed d k msg).
Proof. unfold Events.requireTrimmed. walk; exact I. Qed.

Lemma outcomes_requireNonEmptyIfGiven d k msg :
  outcomes anything (localOrBackend backend) (Events.requireNonEmptyIfGiven d k msg).
Proof. unfold Events.requireNonEmptyIfGiven. walk; exact I. Qed.

Lemma outcomes_spreadIfGiven d k f acc :
  (forall v, outcomes anything (localOrBackend backend) (f v)) ->
  outcomes anything (localOrBackend backend) (Events.spreadIfGiven d k f acc).
Proof. intros Hf. unfold Events.spreadIfGiven. walk; exact I. Qed.

Lemma outcomes_pure (g : JsVal -> JsVal) v :
  outcomes anything (localOrBackend backend) (ret (g v)).
Proof. now apply outcomes_ret. Qed.

Hint Resolve outcomes_requireTrimmed outcomes_requireNonEmptyIfGiven : gateway.

Lemma getEvents_ok filters :
  outcomes (envelope backend) never (Events.getEvents backend filters).
Proof. unfold Events.getEvents, apiGet. gateway_op. Qed.

Lemma getEventById_ok id :
  outcomes (envelope backend) never (Events.getEventById backend id).
Proof. unfold Events.getEventById, apiGet. gateway_op. Qed.

Lemma createEvent_ok d :
  outcomes (envelope backend) never (Events.createEvent backend parseFloat d).
Proof. unfold Events.createEvent, apiPost. gateway_op. Qed.

Lemma updateEvent_ok id d :
  outcomes (envelope backend) never (Events.updateEvent backend parseFloat id d).
Proof.
  assert (Hs : forall k f acc,
             (forall v, outcomes anything (localOrBackend backend) (f v)) ->
             outcomes anything (localOrBackend backend) (Events.spreadIfGiven d k f acc))
    by (intros; now apply outcomes_spreadIfGiven).
  assert (Hr : forall v : JsVal, outcomes anything (localOrBackend backend) (ret v))
    by (intros; now apply outcomes_ret).
  unfold Events.updateEvent, apiPut.
  eapply outcomes_tryCatch with (Q' := localOrBackend backend); [| failure_handler].
  repeat (eapply outcomes_bind;
          [ first [ prim | apply Hs; intros; first [apply Hr | prim] ] | intros ? _ ]).
  apply outcomes_ret. envelope_leaf.
Qed.

Lemma deleteEvent_ok id :
  outcomes (envelope backend) never (Events.deleteEvent backend id).
Proof. unfold Events.deleteEvent, apiDelete. gateway_op. Qed.

Lemma getEventCategories_ok :
  outcomes (envelope backend) never (Events.getEventCategories backend).
Proof. unfold Events.getEventCategories, apiGet. gateway_op. Qed.

Lemma getEventsStats_ok :
  outcomes (envelope backend) never (Events.getEventsStats backend).
Proof. unfold Events.getEventsStats, apiGet. gateway_op. Qed.

Lemma updateEventAttendance_ok id n :
  outcomes (envelope backend) never (Events.updateEventAttendance backend id n).
Proof. unfold Events.updateEventAttendance, apiPatch. gateway_op. Qed.

Lemma getUpcomingEvents_ok limit :
  outcomes (envelope backend) never (Events.getUpcomingEvents backend limit).
Proof. unfold Events.getUpcomingEvents, apiGet. gateway_op. Qed.

Lemma exportEvents_ok filters :
  outcomes (envelope backend) never (Events.exportEvents backend today filters).
Proof. unfold Events.exportEvents, apiGetWith. gateway_op. Qed.

Lemma duplicateEvent_ok id :
  outcomes (envelope backend) never (Events.duplicateEvent backend id).
Proof. unfold Events.duplicateEvent, apiPost. gateway_op. Qed.

Lemma bulkCreateEvents_ok records :
  outcomes (envelope backend) never (Events.bulkCreateEvents backend parseFloat records).
Proof.
  unfold Events.bulkCreateEvents.
  eapply outcomes_tryCatch with (Q' := localOrBackend backend);
    [ walk; apply bulk_envelope | failure_handler ].
Qed.

Lemma searchEvents_ok term filters :
  outcomes (envelope backend) never (Events.searchEvents backend term filters).
Proof.
  pose proof getEvents_ok as H.
  unfold Events.searchEvents. gateway_op.
Qed.

Lemma getEventsSummary_ok filters :
  outcomes (envelope backend) never (Events.getEventsSummary backend filters).
Proof.
  pose proof getEvents_ok as H1. pose proof getEventsStats_ok as H2.
  pose proof getUpcomingEvents_ok as H3.
  unfold Events.getEventsSummary. gateway_op.
Qed.

Lemma getEventsByCategory_ok category :
  outcomes (envelope backend) never (Events.getEventsByCategory backend category).
Proof.
  pose proof getEvents_ok as H.
  unfold Events.getEventsByCategory. gateway_op.
Qed.

Lemma getEventsByDateRange_ok a b :
  outcomes (envelope backend) never (Events.getEventsByDateRange backend a b).
Proof.
  pose proof getEvents_ok as H.
  unfold Events.getEventsByDateRange. gateway_op.
Qed.

Lemma getTodaysEvents_ok :
  outcomes (envelope backend) never (Events.getTodaysEvents backend today).
Proof.
  pose proof getEvents_ok as H.
  unfold Events.getTodaysEvents.
  eapply outcomes_tryCatch with (Q' := localOrBackend backend).
  - eapply outcomes_bind; [apply outcomes_never, H | intros allEvents Hall].
    eapply outcomes_bind; [prim | intros ok _].
    destruct (negb (truthy ok)); [now apply outcomes_ret |].
    eapply outcomes_bind; [prim | intros data _].
    eapply outcomes_bind.
    + apply outcomes_callFilter. intros x. walk. exact I.
    + intros ? _. apply outcomes_ret. envelope_leaf.
  - intros e He. apply outcomes_ret.
    eexists _, false, _. split; [reflexivity |]. split; [reflexivity |].
    split; [reflexivity |]. intros _. left. apply clientText_lit. discriminate.
Qed.

End Envelopes.

(** C5 (as amended). Every asynchronous function of [attendanceAPI] and of
    [eventsAPI], on every argument and whatever the backend answers, returns
    normally (it never throws past its own boundary) and returns a Result
    Envelope: an object with a boolean [success] and a [message]. When
    [success] is false the message is non-empty: a non-empty string written
    by the client, or else the truthy [message] value of the backend's own
    error response. The two synchronous helpers [validateEventData] and
    [formatEventForDisplay] are not gateway operations and are not covered. *)
Theorem gateway_operations_return_envelopes
    (backend : World -> HttpRequest -> JsError + JsVal) (today : string)
    (parseFloat : JsVal -> JsVal) (op : Operation) (w : World) :
  exists v w', perform backend today parseFloat op w = (inr v, w') /\ envelope backend v.
Proof.
  apply outcomes_total. destruct op; simpl.
  - apply getAttendanceRecords_ok.
  - apply getAttendanceById_ok.
  - apply createAttendance_ok.
  - apply updateAttendance_ok.
  - apply deleteAttendance_ok.
  - apply getAttendanceStats_ok.
  - apply getServiceTypes_ok.
  - apply getMembersForAttendance_ok.
  - apply generateReport_ok.
  - apply bulkCreateAttendance_ok.
  - apply searchAttendance_ok.
  - apply getAttendanceSummary_ok.
  - apply getEvents_ok.
  - apply getEventById_ok.
  - apply createEvent_ok.
  - apply updateEvent_ok.
  - apply deleteEvent_ok.
  - apply getEventCategories_ok.
  - apply getEventsStats_ok.
  - apply updateEventAttendance_ok.
  - apply getUpcomingEvents_ok.
  - apply exportEvents_ok.
  - apply duplicateEvent_ok.
  - apply bulkCreateEvents_ok.
  - apply searchEvents_ok.
  - apply getEventsSummary_ok.
  - apply getEventsByCategory_ok.
  - apply getEventsByDateRange_ok.
  - apply getTodaysEvents_ok.
Qed.


Section Bulk.

Variable backend : World -> HttpRequest -> JsError + JsVal.

Lemma createAttendance_returns record w :
  exists fs b msg w',
    Attendance.createAttendance backend record w = (inr (JObj fs), w') /\
    lookupField "success" fs = Some (JBool b) /\
    lookupField "message" fs = Some msg.
Proof.
  destruct (outcomes_total _ _ (createAttendance_ok backend record) w)
    as (v & w' & Hrun & fs & b & msg & -> & Hs & Hm & _).
  now exists fs, b, msg, w'.
Qed.

Lemma fulfilledOk_settled result w :
  settledEnvelope result -> fulfilledOk result w = (inr (succeeded result), w).
Proof.
  intros (fs & b & -> & Hs).
  unfold fulfilledOk, succeeded, fulfilled, get, lift, bind, optProp.
  simpl. rewrite Hs. reflexivity.
Qed.

Lemma rejectedOrFailed_settled result w :
  settledEnvelope result -> rejectedOrFailed result w = (inr (negb (succeeded result)), w).
Proof.
  intros (fs & b & -> & Hs).
  unfold rejectedOrFailed, succeeded, fulfilled, get, lift, bind, optProp.
  simpl. rewrite Hs. reflexivity.
Qed.

Lemma bind_returned {A B} (m : M A) (k : A -> M B) w x w' :
  m w = (inr x, w') -> bind m k w = k x w'.
Proof. intros H. unfold bind. now rewrite H. Qed.

Lemma tryCatch_returned {A} (body : M A) handler w x w' :
  body w = (inr x, w') -> tryCatch body handler w = (inr x, w').
Proof. intros H. unfold tryCatch. now rewrite H. Qed.

Lemma tryCatch_thrown {A} (body : M A) handler w e w' :
  body w = (inl e, w') -> tryCatch body handler w = handler e w'.
Proof. intros H. unfold tryCatch. now rewrite H. Qed.

Lemma bind_thrown {A B} (m : M A) (k : A -> M B) w e w' :
  m w = (inl e, w') -> bind m k w = (inl e, w').
Proof. intros H. unfold bind. now rewrite H. Qed.

Lemma settled_returned (m : M JsVal) w v w' :
  m w = (inr v, w') -> settled m w = (inr (fulfilled v), w').
Proof. intros H. unfold settled. now rewrite H. Qed.

Lemma filterM_pure (p : JsVal -> M bool) (q : JsVal -> bool) results w :
  Forall settledEnvelope results ->
  (forall r w0, settledEnvelope r -> p r w0 = (inr (q r), w0)) ->
  filterM p results w = (inr (List.filter q results), w).
Proof.
  intros Hall Hp. induction Hall as [| r rs Hr Hrs IH]; simpl.
  - reflexivity.
  - rewrite (bind_returned _ _ _ _ _ (Hp r w Hr)).
    rewrite (bind_returned _ _ _ _ _ IH). reflexivity.
Qed.

Lemma mapM_createdEach records w :
  exists results w',
    mapM (fun record => settled (Attendance.createAttendance backend record)) records w
      = (inr results, w') /\
    createdEach backend w records results w' /\
    Forall settledEnvelope results.
Proof.
  revert w. induction records as [| record records IH]; intros w; simpl.
  - exists [], w. repeat split; constructor.
  - destruct (createAttendance_returns record w) as (fs & b & msg & w1 & Hrun & Hs & _).
    destruct (IH w1) as (results & w2 & Hmap & Hcreated & Hall).
    exists (fulfilled (JObj fs) :: results), w2.
    rewrite (bind_returned _ _ _ _ _ (settled_returned _ _ _ _ Hrun)).
    rewrite (bind_returned _ _ _ _ _ Hmap).
    split; [reflexivity |]. split.
    + econstructor; eassumption.
    + constructor; [now exists fs, b | exact Hall].
Qed.

Lemma createdEach_length w records results w' :
  createdEach backend w records results w' -> List.length results = List.length records.
Proof. induction 1; simpl; congruence. Qed.

Lemma filter_partition {A} (p : A -> bool) (l : list A) :
  (List.length (List.filter p l) + List.length (List.filter (fun x => negb (p x)) l)
   = List.length l)%nat.
Proof.
  induction l as [| x l IH]; simpl; [reflexivity |].
  destruct (p x); simpl; lia.
Qed.

End Bulk.

(** C6. For every non-empty array of records, [bulkCreateAttendance] runs one
    [createAttendance] per record, in order and each on its own (a failure
    does not stop the others: every outcome is kept in [results]); it reports
    the number of successful and of failed creates, which add up to [total],
    the length of the input; and [success] is true exactly when no create
    failed. With three valid and two invalid records this is
    [successful: 3, failed: 2, total: 5] and [success: false]. *)
Theorem bulkCreateAttendance_reports_counts
    (backend : World -> HttpRequest -> JsError + JsVal) (records : list JsVal) (w : World) :
  records <> [] ->
  exists results w',
    createdEach backend w records results w' /\
    Attendance.bulkCreateAttendance backend (JArr records) w =
      (inr (JObj [("success", JBool (countOf (fun r => negb (succeeded r)) results =? 0));
                  ("data", JObj [("successful", JNum (countOf succeeded results));
                                 ("failed", JNum (countOf (fun r => negb (succeeded r)) results));
                                 ("total", JNum (Z.of_nat (List.length records)));
                                 ("results", JArr results)]);
                  ("message",
                   JStr ("Bulk create completed: "
                         ++ pretty (countOf succeeded results) ++ " successful, "
                         ++ pretty (countOf (fun r => negb (succeeded r)) results)
                         ++ " failed"))]), w') /\
    countOf succeeded results + countOf (fun r => negb (succeeded r)) results
      = Z.of_nat (List.length records).
Proof.
  intros Hne.
  destruct (mapM_createdEach backend records w) as (results & w' & Hmap & Hcreated & Hall).
  exists results, w'. split; [exact Hcreated |]. split.
  - unfold Attendance.bulkCreateAttendance. apply tryCatch_returned.
    assert (Hguard : notAnArrayOrEmpty (JArr records) w = (inr false, w)).
    { destruct records as [| r rs]; [congruence |].
      unfold notAnArrayOrEmpty, get, lift, bind, ret. cbn.
      now destruct (List.length rs). }
    rewrite (bind_returned _ _ _ _ _ Hguard). cbn [elements].
    rewrite (bind_returned _ _ _ _ _ Hmap).
    rewrite (bind_returned _ _ _ _ _
               (filterM_pure fulfilledOk succeeded results w' Hall
                  (fun r0 w0 H => fulfilledOk_settled r0 w0 H))).
    rewrite (bind_returned _ _ _ _ _
               (filterM_pure rejectedOrFailed (fun r0 => negb (succeeded r0)) results w' Hall
                  (fun r0 w0 H => rejectedOrFailed_settled r0 w0 H))).
    reflexivity.
  - unfold countOf. rewrite <- Nat2Z.inj_add, filter_partition.
    now rewrite (createdEach_length _ _ _ _ _ Hcreated).
Qed.

Lemma bulk_three_valid_two_invalid :
  fiveRecords <> [] /\
  exists results w',
    Attendance.bulkCreateAttendance accepting (JArr fiveRecords) [] =
      (inr (JObj [("success", JBool false);
                  ("data", JObj [("successful", JNum 3); ("failed", JNum 2);
                                 ("total", JNum 5); ("results", JArr results)]);
                  ("message", JStr "Bulk create completed: 3 successful, 2 failed")]),
       w') /\
    List.length w' = 3%nat.
Proof.
  assert (Hne : fiveRecords <> []) by discriminate.
  split; [exact Hne |].
  destruct (bulkCreateAttendance_reports_counts accepting fiveRecords [] Hne)
    as (results & w' & _ & Hrun & _).
  exists results, w'.
  vm_compute in Hrun. 
  injection Hrun as Hres Hw. subst results w'. split; reflexivity.
Defined.

(** C7. When the date or the service type of its argument is missing (or
    falsy), or its total attendance is undefined or negative, that is below
    zero as a number ([totalAttendance < 0]), [createAttendance] returns
    [success: false] with a message and leaves the request log as it was:
    no call reaches the backend. The message is never empty: it is that of
    the first check that fails (for [undefined] or [null] in the place of
    the record, that of the TypeError). When date and service type are
    present, so that the check that fails is the one on the total, the
    message is the non-negative-number message. *)
Theorem createAttendance_validates_locally
    (backend : World -> HttpRequest -> JsError + JsVal)
    (attendanceData : JsVal) (w : World) :
  let total := optProp attendanceData "totalAttendance" in
  truthy (optProp attendanceData "date") = false \/
  truthy (optProp attendanceData "serviceType") = false \/
  total = JUndefined \/ ltNum total 0 = true ->
  Attendance.createAttendance backend attendanceData w =
    (inr (JObj [("success", JBool false);
                ("message", JStr (refusal attendanceData));
                ("errors", JUndefined)]), w) /\
  refusal attendanceData <> "" /\
  (truthy (optProp attendanceData "date") = true ->
   truthy (optProp attendanceData "serviceType") = true ->
   refusal attendanceData = "Total attendance must be a non-negative number").
Proof.
  intros total H.
  assert (Hmessage : refusal attendanceData <> "").
  { unfold refusal, validationMessage.
    destruct (prop attendanceData "date") as [error | date] eqn:E.
    - destruct attendanceData; try discriminate E; injection E as <-; discriminate.
    - destruct (negb _); [discriminate |]. destruct (negb _); discriminate. }
  split; [| split; [exact Hmessage |]].
  - unfold Attendance.createAttendance.
    assert (Hthrow : exists error,
               Attendance.attendancePayload attendanceData w = (inl error, w) /\
               err_response error = None /\ err_message error = refusal attendanceData).
    { unfold Attendance.attendancePayload, refusal, validationMessage, get, lift, bind,
        require, optProp in *.
      destruct (prop attendanceData "date") as [error | date] eqn:Hdate.
      - exists error. split; [reflexivity |]. split; [| reflexivity].
        destruct attendanceData; try discriminate Hdate; now injection Hdate as <-.
      - assert (Hread : forall k, exists v, prop attendanceData k = inr v).
        { intros k. destruct attendanceData; try discriminate Hdate; eexists; reflexivity. }
        destruct (truthy date) eqn:Hd; cbn [negb].
        + unfold ret at 1.
          destruct (Hread "serviceType") as (serviceType & Hs). rewrite Hs in *.
          destruct (truthy serviceType) eqn:Hst; cbn [negb].
          * unfold ret at 1.
            destruct (Hread "totalAttendance") as (t & Ht). rewrite Ht in *.
            subst total. rewrite ?Hdate, ?Hs, ?Ht in H. cbv beta iota in H.
            rewrite ?Hd, ?Hst in H.
            destruct H as [H | [H | [H | H]]]; try discriminate H.
            -- rewrite H. eexists. split; [reflexivity |]. now split.
            -- rewrite H, orb_true_r. eexists. split; [reflexivity |]. now split.
          * eexists. split; [reflexivity |]. now split.
        + eexists. split; [reflexivity |]. now split. }
    destruct Hthrow as (error & Hthrow & Hresponse & Herror).
    rewrite (tryCatch_thrown _ _ _ _ _ (bind_thrown _ _ _ _ _ Hthrow)).
    unfold ret, responseMessage, responseErrors, responseData, errorMessage.
    rewrite Hresponse, Herror. unfold jsOr. cbn [optProp prop truthy].
    destruct (String.eqb_spec (refusal attendanceData) ""); [contradiction | reflexivity].
  - intros Hd Hs. unfold refusal, validationMessage.
    destruct (prop attendanceData "date") as [error | date] eqn:E.
    + unfold optProp in Hd. rewrite E in Hd. discriminate Hd.
    + now rewrite Hd, Hs.
Qed.

Lemma negative_total_is_refused :
  (truthy (optProp (sunday (-1)) "date") = false \/
   truthy (optProp (sunday (-1)) "serviceType") = false \/
   optProp (sunday (-1)) "totalAttendance" = JUndefined \/
   ltNum (optProp (sunday (-1)) "totalAttendance") 0 = true) /\
  Attendance.createAttendance accepting (sunday (-1)) [] =
    (inr (JObj [("success", JBool false);
                ("message", JStr "Total attendance must be a non-negative number");
                ("errors", JUndefined)]), []).
Proof.
  assert (H : truthy (optProp (sunday (-1)) "date") = false \/
              truthy (optProp (sunday (-1)) "serviceType") = false \/
              optProp (sunday (-1)) "totalAttendance" = JUndefined \/
              ltNum (optProp (sunday (-1)) "totalAttendance") 0 = true)
    by (right; right; right; reflexivity).
  split; [exact H |].
  exact (proj1 (createAttendance_validates_locally accepting (sunday (-1)) [] H)).
Defined.

Section Queries.

Variable backend : World -> HttpRequest -> JsError + JsVal.

Lemma appendIf_object fs k q w :
  appendIf (JObj fs) k q w = (inr (q ++ optionList (forwarded fs (k, false)))%list, w).
Proof.
  unfold appendIf, forwarded, get, lift, bind, ret. cbn [prop fst snd andb negb].
  destruct (truthy (default JUndefined (lookupField k fs))); cbn [andb optionList].
  - reflexivity.
  - now rewrite app_nil_r.
Qed.

Lemma appendUnlessAll_object fs k q w :
  appendUnlessAll (JObj fs) k q w
  = (inr (q ++ optionList (forwarded fs (k, true)))%list, w).
Proof.
  unfold appendUnlessAll, forwarded, get, lift, bind, ret. cbn [prop fst snd andb negb].
  destruct (truthy (default JUndefined (lookupField k fs))
            && negb (strictEq (default JUndefined (lookupField k fs)) (JStr "all")));
    cbn [optionList].
  - reflexivity.
  - now rewrite app_nil_r.
Qed.

Lemma omap_cons_list {A B} (f : A -> option B) x l :
  omap f (x :: l) = (optionList (f x) ++ omap f l)%list.
Proof. cbn. now destruct (f x). Qed.

Lemma queryOf_events fs :
  (((((((([] ++ optionList (forwarded fs ("page", false)))
        ++ optionList (forwarded fs ("limit", false)))
       ++ optionList (forwarded fs ("search", false)))
      ++ optionList (forwarded fs ("status", true)))
     ++ optionList (forwarded fs ("category", true)))
    ++ optionList (forwarded fs ("upcoming", false)))
   ++ optionList (forwarded fs ("sortBy", false)))
  ++ optionList (forwarded fs ("sortOrder", false)))%list
  = queryOf eventsKeys fs.
Proof.
  unfold queryOf, eventsKeys. rewrite !omap_cons_list. cbn [omap list_omap].
  rewrite app_nil_r, <- !app_assoc. reflexivity.
Qed.

Lemma queryOf_attendance fs :
  ((((((([] ++ optionList (forwarded fs ("page", false)))
       ++ optionList (forwarded fs ("limit", false)))
      ++ optionList (forwarded fs ("startDate", false)))
     ++ optionList (forwarded fs ("endDate", false)))
    ++ optionList (forwarded fs ("serviceType", true)))
   ++ optionList (forwarded fs ("sortBy", false)))
  ++ optionList (forwarded fs ("sortOrder", false)))%list
  = queryOf attendanceKeys fs.
Proof.
  unfold queryOf, attendanceKeys. rewrite !omap_cons_list. cbn [omap list_omap].
  rewrite app_nil_r, <- !app_assoc. reflexivity.
Qed.

Lemma getEvents_object fs w :
  Events.getEvents backend (JObj fs) w =
  tryCatch
    (let* body := apiGet backend ("/events?" ++ queryString (queryOf eventsKeys fs)) in
     let* data := get body "data" in
     let* pagination := get body "pagination" in
     let* message := get body "message" in
     ret (JObj [("success", JBool true);
                ("data", data);
                ("pagination", pagination);
                ("message", jsOr message (JStr "Events retrieved successfully"))]))
    (fun error =>
       ret (JObj [("success", JBool false);
                  ("message", jsOr (responseMessage error) (JStr "Failed to fetch events"));
                  ("error", responseData error)])) w.
Proof.
  unfold Events.getEvents. cbn [defaultArg]. unfold tryCatch.
  rewrite (bind_returned _ _ _ _ _ (appendIf_object fs "page" [] w)).
  rewrite (bind_returned _ _ _ _ _ (appendIf_object fs "limit" _ w)).
  rewrite (bind_returned _ _ _ _ _ (appendIf_object fs "search" _ w)).
  rewrite (bind_returned _ _ _ _ _ (appendUnlessAll_object fs "status" _ w)).
  rewrite (bind_returned _ _ _ _ _ (appendUnlessAll_object fs "category" _ w)).
  rewrite (bind_returned _ _ _ _ _ (appendIf_object fs "upcoming" _ w)).
  rewrite (bind_returned _ _ _ _ _ (appendIf_object fs "sortBy" _ w)).
  rewrite (bind_returned _ _ _ _ _ (appendIf_object fs "sortOrder" _ w)).
  rewrite queryOf_events. reflexivity.
Qed.

Lemma getAttendanceRecords_object fs w :
  Attendance.getAttendanceRecords backend (JObj fs) w =
  tryCatch
    (let* body :=
       apiGet backend ("/attendance?" ++ queryString (queryOf attendanceKeys fs)) in
     let* data := get body "data" in
     let* pagination := get body "pagination" in
     let* message := get body "message" in
     ret (JObj [("success", JBool true);
                ("data", data);
                ("pagination", pagination);
                ("message", jsOr message (JStr "Attendance records retrieved successfully"))]))
    (fun error =>
       ret (JObj [("success", JBool false);
                  ("message", jsOr (responseMessage error)
                                   (JStr "Failed to fetch attendance records"));
                  ("error", responseData error)])) w.
Proof.
  unfold Attendance.getAttendanceRecords. cbn [defaultArg]. unfold tryCatch.
  rewrite (bind_returned _ _ _ _ _ (appendIf_object fs "page" [] w)).
  rewrite (bind_returned _ _ _ _ _ (appendIf_object fs "limit" _ w)).
  rewrite (bind_returned _ _ _ _ _ (appendIf_object fs "startDate" _ w)).
  rewrite (bind_returned _ _ _ _ _ (appendIf_object fs "endDate" _ w)).
  rewrite (bind_returned _ _ _ _ _ (appendUnlessAll_object fs "serviceType" _ w)).
  rewrite (bind_returned _ _ _ _ _ (appendIf_object fs "sortBy" _ w)).
  rewrite (bind_returned _ _ _ _ _ (appendIf_object fs "sortOrder" _ w)).
  rewrite queryOf_attendance. reflexivity.
Qed.

Lemma forwarded_spec fs key k v :
  forwarded fs key = Some (k, v) <->
  k = fst key /\
  truthy (default JUndefined (lookupField k fs)) = true /\
  (snd key = true -> strictEq (default JUndefined (lookupField k fs)) (JStr "all") = false) /\
  v = toString (default JUndefined (lookupField k fs)).
Proof.
  unfold forwarded. destruct key as [k' flag]. cbn [fst snd].
  destruct (truthy (default JUndefined (lookupField k' fs))) eqn:T; cbn [andb].
  - destruct flag; cbn [andb negb].
    + destruct (strictEq (default JUndefined (lookupField k' fs)) (JStr "all")) eqn:E;
        cbn [negb].
      * split; [discriminate |]. intros (-> & _ & H & _). rewrite E in H.
        now specialize (H eq_refl).
      * split.
        -- intros [= <- <-]. now rewrite T, E.
        -- intros (-> & _ & _ & ->). reflexivity.
    + split.
      * intros [= <- <-]. rewrite T. repeat split; try reflexivity. discriminate.
      * intros (-> & _ & _ & ->). reflexivity.
  - split; [discriminate |]. intros (-> & H & _). rewrite T in H. discriminate.
Qed.

End Queries.

(** C8 (as amended). For every filters object, [getEvents] issues one GET
    whose query holds exactly the fields among page, limit, search, status,
    category, upcoming, sortBy and sortOrder, and [getAttendanceRecords] one
    whose query holds exactly the fields among page, limit, startDate,
    endDate, serviceType, sortBy and sortOrder: a field is sent when its value
    is truthy and, for status, category and serviceType, different from
    ['all']; absent fields and fields outside these lists are left out of the
    query. On a successful response both return the data and the pagination
    descriptor of the response. [getEvents({status: 'all', category: 'all'})]
    requests ["/events?"], with no status and no category parameter. *)
Theorem list_operations_forward_their_filters
    (backend : World -> HttpRequest -> JsError + JsVal)
    (filters : list (string * JsVal)) (w : World) :
  let eventsRequest :=
    mkRequest "get" ("/events?" ++ queryString (queryOf eventsKeys filters))
      JUndefined JUndefined in
  let attendanceRequest :=
    mkRequest "get" ("/attendance?" ++ queryString (queryOf attendanceKeys filters))
      JUndefined JUndefined in
  (snd (Events.getEvents backend (JObj filters) w) = (w ++ [Http eventsRequest])%list /\
   snd (Attendance.getAttendanceRecords backend (JObj filters) w)
     = (w ++ [Http attendanceRequest])%list) /\
  (forall keys k v,
     In (k, v) (queryOf keys filters) <->
     exists flag,
       In (k, flag) keys /\
       truthy (optProp (JObj filters) k) = true /\
       (flag = true -> strictEq (optProp (JObj filters) k) (JStr "all") = false) /\
       v = toString (optProp (JObj filters) k)) /\
  (forall body,
     backend w eventsRequest = inr (JObj body) ->
     fst (Events.getEvents backend (JObj filters) w) =
       inr (JObj [("success", JBool true);
                  ("data", optProp (JObj body) "data");
                  ("pagination", optProp (JObj body) "pagination");
                  ("message", jsOr (optProp (JObj body) "message")
                                (JStr "Events retrieved successfully"))])) /\
  (forall body,
     backend w attendanceRequest = inr (JObj body) ->
     fst (Attendance.getAttendanceRecords backend (JObj filters) w) =
       inr (JObj [("success", JBool true);
                  ("data", optProp (JObj body) "data");
                  ("pagination", optProp (JObj body) "pagination");
                  ("message", jsOr (optProp (JObj body) "message")
                                (JStr "Attendance records retrieved successfully"))])) /\
  snd (Events.getEvents backend
         (JObj [("status", JStr "all"); ("category", JStr "all")]) w)
    = (w ++ [Http (mkRequest "get" "/events?" JUndefined JUndefined)])%list.
Proof.
  intros eventsRequest attendanceRequest.
  split; [split |]; [| | split; [| split; [| split]]].
  - rewrite getEvents_object. unfold tryCatch, bind, apiGet, apiCall.
    fold eventsRequest.
    destruct (backend w eventsRequest) as [e | []]; reflexivity.
  - rewrite getAttendanceRecords_object. unfold tryCatch, bind, apiGet, apiCall.
    fold attendanceRequest.
    destruct (backend w attendanceRequest) as [e | []]; reflexivity.
  - intros keys k v. unfold queryOf. rewrite <- list_elem_of_In, list_elem_of_omap.
    split.
    + intros ([k' flag] & Hin & Hf). apply forwarded_spec in Hf.
      cbn [fst snd] in Hf. destruct Hf as (-> & Ht & Hall & ->).
      exists flag. rewrite <- list_elem_of_In. now repeat split.
    + intros (flag & Hin & Ht & Hall & ->). exists (k, flag).
      rewrite list_elem_of_In. split; [exact Hin |].
      apply forwarded_spec. now repeat split.
  - intros body Hb. rewrite getEvents_object. unfold tryCatch, bind, apiGet, apiCall.
    fold eventsRequest. rewrite Hb. reflexivity.
  - intros body Hb. rewrite getAttendanceRecords_object.
    unfold tryCatch, bind, apiGet, apiCall.
    fold attendanceRequest. rewrite Hb. reflexivity.
  - rewrite getEvents_object. unfold tryCatch, bind, apiGet, apiCall.
    change (queryString (queryOf eventsKeys [("status", JStr "all"); ("category", JStr "all")]))
      with "".
    change ("/events?" ++ "") with "/events?".
    destruct (backend w (mkRequest "get" "/events?" JUndefined JUndefined)) as [e | []];
      reflexivity.
Qed.

Lemma date_range_and_search_are_not_forwarded :
  snd (Events.getEvents accepting
         (JObj [("startDate", JStr "2025-01-01"); ("endDate", JStr "2025-12-31");
                ("page", JNum 2)]) [])
    = [Http (mkRequest "get" "/events?page=2" JUndefined JUndefined)] /\
  snd (Attendance.getAttendanceRecords accepting
         (JObj [("search", JStr "choir"); ("page", JNum 2)]) [])
    = [Http (mkRequest "get" "/attendance?page=2" JUndefined JUndefined)].
Proof. split; reflexivity. Qed.

Import ExportSpec.

(** C9. The format selects the mode of an export. With [format: 'csv']
    [generateReport] and [exportEvents] send their one request asking for a
    file; when it is answered they save the content under a date-stamped
    file name and return [{success: true, data: {filename, type:
    'download'}}], in which the content does not appear. With
    [format: 'json'] they send their one request asking for JSON, save
    nothing, and when it is answered return the [data] of the response body
    together with its [count]. In both modes a rejected request is answered
    with the failure envelope of the operation, as is a JSON answer without
    a body to read. *)
Theorem export_mode_follows_format
    (backend : World -> HttpRequest -> JsError + JsVal) (today : string)
    (filters : list (string * JsVal)) (w : World) :
  (lookupField "format" filters = Some (JStr "csv") ->
   Attendance.generateReport backend today (JObj filters) w
   = exportsFile backend (reportRequest "csv" (JObj filters))
       ("attendance_report_" ++ today ++ ".csv")
       "CSV report downloaded successfully" "Failed to generate report" w /\
   Events.exportEvents backend today (JObj filters) w
   = exportsFile backend (exportRequest "csv" (JObj filters))
       ("events_export_" ++ today ++ ".csv")
       "CSV export downloaded successfully" "Failed to export events" w) /\
  (lookupField "format" filters = Some (JStr "json") ->
   Attendance.generateReport backend today (JObj filters) w
   = exportsRecords backend (reportRequest "json" (JObj filters))
       "Report generated successfully" "Failed to generate report" w /\
   Events.exportEvents backend today (JObj filters) w
   = exportsRecords backend (exportRequest "json" (JObj filters))
       "Events exported successfully" "Failed to export events" w).
Proof.
  split; intros Hf; split.
  - unfold Attendance.generateReport, exportsFile, reportRequest, tryCatch, bind, get, lift,
      apiPostWith, apiCall, emit, ret, optProp.
    cbn [defaultArg prop]. rewrite Hf. cbn [default id jsOr truthy String.eqb Ascii.eqb Bool.eqb negb strictEq].
    destruct (backend w _) as [error | content]; [reflexivity |].
    cbn. now rewrite <- app_assoc.
  - unfold Events.exportEvents, exportsFile, exportRequest, tryCatch, bind, get, lift,
      apiGetWith, apiCall, emit, ret, optProp.
    cbn [defaultArg prop]. rewrite Hf. cbn [default id jsOr truthy String.eqb Ascii.eqb Bool.eqb negb strictEq].
    destruct (backend w _) as [error | content]; [reflexivity |].
    cbn. now rewrite <- app_assoc.
  - unfold Attendance.generateReport, exportsRecords, reportRequest, counted, tryCatch, bind,
      get, lift, apiPost, apiCall, ret, optProp.
    cbn [defaultArg prop]. rewrite Hf. cbn [default id jsOr truthy String.eqb Ascii.eqb Bool.eqb negb strictEq setField].
    destruct (backend w _) as [error | body]; [reflexivity |].
    destruct body; reflexivity.
  - unfold Events.exportEvents, exportsRecords, exportRequest, counted, tryCatch, bind,
      get, lift, apiGetWith, apiCall, ret, optProp.
    cbn [defaultArg prop]. rewrite Hf. cbn [default id jsOr truthy String.eqb Ascii.eqb Bool.eqb negb strictEq setField].
    destruct (backend w _) as [error | body]; [reflexivity |].
    destruct body; reflexivity.
Qed.

Lemma csv_export_downloads :
  lookupField "format" [("format", JStr "csv")] = Some (JStr "csv") /\
  Attendance.generateReport (serving csvBlob) "2025-03-02" (JObj [("format", JStr "csv")]) []
  = (inr (JObj [("success", JBool true);
                ("data", JObj [("filename", JStr "attendance_report_2025-03-02.csv");
                               ("type", JStr "download")]);
                ("message", JStr "CSV report downloaded successfully")]),
     [Http (mkRequest "post" "/attendance/report"
              (JObj [("format", JStr "csv"); ("startDate", JNull); ("endDate", JNull);
                     ("serviceType", JStr "all")])
              (JObj [("responseType", JStr "blob");
                     ("headers", JObj [("Accept", JStr "text/csv")])]));
      Download "attendance_report_2025-03-02.csv" "text/csv" csvBlob]) /\
  Events.exportEvents (failing 500 JNull) "2025-03-02" (JObj [("format", JStr "csv")]) []
  = (inr (JObj [("success", JBool false); ("message", JStr "Failed to export events")]),
     [Http (mkRequest "get" "/events/export" JUndefined
              (JObj [("params", JObj [("format", JStr "csv"); ("status", JStr "all");
                                      ("category", JStr "all")]);
                     ("responseType", JStr "blob");
                     ("headers", JObj [("Accept", JStr "text/csv")])]))]).
Proof.
  assert (Hf : lookupField "format" [("format", JStr "csv")] = Some (JStr "csv"))
    by reflexivity.
  split; [exact Hf |]. split.
  - exact (proj1 (proj1 (export_mode_follows_format (serving csvBlob) "2025-03-02"
                           [("format", JStr "csv")] []) Hf)).
  - exact (proj2 (proj1 (export_mode_follows_format (failing 500 JNull) "2025-03-02"
                           [("format", JStr "csv")] []) Hf)).
Defined.

Section Trim.

Lemma firstStrip_whitespace p l :
  In p whitespace -> firstStrip whitespace (p ++ l)%list = Some l.
Proof.
  unfold whitespace. cbn [map bytes In].
  intros H. repeat (destruct H as [<- | H]; [reflexivity |]). destruct H.
Qed.

Lemma whitespace_nonempty p : In p whitespace -> (1 <= List.length p)%nat.
Proof.
  unfold whitespace. cbn [map bytes In].
  intros H. repeat (destruct H as [<- | H]; [cbn; lia |]). destruct H.
Qed.

Lemma trimStartWith_whitespaceOnly l :
  whitespaceOnly l ->
  forall fuel, (List.length l <= fuel)%nat -> trimStartWith whitespace fuel l = [].
Proof.
  induction 1 as [| p l Hp Hl IH]; intros fuel Hfuel.
  - destruct fuel; reflexivity.
  - pose proof (whitespace_nonempty p Hp) as Hlen.
    rewrite length_app in Hfuel.
    destruct fuel as [| fuel]; [lia |].
    cbn [trimStartWith]. rewrite (firstStrip_whitespace p l Hp).
    apply IH. lia.
Qed.

Lemma trim_whitespaceOnly s :
  whitespaceOnly (list_ascii_of_string s) -> trim s = "".
Proof.
  intros H. unfold trim, trimStart.
  now rewrite (trimStartWith_whitespaceOnly _ H _ (le_n _)).
Qed.

End Trim.

Section Search.

Variable backend : World -> HttpRequest -> JsError + JsVal.

Lemma blank_test term w :
  blankTerm term ->
  (if negb (truthy term) then ret true
   else
     let* trimmed := callTrim term in
     let* len := get trimmed "length" in
     ret (strictEq len (JNum 0))) w = (inr true, w).
Proof.
  intros [-> | (s & -> & Hs)]; [reflexivity |].
  destruct (negb (truthy (JStr s))); [reflexivity |].
  unfold callTrim, bind, ret, get, lift. rewrite (trim_whitespaceOnly s Hs). reflexivity.
Qed.

Lemma getEvents_default filters :
  Events.getEvents backend (defaultArg filters (JObj [])) = Events.getEvents backend filters.
Proof. now destruct filters. Qed.

Lemma getAttendanceRecords_default filters :
  Attendance.getAttendanceRecords backend (defaultArg filters (JObj []))
  = Attendance.getAttendanceRecords backend filters.
Proof. now destruct filters. Qed.

End Search.

(** C10. For a search term that is absent, empty or made of white space only,
    and for every filters argument, [searchEvents] is [getEvents] on the same
    filters and [searchAttendance] is [getAttendanceRecords] on the same
    filters: same result, same requests. *)
Theorem blank_search_is_the_plain_listing
    (backend : World -> HttpRequest -> JsError + JsVal)
    (searchTerm filters : JsVal) (w : World) :
  blankTerm searchTerm ->
  Events.searchEvents backend searchTerm filters w = Events.getEvents backend filters w /\
  Attendance.searchAttendance backend searchTerm filters w
  = Attendance.getAttendanceRecords backend filters w.
Proof.
  intros Hblank. split.
  - unfold Events.searchEvents.
    rewrite <- (getEvents_default backend filters).
    unfold tryCatch at 1.
    rewrite (bind_returned _ _ _ _ _ (blank_test searchTerm w Hblank)).
    destruct (Events.getEvents backend (defaultArg filters (JObj [])) w)
      as [[e | v] w'] eqn:E; [| reflexivity].
    pose proof (getEvents_ok backend (defaultArg filters (JObj [])) w) as H.
    rewrite E in H. destruct H.
  - unfold Attendance.searchAttendance.
    rewrite <- (getAttendanceRecords_default backend filters).
    unfold tryCatch at 1.
    rewrite (bind_returned _ _ _ _ _ (blank_test searchTerm w Hblank)).
    destruct (Attendance.getAttendanceRecords backend (defaultArg filters (JObj [])) w)
      as [[e | v] w'] eqn:E; [| reflexivity].
    pose proof (getAttendanceRecords_ok backend (defaultArg filters (JObj [])) w) as H.
    rewrite E in H. destruct H.
Qed.

Lemma blank_search_example :
  blankTerm (JStr "   ") /\
  Events.searchEvents accepting (JStr "   ") (JObj [("page", JNum 2)]) []
  = Events.getEvents accepting (JObj [("page", JNum 2)]) [] /\
  Attendance.searchAttendance accepting (JStr "   ") (JObj [("page", JNum 2)]) []
  = Attendance.getAttendanceRecords accepting (JObj [("page", JNum 2)]) [].
Proof.
  assert (H : blankTerm (JStr "   ")).
  { right. exists "   ". split; [reflexivity |].
    change (whitespaceOnly ([" "%char] ++ [" "%char] ++ [" "%char] ++ [])%list).
    repeat (apply ws_app; [vm_compute; tauto |]). apply ws_nil. }
  split; [exact H |].
  exact (blank_search_is_the_plain_listing accepting (JStr "   ") (JObj [("page", JNum 2)])
           [] H).
Defined.

(** X3. When the statistics call of the attendance summary fails, the summary
    answers with that very failure envelope and makes no further call. *)
Theorem summary_returns_the_failed_statistics
    (backend : World -> HttpRequest -> JsError + JsVal)
    (period stats : JsVal) (w w' : World) :
  Attendance.getAttendanceStats backend (defaultArg period (JStr "month")) w
  = (inr stats, w') ->
  optProp stats "success" = JBool false ->
  Attendance.getAttendanceSummary backend period w = (inr stats, w').
Proof.
  intros Hstats Hfailed.
  pose proof (getAttendanceStats_ok backend (defaultArg period (JStr "month")) w) as Henv.
  rewrite Hstats in Henv. cbn [fst] in Henv.
  destruct Henv as (fs & b & msg & -> & Hs & _).
  unfold Attendance.getAttendanceSummary.
  apply tryCatch_returned.
  rewrite (bind_returned _ _ _ _ _ Hstats).
  unfold get, lift, bind, prop, optProp in *. cbn in *.
  rewrite Hs in *. injection Hfailed as ->. reflexivity.
Qed.

Lemma summary_of_an_unknown_period :
  Attendance.getAttendanceSummary accepting (JStr "decade") []
  = (inr (JObj [("success", JBool false);
                ("message", JStr "Period must be one of: week, month, year");
                ("data", JObj [("totalRecords", JNum 0); ("totalAttendance", JNum 0);
                               ("averageAttendance", JNum 0);
                               ("highestAttendance", JNum 0);
                               ("lowestAttendance", JNum 0)])]), []).
Proof.
  apply (summary_returns_the_failed_statistics accepting (JStr "decade")); reflexivity.
Defined.

Lemma helpers_return_no_envelope :
  Events.validateEventData noDates 0 JUndefined
  = inl (typeError "Cannot read properties of undefined (reading 'title')") /\
  Events.validateEventData noDates 0 (JObj [])
  = inr (JObj [("isValid", JBool false);
               ("errors",
                JArr [JStr "Event title is required";
                      JStr "Event description is required";
                      JStr "Event date is required";
                      JStr "Event time is required";
                      JStr "Event location is required";
                      JStr "Event category is required"])]) /\
  Events.formatEventForDisplay noDates 0 noText noText noAmount JNull = inr JNull /\
  fst (Events.getEvents (failing 400 (JObj [("message", JNum 42)])) (JObj []) [])
  = inr (JObj [("success", JBool false); ("message", JNum 42);
               ("error", JObj [("message", JNum 42)])]).
Proof. repeat split. Qed.

(* ===================================================================== *)
(** * The transport core: the refresh protocol                            *)
(* ===================================================================== *)

Section Frames.

Lemma trace_emitAll es st : trace (actAll es st) = (trace st ++ es)%list.
Proof.
  revert st. induction es as [| e es IH]; intros st; cbn.
  - now rewrite app_nil_r.
  - unfold actAll in IH. rewrite IH. cbn. now rewrite <- app_assoc.
Qed.

(** Emitting one effect per element of a list. *)
Lemma fold_emit {A} (f : A -> Action) (l : list A) st :
  fold_left (fun st x => act (f x) st) l st
  = mkClient (isRefreshing st) (failedQueue st) (localStorage st) (requests st)
      (pathname st) (awaiting st) (trace st ++ map f l)%list.
Proof.
  revert st. induction l as [| x l IH]; intros st; cbn.
  - rewrite app_nil_r. now destruct st.
  - rewrite IH. cbn. now rewrite <- app_assoc.
Qed.

Lemma processQueue_reject e token st :
  processQueue (Some e) token st
  = mkClient (isRefreshing st) [] (localStorage st) (requests st) (pathname st)
      (awaiting st) (trace st ++ map (fun q => QueueReject q e) (failedQueue st))%list.
Proof. unfold processQueue. now rewrite fold_emit. Qed.

Lemma processQueue_resolve token st :
  processQueue None token st
  = mkClient (isRefreshing st) [] (localStorage st) (requests st) (pathname st)
      (awaiting st) (trace st ++ map (fun q => QueueResolve q token) (failedQueue st))%list.
Proof. unfold processQueue. now rewrite fold_emit. Qed.

Lemma resumeRejected_spec queued e st :
  resumeRejected queued e st
  = mkClient (isRefreshing st) (failedQueue st) (localStorage st) (requests st)
      (pathname st) (awaiting st) (trace st ++ map (fun q => Reject q e) queued)%list.
Proof. unfold resumeRejected. now rewrite fold_emit. Qed.

Lemma setAuthorization_twice v c :
  setAuthorization v (setAuthorization v c) = setAuthorization v c.
Proof. unfold setAuthorization. cbn. now rewrite insert_insert_eq. Qed.

Lemma resubmitted_after token (configs : gmap nat Config) q c q' :
  configs !! q = Some c ->
  resubmitted token (<[q := setAuthorization ("Bearer " ++ toString token) c]> configs) q'
  = resubmitted token configs q'.
Proof.
  intros Hq. unfold resubmitted. destruct (decide (q = q')) as [<- | Hne].
  - rewrite lookup_insert_eq, Hq. now rewrite setAuthorization_twice.
  - now rewrite lookup_insert_ne.
Qed.

Lemma resubmit_spec q token st :
  exists configs,
    resubmit q token st
    = mkClient (isRefreshing st) (failedQueue st) (localStorage st) configs (pathname st)
        (awaiting st) (trace st ++ [resubmitted token (requests st) q])%list /\
    forall q', resubmitted token configs q' = resubmitted token (requests st) q'.
Proof.
  unfold resubmit. unfold resubmitted at 1.
  destruct (requests st !! q) as [c |] eqn:E.
  - eexists. split; [reflexivity |]. intros q'. now apply resubmitted_after.
  - exists (requests st). split; [reflexivity | reflexivity].
Qed.

Lemma resumeResolved_spec queued token st :
  exists configs,
    resumeResolved queued token st
    = mkClient (isRefreshing st) (failedQueue st) (localStorage st) configs (pathname st)
        (awaiting st) (trace st ++ map (resubmitted token (requests st)) queued)%list /\
    forall q', resubmitted token configs q' = resubmitted token (requests st) q'.
Proof.
  unfold resumeResolved. revert st.
  induction queued as [| q queued IH]; intros st; cbn [fold_left map].
  - exists (requests st). rewrite app_nil_r. now destruct st.
  - destruct (resubmit_spec q token st) as (configs1 & -> & Hsame1).
    destruct (IH (mkClient (isRefreshing st) (failedQueue st) (localStorage st) configs1
                    (pathname st) (awaiting st)
                    (trace st ++ [resubmitted token (requests st) q])%list))
      as (configs2 & -> & Hsame2).
    cbn in *. exists configs2. split.
    + rewrite <- app_assoc. cbn. do 2 f_equal. f_equal.
      apply map_ext. intros q'. apply Hsame1.
    + intros q'. now rewrite Hsame2, Hsame1.
Qed.

End Frames.

Section Outcomes.

(** The state a failed refresh attempt leaves. *)
Lemma refreshFailed_spec request e st :
  refreshFailed request e st
  = mkClient false []
      (delete "churchAdminRefreshToken" (delete "churchAdminToken" (localStorage st)))
      (requests st) (pathname st) (awaiting st)
      (trace st ++ map (fun q => QueueReject q e) (failedQueue st)
         ++ [Dispatch "auth:logout"]
         ++ (if negb (String.eqb (pathname st) "/login") then [Navigate "/login"] else [])
         ++ [Reject request e]
         ++ map (fun q => Reject q e) (failedQueue st))%list.
Proof.
  unfold refreshFailed. rewrite resumeRejected_spec, processQueue_reject. cbn.
  destruct (negb (String.eqb (pathname st) "/login")); cbn;
    rewrite <- !app_assoc; reflexivity.
Qed.

Lemma refreshSucceeded_spec request refreshToken token st :
  exists configs,
    refreshSucceeded request refreshToken token st
    = mkClient false [] 
        (<["churchAdminRefreshToken" := refreshToken]>
           (<["churchAdminToken" := toString token]> (localStorage st)))
        configs (pathname st) (awaiting st)
        (trace st ++ map (fun q => QueueResolve q token) (failedQueue st)
           ++ [resubmitted token (requests st) request]
           ++ map (resubmitted token (requests st)) (failedQueue st))%list.
Proof.
  unfold refreshSucceeded. cbv zeta. rewrite processQueue_resolve.
  cbn [setItem setStorage isRefreshing failedQueue localStorage requests pathname awaiting
         trace].
  destruct (resubmit_spec request token
              (mkClient (isRefreshing st) [] 
                 (<["churchAdminRefreshToken" := refreshToken]>
                    (<["churchAdminToken" := toString token]> (localStorage st)))
                 (requests st) (pathname st) (awaiting st)
                 (trace st ++ map (fun q => QueueResolve q token) (failedQueue st))%list))
    as (configs1 & -> & Hsame1).
  unfold setRefreshing.
  cbn [isRefreshing failedQueue localStorage requests pathname awaiting trace] in *.
  destruct (resumeResolved_spec (failedQueue st) token
              (mkClient false [] 
                 (<["churchAdminRefreshToken" := refreshToken]>
                    (<["churchAdminToken" := toString token]> (localStorage st)))
                 configs1 (pathname st) (awaiting st)
                 ((trace st ++ map (fun q => QueueResolve q token) (failedQueue st))
                    ++ [resubmitted token (requests st) request])%list))
    as (configs2 & -> & Hsame2).
  cbn [isRefreshing failedQueue localStorage requests pathname awaiting trace].
  exists configs2. rewrite <- !app_assoc. cbn [app]. do 4 f_equal.
  apply map_ext. intros q'. apply Hsame1.
Qed.

End Outcomes.

Section Handler.

Lemma handler_starts_refresh error config refreshToken st :
  is401 error ->
  requests st !! ax_config error = Some config ->
  _retry config = false ->
  isRefreshing st = false ->
  truthyItem (localStorage st) "churchAdminRefreshToken" = Some refreshToken ->
  responseErrorHandler error st
  = mkClient true (failedQueue st) (localStorage st)
      (<[ax_config error := setRetry config]> (requests st)) (pathname st)
      (Some (ax_config error, refreshToken)) (trace st ++ [RefreshCall refreshToken])%list.
Proof.
  intros [body Hbody] Hconfig Hretry Hflag Htoken.
  unfold responseErrorHandler. rewrite Hbody. cbn [Z.eqb Pos.eqb].
  rewrite Hconfig, Hretry, Hflag.
  cbn [setRequests setRefreshing localStorage]. now rewrite Htoken.
Qed.

Lemma handler_enqueues error config st :
  is401 error ->
  requests st !! ax_config error = Some config ->
  _retry config = false ->
  isRefreshing st = true ->
  responseErrorHandler error st
  = setQueue (failedQueue st ++ [ax_config error])%list st.
Proof.
  intros [body Hbody] Hconfig Hretry Hflag.
  unfold responseErrorHandler. rewrite Hbody. cbn [Z.eqb Pos.eqb].
  now rewrite Hconfig, Hretry, Hflag.
Qed.

Lemma handler_without_refresh_token error config st :
  is401 error ->
  requests st !! ax_config error = Some config ->
  _retry config = false ->
  isRefreshing st = false ->
  truthyItem (localStorage st) "churchAdminRefreshToken" = None ->
  responseErrorHandler error st
  = refreshFailed (ax_config error) (newError "No refresh token available")
      (setRefreshing true
         (setRequests (<[ax_config error := setRetry config]> (requests st)) st)).
Proof.
  intros [body Hbody] Hconfig Hretry Hflag Htoken.
  unfold responseErrorHandler. rewrite Hbody. cbn [Z.eqb Pos.eqb].
  rewrite Hconfig, Hretry, Hflag.
  cbn [setRequests setRefreshing localStorage]. now rewrite Htoken.
Qed.

(** The 401 responses that arrive while the refresh is in flight are queued
    in arrival order. *)
Lemma arrivals_are_queued (errorOf : nat -> AxiosError) (arriving : list nat) st :
  isRefreshing st = true ->
  (forall r, In r arriving ->
             ax_config (errorOf r) = r /\ is401 (errorOf r) /\ notRetried st r) ->
  run (map (fun r => ResponseFailed (errorOf r)) arriving) st
  = setQueue (failedQueue st ++ arriving)%list st.
Proof.
  revert st. induction arriving as [| r arriving IH]; intros st Hflag Hall.
  - cbn. rewrite app_nil_r. now destruct st.
  - destruct (Hall r (or_introl eq_refl)) as (Hr & H401 & c & Hc & Hretry).
    cbn [map run fold_left step]. fold (run (map (fun r => ResponseFailed (errorOf r)) arriving)).
    rewrite (handler_enqueues (errorOf r) c st H401); rewrite ?Hr; try assumption.
    rewrite IH.
    + unfold setQueue. cbn. now rewrite <- app_assoc.
    + exact Hflag.
    + intros r' Hr'. apply Hall. now right.
Qed.

Lemma count_app p (a b : list Action) : count p (a ++ b) = (count p a + count p b)%nat.
Proof. unfold count. now rewrite List.filter_app, length_app. Qed.

Lemma count_map_none {A} p (f : A -> Action) (l : list A) :
  (forall x, p (f x) = false) -> count p (map f l) = 0%nat.
Proof.
  intros H. unfold count. induction l as [| x l IH]; cbn; [reflexivity |].
  now rewrite H.
Qed.

Lemma count_cons p e (l : list Action) :
  count p (e :: l) = ((if p e then 1 else 0) + count p l)%nat.
Proof. unfold count. cbn. now destruct (p e). Qed.

Lemma count_nil p : count p [] = 0%nat.
Proof. reflexivity. Qed.

Lemma count_navigate p (b : bool) href :
  p (Navigate href) = false -> count p (if b then [Navigate href] else []) = 0%nat.
Proof. intros H. destruct b; [| reflexivity]. now rewrite count_cons, H. Qed.

End Handler.

Ltac counting :=
  repeat first
    [ rewrite count_cons
    | rewrite count_app
    | rewrite count_nil
    | rewrite count_map_none by reflexivity
    | rewrite count_navigate by reflexivity ].


Section Counting.

Lemma count_settles_map (g : nat -> Action) (l : list nat) r :
  (forall q, settles r (g q) = Nat.eqb q r) ->
  count (settles r) (map g l) = count_occ Nat.eq_dec l r.
Proof.
  intros Hg. unfold count. induction l as [| q l IH]; cbn; [reflexivity |].
  rewrite Hg. destruct (Nat.eq_dec q r) as [-> | Hne].
  - rewrite Nat.eqb_refl. cbn. now rewrite IH.
  - apply Nat.eqb_neq in Hne. now rewrite Hne.
Qed.

Lemma count_occ_first first others r :
  List.NoDup (first :: others) -> In r (first :: others) ->
  ((if Nat.eqb first r then 1 else 0) + count_occ Nat.eq_dec others r = 1)%nat.
Proof.
  intros Hnd Hin. inversion Hnd as [| ? ? Hnotin Hnd']; subst.
  destruct (Nat.eqb_spec first r) as [-> | Hne].
  - rewrite (proj1 (count_occ_not_In Nat.eq_dec others r) Hnotin). reflexivity.
  - destruct Hin as [-> | Hin]; [congruence |].
    pose proof (proj1 (NoDup_count_occ Nat.eq_dec others) Hnd' r) as Hle.
    pose proof (proj1 (count_occ_In Nat.eq_dec others r) Hin) as Hgt.
    cbn. lia.
Qed.

End Counting.

(** C1 (as amended). Let a refresh token be stored and no refresh be in
    flight. If N requests that were not retried before receive a 401, and all
    N responses are handled before the refresh call settles, then exactly one
    refresh call is issued, carrying the stored refresh token; when it
    settles every one of the N requests is settled exactly once, all in the
    same way: each is resubmitted with the new access token as its bearer
    when the refresh succeeded, each is rejected with the refresh failure
    otherwise; and afterwards nothing is in flight and the queue is empty. *)
Theorem concurrent_401s_share_one_refresh
    (st : Client) (first : nat) (others : list nat) (errorOf : nat -> AxiosError)
    (configOf : nat -> Config) (refreshToken : string) (outcome : JsError + JsVal) :
  idle st ->
  truthyItem (localStorage st) "churchAdminRefreshToken" = Some refreshToken ->
  List.NoDup (first :: others) ->
  (forall r, In r (first :: others) ->
     ax_config (errorOf r) = r /\ is401 (errorOf r) /\
     requests st !! r = Some (configOf r) /\ _retry (configOf r) = false) ->
  let st' :=
    run (map (fun r => ResponseFailed (errorOf r)) (first :: others)
           ++ [RefreshSettled outcome])%list st in
  exists new,
    trace st' = (trace st ++ new)%list /\
    count isRefreshCall new = 1%nat /\
    In (RefreshCall refreshToken) new /\
    idle st' /\
    (forall r, In r (first :: others) -> count (settles r) new = 1%nat) /\
    match refreshedToken outcome with
    | Some token =>
        forall r, In r (first :: others) ->
          In (Resubmit r
                (setAuthorization ("Bearer " ++ toString token)
                   (if Nat.eqb r first then setRetry (configOf r) else configOf r))) new
    | None =>
        exists e, refreshError outcome = Some e /\
          forall r, In r (first :: others) -> In (Reject r e) new
    end.
Proof.
  intros (Hflag & Hqueue & Hwait) Htoken Hnd Hall. cbv zeta.
  destruct (Hall first (or_introl eq_refl)) as (Hfirst & H401 & Hconfig & Hretry).
  (* the first 401 starts the refresh *)
  pose (st1 := mkClient true (failedQueue st) (localStorage st)
                 (<[first := setRetry (configOf first)]> (requests st)) (pathname st)
                 (Some (first, refreshToken)) (trace st ++ [RefreshCall refreshToken])%list).
  assert (H1 : responseErrorHandler (errorOf first) st = st1).
  { rewrite (handler_starts_refresh (errorOf first) (configOf first) refreshToken st);
      rewrite ?Hfirst; try assumption. reflexivity. }
  (* the others are queued behind it *)
  assert (Hother : forall r, In r others -> r <> first).
  { intros r Hr ->. inversion Hnd; contradiction. }
  assert (H2 : run (map (fun r => ResponseFailed (errorOf r)) others) st1
               = setQueue others st1).
  { rewrite arrivals_are_queued.
    - subst st1. unfold setQueue. cbn. now rewrite Hqueue.
    - reflexivity.
    - intros r Hr. destruct (Hall r (or_intror Hr)) as (Ha & Hb & Hc & Hd).
      split; [exact Ha |]. split; [exact Hb |]. exists (configOf r).
      split; [| exact Hd]. subst st1. cbn. rewrite lookup_insert_ne; [exact Hc |].
      intros ->. now apply (Hother r). }
  assert (Hrun : run (map (fun r => ResponseFailed (errorOf r)) (first :: others)
                        ++ [RefreshSettled outcome])%list st
                 = refreshSettled outcome (setQueue others st1)).
  { unfold run. rewrite fold_left_app. cbn [map fold_left step].
    rewrite H1. fold (run (map (fun r => ResponseFailed (errorOf r)) others) st1).
    now rewrite H2. }
  rewrite Hrun. clear Hrun H1 H2.
  set (st' := refreshSettled outcome (setQueue others st1)).
  assert (Hrun : st' = refreshSettled outcome (setQueue others st1)) by reflexivity.
  clearbody st'.
  assert (Hlookup : forall token r, In r (first :: others) ->
            resubmitted token (<[first := setRetry (configOf first)]> (requests st)) r
            = Resubmit r (setAuthorization ("Bearer " ++ toString token)
                            (if Nat.eqb r first then setRetry (configOf r) else configOf r))).
  { intros token r Hr. unfold resubmitted.
    destruct (Nat.eqb_spec r first) as [-> | Hne].
    - now rewrite lookup_insert_eq.
    - rewrite lookup_insert_ne by congruence.
      destruct (Hall r Hr) as (_ & _ & -> & _). reflexivity. }
  subst st1. unfold refreshSettled, setQueue, setAwaiting in Hrun.
  cbn [isRefreshing failedQueue localStorage requests pathname awaiting trace] in Hrun.
  destruct outcome as [e | body]; cbn [refreshedToken refreshError];
    [| destruct (newAccessTokenOf body) as [token |] eqn:Htok].
  - (* the refresh call was rejected *)
    rewrite refreshFailed_spec in Hrun.
    cbn [isRefreshing failedQueue localStorage requests pathname awaiting trace] in Hrun.
    eexists. rewrite Hrun. cbn [trace]. rewrite <- app_assoc. split; [reflexivity |].
    cbn [app]. split; [| split; [| split; [| split]]].
    + counting. reflexivity.
    + now left.
    + repeat split.
    + intros r Hr.
      counting.
      rewrite (count_settles_map (fun q => Reject q e)) by reflexivity.
      cbn [settles]. pose proof (count_occ_first first others r Hnd Hr). lia.
    + exists e. split; [reflexivity |]. intros r [<- | Hr]; right.
      * apply in_or_app; right. right. apply in_or_app; right. now left.
      * apply in_or_app; right. right. apply in_or_app; right. right.
        apply in_map_iff. now exists r.
  - (* the refresh call returned a new access token *)
    match type of Hrun with
    | _ = refreshSucceeded _ _ _ ?s =>
        destruct (refreshSucceeded_spec first refreshToken token s) as (configs & Hs)
    end.
    rewrite Hs in Hrun. clear Hs.
    cbn [isRefreshing failedQueue localStorage requests pathname awaiting trace] in Hrun.
    eexists. rewrite Hrun. cbn [trace]. rewrite <- app_assoc. split; [reflexivity |].
    rewrite (Hlookup token first (or_introl eq_refl)).
    rewrite (map_ext_in _ (fun r => Resubmit r
                            (setAuthorization ("Bearer " ++ toString token)
                               (if Nat.eqb r first then setRetry (configOf r) else configOf r)))
               others (fun r Hr => Hlookup token r (or_intror Hr))).
    cbn [app]. split; [| split; [| split; [| split]]].
    + counting. reflexivity.
    + now left.
    + repeat split.
    + intros r Hr.
      counting.
      rewrite (count_settles_map
                 (fun q => Resubmit q
                    (setAuthorization ("Bearer " ++ toString token)
                       (if Nat.eqb q first then setRetry (configOf q) else configOf q))))
        by reflexivity.
      cbn [settles]. pose proof (count_occ_first first others r Hnd Hr). lia.
    + intros r [<- | Hr]; right.
      * apply in_or_app; right. now left.
      * apply in_or_app; right. right. apply in_map_iff. exists r. now split.
  - (* the response carries no access token *)
    rewrite refreshFailed_spec in Hrun.
    cbn [isRefreshing failedQueue localStorage requests pathname awaiting trace] in Hrun.
    eexists. rewrite Hrun. cbn [trace]. rewrite <- app_assoc. split; [reflexivity |].
    cbn [app]. split; [| split; [| split; [| split]]].
    + counting. reflexivity.
    + now left.
    + repeat split.
    + intros r Hr.
      counting.
      rewrite (count_settles_map (fun q => Reject q (newError "No refresh token available")))
        by reflexivity.
      cbn [settles]. pose proof (count_occ_first first others r Hnd Hr). lia.
    + eexists. split; [reflexivity |]. intros r [<- | Hr]; right.
      * apply in_or_app; right. right. apply in_or_app; right. now left.
      * apply in_or_app; right. right. apply in_or_app; right. right.
        apply in_map_iff. now exists r.
Qed.

Section Invariant.

Lemma consistent_emit e st : consistent (act e st) <-> consistent st.
Proof. reflexivity. Qed.

Lemma consistent_emitAll es st : consistent (actAll es st) <-> consistent st.
Proof.
  revert st. induction es as [| e es IH]; intros st; [reflexivity |].
  cbn. unfold actAll in IH. now rewrite IH.
Qed.

Lemma truthyItem_Some storage key v :
  truthyItem storage key = Some v -> storage !! key = Some v /\ v <> "".
Proof.
  unfold truthyItem. destruct (storage !! key) as [x |]; [| discriminate].
  destruct (String.eqb_spec x ""); [discriminate |]. now intros [= <-].
Qed.

Lemma idle_consistent st : idle st -> consistent st.
Proof. intros (Hf & Hq & Ha). unfold consistent. now rewrite Ha. Qed.

(** The invariant holds after every event. *)
Lemma step_consistent st ev : consistent st -> consistent (step st ev).
Proof.
  intros Hc. destruct ev as [error | outcome]; cbn [step].
  - unfold responseErrorHandler.
    destruct (err_response (ax_error error)) as [[status body] |].
    + assert (Hother : consistent
                (act (Reject (ax_config error) (ax_error error))
                   (actAll (notify status body) st)))
        by now rewrite consistent_emit, consistent_emitAll.
      destruct (status =? 401); [| exact Hother].
      destruct (requests st !! ax_config error) as [config |]; [| exact Hc].
      destruct (_retry config); [exact Hother |].
      destruct (isRefreshing st) eqn:Hflag.
      * unfold consistent in *. cbn. destruct (awaiting st) as [[r rt] |]; [exact Hc |].
        destruct Hc as [Hc _]. congruence.
      * cbn [setRequests setRefreshing localStorage].
        destruct (truthyItem (localStorage st) "churchAdminRefreshToken") as [rt |] eqn:Ht.
        -- apply truthyItem_Some in Ht. unfold consistent. cbn. now split.
        -- rewrite refreshFailed_spec. unfold consistent in *. cbn.
           destruct (awaiting st) as [[r rt] |]; [| now split].
           destruct Hc as [Hc _]. congruence.
    + repeat (match goal with
              | |- context [if ?c then _ else _] => destruct c
              end); exact Hc.
  - unfold refreshSettled. destruct (awaiting st) as [[r rt] |] eqn:Ha; [| exact Hc].
    destruct outcome as [e | body]; [| destruct (newAccessTokenOf body) as [token |]].
    + rewrite refreshFailed_spec. unfold consistent. cbn. now split.
    + destruct (refreshSucceeded_spec r rt token (setAwaiting None st)) as (configs & ->).
      unfold consistent. cbn. now split.
    + rewrite refreshFailed_spec. unfold consistent. cbn. now split.
Qed.

Lemma run_consistent evs st : consistent st -> consistent (run evs st).
Proof.
  revert st. induction evs as [| ev evs IH]; intros st Hc; [exact Hc |].
  cbn. apply IH. now apply step_consistent.
Qed.

End Invariant.

Section Cleanup.

(** What the [catch] block leaves, measured against the state [st] the
    attempt started from. *)
Lemma refreshFailed_cleans_up request e base st :
  failedQueue base = failedQueue st -> trace base = trace st ->
  let st' := refreshFailed request e base in
  localStorage st' !! "churchAdminToken" = None /\
  localStorage st' !! "churchAdminRefreshToken" = None /\
  isRefreshing st' = false /\
  failedQueue st' = [] /\
  exists new,
    trace st' = (trace st ++ new)%list /\
    count isDispatch new = 1%nat /\
    In (Dispatch "auth:logout") new /\
    In (Reject request e) new /\
    forall q, In q (failedQueue st) -> In (QueueReject q e) new /\ In (Reject q e) new.
Proof.
  intros Hq Ht. cbv zeta. rewrite refreshFailed_spec.
  cbn [isRefreshing failedQueue localStorage requests pathname awaiting trace].
  rewrite Hq, Ht. split; [| split; [| split; [reflexivity | split; [reflexivity |]]]].
  - rewrite lookup_delete_ne by discriminate. apply lookup_delete_eq.
  - apply lookup_delete_eq.
  - eexists. split; [reflexivity |]. cbn [app]. split; [| split; [| split]].
    + counting. reflexivity.
    + apply in_or_app; right. now left.
    + apply in_or_app; right. right. apply in_or_app; right. now left.
    + intros q Hin. split.
      * apply in_or_app; left. apply in_map_iff. now exists q.
      * apply in_or_app; right. right. apply in_or_app; right. right.
        apply in_map_iff. now exists q.
Qed.

End Cleanup.

(** C3. Every failed refresh attempt (no refresh token stored, the refresh
    call rejected by a network failure or a status outside 2xx, or a response
    without an access token) removes both stored tokens, dispatches the
    logout event exactly once, rejects every queued request with the refresh
    failure, rejects the request that started the attempt with the same
    failure, and leaves no refresh in progress and an empty queue. *)
Theorem failed_refresh_logs_out
    (st : Client) (request : nat) (error : JsError) (st' : Client) :
  refreshFails st request error st' ->
  localStorage st' !! "churchAdminToken" = None /\
  localStorage st' !! "churchAdminRefreshToken" = None /\
  isRefreshing st' = false /\
  failedQueue st' = [] /\
  exists new,
    trace st' = (trace st ++ new)%list /\
    count isDispatch new = 1%nat /\
    In (Dispatch "auth:logout") new /\
    In (Reject request error) new /\
    forall q, In q (failedQueue st) ->
      In (QueueReject q error) new /\ In (Reject q error) new.
Proof.
  intros H. destruct H as [st error config H401 Hconfig Hretry Hflag Htoken
                          | st request refreshToken error Hwait
                          | st request refreshToken body Hwait Htoken].
  - rewrite (handler_without_refresh_token error config st) by assumption.
    now apply refreshFailed_cleans_up.
  - unfold refreshSettled. rewrite Hwait. now apply refreshFailed_cleans_up.
  - unfold refreshSettled. rewrite Hwait, Htoken. now apply refreshFailed_cleans_up.
Qed.

(** C4 (as amended). When the refresh call succeeds and its response
    carries a new access token, the new token is stored, and the refresh
    token that the handler read when it started the refresh is stored again:
    the stored refresh token stays what it was if the storage still holds
    that token, and every other key of the storage is left alone. Every
    queued request is resolved with the new token and then resubmitted with
    it as bearer; the request that started the refresh is resubmitted with
    Authorization set to the new token and otherwise unchanged, and the
    handler returns that resubmission, so that its result is the result of
    the original call (the request interceptor, run on the resubmission,
    attaches the same header). No refresh is in flight afterwards. *)
Theorem successful_refresh_is_replayed
    (st : Client) (request : nat) (refreshToken : string) (config : Config)
    (body token : JsVal) (now : Z) :
  awaiting st = Some (request, refreshToken) ->
  requests st !! request = Some config ->
  newAccessTokenOf body = Some token ->
  let st' := refreshSettled (inr body) st in
  let bearer := "Bearer " ++ toString token in
  localStorage st' !! "churchAdminToken" = Some (toString token) /\
  localStorage st' !! "churchAdminRefreshToken" = Some refreshToken /\
  (localStorage st !! "churchAdminRefreshToken" = Some refreshToken ->
   localStorage st' !! "churchAdminRefreshToken"
   = localStorage st !! "churchAdminRefreshToken") /\
  (forall key, key <> "churchAdminToken" -> key <> "churchAdminRefreshToken" ->
               localStorage st' !! key = localStorage st !! key) /\
  trace st'
    = (trace st ++ map (fun q => QueueResolve q token) (failedQueue st)
         ++ [Resubmit request (setAuthorization bearer config)]
         ++ map (resubmitted token (requests st)) (failedQueue st))%list /\
  (forall q queued,
     In q (failedQueue st) -> requests st !! q = Some queued ->
     resubmitted token (requests st) q = Resubmit q (setAuthorization bearer queued)) /\
  headers (setAuthorization bearer config) !! "Authorization" = Some bearer /\
  sameRequest (setAuthorization bearer config) config /\
  headers (requestInterceptor (localStorage st') now (setAuthorization bearer config))
    !! "Authorization" = Some bearer /\
  idle st'.
Proof.
  intros Hwait Hconfig Htoken. cbv zeta.
  unfold refreshSettled. rewrite Hwait, Htoken.
  destruct (refreshSucceeded_spec request refreshToken token (setAwaiting None st))
    as (configs & ->).
  cbn [isRefreshing failedQueue localStorage requests pathname awaiting trace setAwaiting].
  split; [| split; [| split; [| split; [| split; [| split; [| split; [| split; [| split]]]]]]]].
  - rewrite lookup_insert_ne by discriminate. apply lookup_insert_eq.
  - apply lookup_insert_eq.
  - intros Hstored. now rewrite lookup_insert_eq, Hstored.
  - intros key Haccess Hrefresh. now rewrite !lookup_insert_ne by congruence.
  - unfold resubmitted at 1. now rewrite Hconfig.
  - intros q queued _ Hq. unfold resubmitted. now rewrite Hq.
  - apply lookup_insert_eq.
  - repeat split. intros name Hname. cbn. now rewrite lookup_insert_ne.
  - unfold requestInterceptor, truthyItem.
    rewrite lookup_insert_ne by discriminate. rewrite lookup_insert_eq.
    destruct (String.eqb_spec (toString token) "") as [Hempty | Hfull]; cbn.
    + apply lookup_insert_eq.
    + apply lookup_insert_eq.
  - repeat split.
Qed.

(** C2 (as amended). When a non-empty access token is stored under
    [churchAdminToken], the request interceptor sets the Authorization header
    to ["Bearer "] followed by that token; when none is stored, or the stored
    string is empty, it leaves the headers as they are. In both cases the
    URL, the method, the data, the retry mark and every other header are
    passed through unchanged, and [metadata] is set to the start time. *)
Theorem request_interceptor_attaches_bearer
    (storage : gmap string string) (now : Z) (config : Config) :
  let sent := requestInterceptor storage now config in
  (forall token,
     storage !! "churchAdminToken" = Some token -> token <> "" ->
     headers sent !! "Authorization" = Some ("Bearer " ++ token)) /\
  (storage !! "churchAdminToken" = None \/ storage !! "churchAdminToken" = Some "" ->
   headers sent = headers config) /\
  sameRequest sent config /\
  metadata sent = Some now.
Proof.
  cbv zeta. unfold requestInterceptor, truthyItem.
  split; [| split; [| split]].
  - intros token Hstored Hne. rewrite Hstored.
    destruct (String.eqb_spec token ""); [contradiction |].
    cbn. apply lookup_insert_eq.
  - intros [Hnone | Hempty].
    + now rewrite Hnone.
    + now rewrite Hempty.
  - destruct (storage !! "churchAdminToken") as [token |]; [| now repeat split].
    destruct (String.eqb token ""); [now repeat split |].
    repeat split. intros name Hname. cbn. now rewrite lookup_insert_ne.
  - destruct (storage !! "churchAdminToken") as [token |]; [| reflexivity].
    now destruct (String.eqb token "").
Qed.

Lemma empty_token_and_start_time :
  ({[ "churchAdminToken" := "" ]} : gmap string string) !! "churchAdminToken" = Some "" /\
  headers (requestInterceptor {[ "churchAdminToken" := "" ]} 1700000000000
             (plainConfig "/members")) !! "Authorization" = None /\
  metadata (plainConfig "/members") = None /\
  metadata (requestInterceptor ∅ 1700000000000 (plainConfig "/members"))
    = Some 1700000000000.
Proof. repeat split. Qed.

Lemma no_refresh_call_without_refresh_token :
  truthyItem (localStorage signedOut) "churchAdminRefreshToken" = None /\
  trace (run [ResponseFailed (expired 1); ResponseFailed (expired 2)] signedOut)
  = [Dispatch "auth:logout"; Reject 1 (newError "No refresh token available");
     Dispatch "auth:logout"; Reject 2 (newError "No refresh token available")] /\
  count isRefreshCall
    (trace (run [ResponseFailed (expired 1); ResponseFailed (expired 2)] signedOut)) = 0%nat /\
  count isDispatch
    (trace (run [ResponseFailed (expired 1); ResponseFailed (expired 2)] signedOut)) = 2%nat.
Proof. repeat split. Qed.

Lemma two_requests_share_one_refresh :
  idle signedIn /\
  exists new,
    trace (run [ResponseFailed (expired 1); ResponseFailed (expired 2);
                RefreshSettled (inr freshToken)] signedIn) = new /\
    count isRefreshCall new = 1%nat /\
    count (settles 1) new = 1%nat /\ count (settles 2) new = 1%nat.
Proof.
  assert (Hidle : idle signedIn) by (repeat split).
  split; [exact Hidle |].
  assert (Hnd : List.NoDup [1%nat; 2%nat]).
  { constructor; [cbn; lia |]. constructor; [cbn; tauto | constructor]. }
  assert (Hall : forall r, In r [1%nat; 2%nat] ->
            ax_config (expired r) = r /\ is401 (expired r) /\
            requests signedIn !! r = Some (configOfTwo r) /\ _retry (configOfTwo r) = false).
  { intros r [<- | [<- | []]]; (split; [reflexivity |]); (split; [now exists JNull |]);
      split; reflexivity. }
  destruct (concurrent_401s_share_one_refresh signedIn 1 [2%nat] expired configOfTwo
              "refresh-1" (inr freshToken) Hidle eq_refl Hnd Hall)
    as (new & Htrace & Hone & _ & _ & Hsettled & _).
  exists new. split; [exact Htrace |]. split; [exact Hone |].
  split; apply Hsettled; cbn; tauto.
Defined.

Lemma rejected_refresh_logs_out :
  refreshFails refreshing 1 refreshRejected (refreshSettled (inl refreshRejected) refreshing) /\
  localStorage (refreshSettled (inl refreshRejected) refreshing) !! "churchAdminToken"
    = None /\
  localStorage (refreshSettled (inl refreshRejected) refreshing)
    !! "churchAdminRefreshToken" = None.
Proof.
  assert (H : refreshFails refreshing 1 refreshRejected
                (refreshSettled (inl refreshRejected) refreshing))
    by (apply (refresh_call_rejected _ 1%nat "refresh-1"); reflexivity).
  split; [exact H |].
  destruct (failed_refresh_logs_out _ _ _ _ H) as (Ha & Hb & _).
  split; [exact Ha | exact Hb].
Defined.

Lemma fresh_token_is_replayed :
  awaiting bothWaiting = Some (1%nat, "refresh-1") /\
  localStorage (refreshSettled (inr freshToken) bothWaiting) !! "churchAdminToken"
    = Some "fresh" /\
  localStorage (refreshSettled (inr freshToken) bothWaiting) !! "churchAdminRefreshToken"
    = Some "refresh-1" /\
  trace (refreshSettled (inr freshToken) bothWaiting)
    = [RefreshCall "refresh-1"; QueueResolve 2 (JStr "fresh");
       Resubmit 1 (setAuthorization "Bearer fresh" (setRetry (plainConfig "/members")));
       Resubmit 2 (setAuthorization "Bearer fresh" (plainConfig "/events"))].
Proof.
  split; [reflexivity |].
  destruct (successful_refresh_is_replayed bothWaiting 1 "refresh-1"
              (setRetry (plainConfig "/members")) freshToken (JStr "fresh") 0
              eq_refl eq_refl eq_refl) as (Ha & Hb & _ & _ & Ht & _).
  split; [exact Ha |]. split; [exact Hb |]. rewrite Ht. reflexivity.
Defined.

Lemma logout_during_refresh_is_undone :
  awaiting loggedOutMeanwhile = Some (1%nat, "refresh-1") /\
  requests loggedOutMeanwhile !! 1%nat = Some (setRetry (plainConfig "/members")) /\
  newAccessTokenOf freshToken = Some (JStr "fresh") /\
  localStorage loggedOutMeanwhile !! "churchAdminRefreshToken" = None /\
  localStorage (refreshSettled (inr freshToken) loggedOutMeanwhile)
    !! "churchAdminRefreshToken" = Some "refresh-1".
Proof. repeat split. Qed.

(** X1. Starting with no refresh in flight, the refresh state stays
    consistent whatever responses and refresh outcomes arrive: the flag is set
    exactly while a handler waits for the refresh call, and outside a refresh
    the queue is empty. *)
Theorem refresh_state_stays_consistent (st : Client) (events : list Event) :
  idle st -> consistent (run events st).
Proof. intros Hidle. apply run_consistent. now apply idle_consistent. Qed.

Lemma refresh_state_after_two_401s :
  idle signedIn /\ consistent bothWaiting.
Proof.
  assert (H : idle signedIn) by (repeat split).
  split; [exact H |].
  exact (refresh_state_stays_consistent signedIn
           [ResponseFailed (expired 1); ResponseFailed (expired 2)] H).
Defined.

(** X2. A request that was already retried and receives a 401 again does not
    start a refresh and is not queued: the user is notified once and the
    request is rejected with the error it received. *)
Theorem retried_request_is_not_refreshed_again
    (st : Client) (error : AxiosError) (config : Config) (body : JsVal) :
  err_response (ax_error error) = Some (401, body) ->
  requests st !! ax_config error = Some config ->
  _retry config = true ->
  exists msg,
    responseErrorHandler error st
    = act (Reject (ax_config error) (ax_error error)) (act (Toast msg) st) /\
    count isRefreshCall (trace (responseErrorHandler error st))
    = count isRefreshCall (trace st).
Proof.
  intros Hresp Hconfig Hretry.
  unfold responseErrorHandler. rewrite Hresp. cbn [Z.eqb Pos.eqb].
  rewrite Hconfig, Hretry.
  exists (toString (jsOr (jsOr (optProp body "message") (optProp body "error"))
                      (JStr (getDefaultErrorMessage 401)))).
  split; [reflexivity |].
  cbn [notify Z.eqb Pos.eqb andb Z.leb Z.ltb Z.compare Pos.compare Pos.compare_cont actAll
         fold_left act trace].
  rewrite <- app_assoc. rewrite count_app. cbn. lia.
Qed.

Lemma second_401_of_a_retried_request :
  requests refreshing !! 1%nat = Some (setRetry (plainConfig "/members")) /\
  trace (responseErrorHandler (expired 1) (refreshSettled (inr freshToken) refreshing))
  = [RefreshCall "refresh-1";
     Resubmit 1 (setAuthorization "Bearer fresh" (setRetry (plainConfig "/members")));
     Toast "Unauthorized";
     Reject 1 (ax_error (expired 1))].
Proof.
  split; [reflexivity |].
  destruct (retried_request_is_not_refreshed_again
              (refreshSettled (inr freshToken) refreshing) (expired 1)
              (setAuthorization "Bearer fresh" (setRetry (plainConfig "/members"))) JNull
              eq_refl eq_refl eq_refl) as (msg & Hrun & _).
  rewrite Hrun. vm_compute in Hrun. injection Hrun as Hmsg.
  rewrite <- Hmsg. reflexivity.
Defined.

(** X4. A failure without a response (timeout, network failure, unreachable
    server) is notified once and rejected with the error received; it starts
    no refresh and leaves the refresh state and the stored tokens as they
    were. *)
Theorem network_failure_is_only_notified (st : Client) (error : AxiosError) :
  err_response (ax_error error) = None ->
  exists msg,
    responseErrorHandler error st
    = act (Reject (ax_config error) (ax_error error)) (act (Toast msg) st).
Proof.
  intros Hnone. unfold responseErrorHandler. rewrite Hnone.
  destruct (String.eqb (ax_code error) "ECONNABORTED");
    [| destruct (String.eqb (ax_code error) "ERR_NETWORK")];
    eexists; reflexivity.
Qed.

Lemma timeout_is_only_notified :
  trace (responseErrorHandler
           (mkAxiosError 1 "ECONNABORTED" (newError "timeout of 60000ms exceeded")) signedIn)
  = [Toast "Request timeout. Please check your internet connection and try again.";
     Reject 1 (newError "timeout of 60000ms exceeded")].
Proof.
  destruct (network_failure_is_only_notified signedIn
              (mkAxiosError 1 "ECONNABORTED" (newError "timeout of 60000ms exceeded"))
              eq_refl) as (msg & Hrun).
  rewrite Hrun. vm_compute in Hrun. injection Hrun as Hmsg.
  rewrite <- Hmsg. reflexivity.
Defined.



(* ===================================================================== *)
(** * The gateways: local checks and the requests sent                    *)
(* ===================================================================== *)

Import OperationSpec.

Section Running.

Lemma require_refused (cond : JsVal) msg w :
  truthy cond = false -> require cond msg w = (inl (newError msg), w).
Proof. intros H. unfold require. now rewrite H. Qed.

Lemma require_passed (cond : JsVal) msg w :
  truthy cond = true -> require cond msg w = (inr tt, w).
Proof. intros H. unfold require. now rewrite H. Qed.

Lemma lookupField_setField k k' v fs :
  lookupField k (setField k' v fs)
  = if String.eqb k k' then Some v else lookupField k fs.
Proof.
  induction fs as [| [k0 v0] fs IH]; cbn.
  - reflexivity.
  - destruct (String.eqb k' k0) eqn:E0; cbn.
    + apply String.eqb_eq in E0. subst k0. now destruct (String.eqb k k').
    + rewrite IH. destruct (String.eqb k k0) eqn:E1; [| reflexivity].
      apply String.eqb_eq in E1. subst k0.
      rewrite String.eqb_sym in E0. now rewrite E0.
Qed.

End Running.

(** X6. An operation that takes the id of a record and is given none (a
    falsy id) sends no request and answers a failure: the three updates with
    the text that the id is required, the readers, the removers and the
    duplication with their general failure text. *)
Theorem missing_id_sends_no_request
    (backend : World -> HttpRequest -> JsError + JsVal) (today : string)
    (parseFloat : JsVal -> JsVal) (id other : JsVal) (w : World)
    (op : Operation) (msg : string) :
  truthy id = false ->
  In (op, msg) (operationsById id other) ->
  exists fields,
    perform backend today parseFloat op w = (inr (JObj fields), w) /\
    lookupField "success" fields = Some (JBool false) /\
    lookupField "message" fields = Some (JStr msg).
Proof.
  intros Hid Hin. unfold operationsById in Hin. cbn [In] in Hin.
  repeat (destruct Hin as [[= <- <-] | Hin]); [.. | destruct Hin];
    cbn [perform];
    unfold Attendance.getAttendanceById, Attendance.updateAttendance,
      Attendance.deleteAttendance, Events.getEventById, Events.updateEvent,
      Events.deleteEvent, Events.updateEventAttendance, Events.duplicateEvent;
    rewrite (tryCatch_thrown _ _ _ _ _
               (bind_thrown _ _ _ _ _ (require_refused id _ w Hid)));
    eexists; (split; [reflexivity |]); split; reflexivity.
Qed.

Lemma update_without_id :
  truthy (JStr "") = false /\
  In (UpdateEvent (JStr "") (JObj [("title", JStr "Easter")]), "Event ID is required")
    (operationsById (JStr "") (JObj [("title", JStr "Easter")])) /\
  Events.updateEvent accepting (fun v => v) (JStr "") (JObj [("title", JStr "Easter")]) []
  = (inr (JObj [("success", JBool false); ("message", JStr "Event ID is required");
                ("errors", JUndefined)]), []).
Proof.
  assert (Hid : truthy (JStr "") = false) by reflexivity.
  assert (Hin : In (UpdateEvent (JStr "") (JObj [("title", JStr "Easter")]),
                    "Event ID is required")
                  (operationsById (JStr "") (JObj [("title", JStr "Easter")])))
    by (cbn; tauto).
  split; [exact Hid |]. split; [exact Hin |].
  destruct (missing_id_sends_no_request accepting "2025-03-02" (fun v => v) (JStr "")
              (JObj [("title", JStr "Easter")]) [] _ _ Hid Hin) as (fields & Hrun & _).
  cbn [perform] in Hrun. rewrite Hrun. vm_compute in Hrun.
  injection Hrun as Hfields. now rewrite <- Hfields.
Defined.

Section AttendanceChecks.

Variable backend : World -> HttpRequest -> JsError + JsVal.

Lemma attendancePayload_refused fields w :
  accepted (JObj fields) = false ->
  Attendance.attendancePayload (JObj fields) w
  = (inl (newError (validationMessage (JObj fields))), w).
Proof.
  unfold accepted, Attendance.attendancePayload, validationMessage, get, lift, bind,
    require, optProp. cbn [prop].
  destruct (truthy (default JUndefined (lookupField "date" fields)));
    cbn [negb andb]; [| reflexivity].
  destruct (truthy (default JUndefined (lookupField "serviceType" fields)));
    cbn [negb andb]; [| reflexivity].
  unfold ret at 1 2. intros H.
  destruct (strictEq (default JUndefined (lookupField "totalAttendance" fields)) JUndefined);
    cbn [negb andb orb] in *; [reflexivity |].
  destruct (ltNum (default JUndefined (lookupField "totalAttendance" fields)) 0);
    [reflexivity | discriminate H].
Qed.

Lemma parsed_or_zero sign digits : isNumber (jsOr (parsed sign digits) (JNum 0)) = true.
Proof.
  destruct digits as [n |]; [| reflexivity]. unfold parsed, jsOr.
  destruct (nearest (sign * n) 1) as [m e | negative]; [| reflexivity].
  cbn [numberValue truthy]. now destruct (negb _).
Qed.

Lemma parseInt_or_zero v : isNumber (jsOr (parseInt v) (JNum 0)) = true.
Proof.
  unfold parseInt.
  destruct (readSign (trimStart (list_ascii_of_string (toString v)))) as [sign l1].
  destruct (hexPrefix l1) as [l2 |]; apply parsed_or_zero.
Qed.

Lemma attendancePayload_accepted fields w :
  accepted (JObj fields) = true ->
  exists body,
    Attendance.attendancePayload (JObj fields) w = (inr (JObj body), w) /\
    lookupField "date" body = Some (optProp (JObj fields) "date") /\
    lookupField "serviceType" body = Some (optProp (JObj fields) "serviceType") /\
    lookupField "totalAttendance" body
      = Some (parseInt (optProp (JObj fields) "totalAttendance")) /\
    (forall k, In k ["adults"; "youth"; "children"; "visitors"] ->
               exists v, lookupField k body = Some v /\ isNumber v = true) /\
    lookupField "notes" body = Some (jsOr (optProp (JObj fields) "notes") (JStr "")) /\
    lookupField "members" body = Some (jsOr (optProp (JObj fields) "members") (JArr [])).
Proof.
  unfold accepted, Attendance.attendancePayload, get, lift, bind, require, optProp.
  cbn [prop].
  destruct (truthy (default JUndefined (lookupField "date" fields)));
    cbn [negb andb]; [| discriminate].
  destruct (truthy (default JUndefined (lookupField "serviceType" fields)));
    cbn [negb andb]; [| discriminate].
  unfold ret at 1 2.
  destruct (strictEq (default JUndefined (lookupField "totalAttendance" fields)) JUndefined);
    cbn [negb andb orb]; [discriminate |].
  destruct (ltNum (default JUndefined (lookupField "totalAttendance" fields)) 0);
    cbn [negb]; [discriminate |].
  intros _. eexists. split; [reflexivity |].
  repeat (split; [reflexivity |]). split; [| split; reflexivity].
  intros k Hk. cbn [In] in Hk.
  repeat (destruct Hk as [<- | Hk]; [eexists; split; [reflexivity | apply parseInt_or_zero] |]).
  destruct Hk.
Qed.

End AttendanceChecks.

(** X7. [getAttendanceStats] asks the backend only for the periods week,
    month and year, month being the default; for any other period it sends
    nothing and answers a failure that carries zeroed statistics. *)
Theorem statistics_period_is_checked_first
    (backend : World -> HttpRequest -> JsError + JsVal) (period : JsVal) (w : World) :
  let asked := defaultArg period (JStr "month") in
  (In asked [JStr "week"; JStr "month"; JStr "year"] ->
   snd (Attendance.getAttendanceStats backend period w)
   = (w ++ [Http (mkRequest "get" ("/attendance/stats?period=" ++ toString asked)
                    JUndefined JUndefined)])%list) /\
  (~ In asked [JStr "week"; JStr "month"; JStr "year"] ->
   Attendance.getAttendanceStats backend period w
   = (inr (JObj [("success", JBool false);
                 ("message", JStr "Period must be one of: week, month, year");
                 ("data", noStatistics)]), w)).
Proof.
  intros asked. unfold Attendance.getAttendanceStats. fold asked.
  assert (Hmem : existsb (strictEq asked) Attendance.validPeriods = true
                 <-> In asked [JStr "week"; JStr "month"; JStr "year"]).
  { rewrite existsb_exists. unfold Attendance.validPeriods. split.
    - intros (x & Hx & Heq).
      destruct asked; cbn [In] in Hx;
        repeat (destruct Hx as [<- | Hx]; [try discriminate Heq |]); try destruct Hx;
        apply String.eqb_eq in Heq; subst; cbn; tauto.
    - intros H. exists asked. split; [exact H |].
      cbn [In] in H. repeat (destruct H as [<- | H]; [reflexivity |]). destruct H. }
  split.
  - intros Hin. apply Hmem in Hin. rewrite Hin. cbn [negb].
    unfold tryCatch, bind, apiGet, apiCall.
    destruct (backend w _) as [e | body]; [reflexivity |].
    unfold get, lift. cbn. destruct (prop body "data"); cbn; [reflexivity |].
    destruct (prop body "message"); reflexivity.
  - intros Hout.
    destruct (existsb (strictEq asked) Attendance.validPeriods) eqn:E.
    + destruct Hout. now apply Hmem.
    + reflexivity.
Qed.

Lemma a_decade_is_not_a_period :
  Attendance.getAttendanceStats accepting (JStr "decade") []
  = (inr (JObj [("success", JBool false);
                ("message", JStr "Period must be one of: week, month, year");
                ("data", noStatistics)]), []) /\
  snd (Attendance.getAttendanceStats accepting JUndefined [])
  = [Http (mkRequest "get" "/attendance/stats?period=month" JUndefined JUndefined)].
Proof.
  split.
  - apply (proj2 (statistics_period_is_checked_first accepting (JStr "decade") [])).
    cbn. intuition discriminate.
  - apply (proj1 (statistics_period_is_checked_first accepting JUndefined [])).
    cbn. tauto.
Defined.

(** X8. With an id, [updateAttendance] applies the three checks of
    [createAttendance] to the record before it sends anything. A record that
    fails one is answered with the message of the first failing check and
    nothing is sent. A record that passes them is sent as it would be
    created: [createAttendance] posts and [updateAttendance] puts the same
    body, in which the total is read with [parseInt], the four optional
    counts are numbers, never NaN or text (0 when absent or unreadable), the
    notes default to the empty string and the members to the empty list. *)
Theorem attendance_records_are_checked_then_sent
    (backend : World -> HttpRequest -> JsError + JsVal)
    (id : JsVal) (fields : list (string * JsVal)) (w : World) :
  truthy id = true ->
  if accepted (JObj fields) then
    exists body,
      snd (Attendance.createAttendance backend (JObj fields) w)
      = (w ++ [Http (mkRequest "post" "/attendance" (JObj body) JUndefined)])%list /\
      snd (Attendance.updateAttendance backend id (JObj fields) w)
      = (w ++ [Http (mkRequest "put" ("/attendance/" ++ toString id) (JObj body)
                       JUndefined)])%list /\
      lookupField "totalAttendance" body
        = Some (parseInt (optProp (JObj fields) "totalAttendance")) /\
      (forall k, In k ["adults"; "youth"; "children"; "visitors"] ->
                 exists v, lookupField k body = Some v /\ isNumber v = true) /\
      lookupField "notes" body = Some (jsOr (optProp (JObj fields) "notes") (JStr "")) /\
      lookupField "members" body = Some (jsOr (optProp (JObj fields) "members") (JArr []))
  else
    Attendance.updateAttendance backend id (JObj fields) w
    = (inr (JObj [("success", JBool false);
                  ("message", JStr (validationMessage (JObj fields)));
                  ("errors", JUndefined)]), w).
Proof.
  intros Hid. unfold Attendance.updateAttendance, Attendance.createAttendance.
  destruct (accepted (JObj fields)) eqn:Hacc.
  - destruct (attendancePayload_accepted fields w Hacc)
      as (body & Hrun & _ & _ & Htotal & Hcounts & Hnotes & Hmembers).
    exists body. split; [| split; [| now repeat split]].
    + unfold tryCatch. rewrite (bind_returned _ _ _ _ _ Hrun).
      unfold bind, apiPost, apiCall.
      destruct (backend w _) as [e | answer]; [reflexivity |].
      unfold get, lift. cbn. destruct (prop answer "data"); cbn; [reflexivity |].
      destruct (prop answer "message"); reflexivity.
    + unfold tryCatch.
      rewrite (bind_returned _ _ _ _ _ (require_passed id _ w Hid)).
      rewrite (bind_returned _ _ _ _ _ Hrun).
      unfold bind, apiPut, apiCall.
      destruct (backend w _) as [e | answer]; [reflexivity |].
      unfold get, lift. cbn. destruct (prop answer "data"); cbn; [reflexivity |].
      destruct (prop answer "message"); reflexivity.
  - rewrite (tryCatch_thrown _ _ _ _ (w)
               (eq_trans (bind_returned _ _ _ _ _ (require_passed id _ w Hid))
                  (bind_thrown _ _ _ _ _ (attendancePayload_refused fields w Hacc)))).
    unfold ret, validationMessage.
    destruct (negb (truthy (optProp (JObj fields) "date"))); [reflexivity |].
    destruct (negb (truthy (optProp (JObj fields) "serviceType"))); reflexivity.
Qed.

Lemma counts_are_read_as_integers :
  truthy (JNum 7) = true /\
  snd (Attendance.updateAttendance accepting (JNum 7)
         (JObj [("date", JStr "2025-03-02"); ("serviceType", JStr "Sunday School");
                ("totalAttendance", JStr "40"); ("adults", JStr "12 men");
                ("youth", JStr "many")]) [])
  = [Http (mkRequest "put" "/attendance/7"
             (JObj [("date", JStr "2025-03-02"); ("serviceType", JStr "Sunday School");
                    ("totalAttendance", JNum 40); ("adults", JNum 12); ("youth", JNum 0);
                    ("children", JNum 0); ("visitors", JNum 0); ("notes", JStr "");
                    ("members", JArr [])])
             JUndefined)].
Proof.
  split; [reflexivity |].
  pose proof (attendance_records_are_checked_then_sent accepting (JNum 7)
                [("date", JStr "2025-03-02"); ("serviceType", JStr "Sunday School");
                 ("totalAttendance", JStr "40"); ("adults", JStr "12 men");
                 ("youth", JStr "many")] [] eq_refl) as H.
  change (accepted _) with true in H.
  destruct H as (body & _ & Hput & _). rewrite Hput. vm_compute in Hput.
  injection Hput as Hbody. now rewrite <- Hbody.
Defined.

Section TrimTwice.

Lemma stripPrefix_app p l l' : stripPrefix p l = Some l' -> l = (p ++ l')%list.
Proof.
  revert l. induction p as [| a p IH]; intros l; cbn.
  - now intros [= ->].
  - destruct l as [| b l]; [discriminate |].
    destruct (Ascii.eqb a b) eqn:E; [| discriminate].
    apply Ascii.eqb_eq in E. subst b. intros H. now rewrite (IH _ H).
Qed.

Lemma stripPrefix_of_app p l : stripPrefix p (p ++ l)%list = Some l.
Proof.
  induction p as [| a p IH]; cbn; [reflexivity |]. now rewrite Ascii.eqb_refl.
Qed.

Lemma firstStrip_some ps l l' :
  firstStrip ps l = Some l' -> exists p, In p ps /\ l = (p ++ l')%list.
Proof.
  induction ps as [| p ps IH]; cbn; [discriminate |].
  destruct (stripPrefix p l) as [l0 |] eqn:E.
  - intros [= <-]. exists p. split; [now left | now apply stripPrefix_app].
  - intros H. destruct (IH H) as (q & Hq & ->). exists q. split; [now right | reflexivity].
Qed.

Lemma firstStrip_none ps l p c :
  firstStrip ps (l ++ c)%list = None -> In p ps -> stripPrefix p l = None.
Proof.
  induction ps as [| q ps IH]; cbn; [intros _ [] |].
  destruct (stripPrefix q (l ++ c)%list) as [l0 |] eqn:E; [discriminate |].
  intros H [<- | Hin]; [| now apply IH].
  destruct (stripPrefix q l) as [l1 |] eqn:E1; [| reflexivity].
  apply stripPrefix_app in E1. subst l.
  rewrite <- app_assoc, stripPrefix_of_app in E. discriminate E.
Qed.

Lemma firstStrip_prefix ps l c :
  firstStrip ps (l ++ c)%list = None -> firstStrip ps l = None.
Proof.
  intros H. destruct (firstStrip ps l) as [l' |] eqn:E; [| reflexivity].
  destruct (firstStrip_some _ _ _ E) as (p & Hp & ->).
  pose proof (firstStrip_none ps (p ++ l')%list p c H Hp) as Hnone.
  now rewrite stripPrefix_of_app in Hnone.
Qed.

(** With enough fuel nothing strippable is left in front, and what was
    stripped is a prefix. *)
Lemma trimStartWith_done ps :
  (forall p, In p ps -> p <> []) ->
  forall fuel l,
    (List.length l <= fuel)%nat ->
    firstStrip ps (trimStartWith ps fuel l) = None /\
    exists front, l = (front ++ trimStartWith ps fuel l)%list.
Proof.
  intros Hne. induction fuel as [| fuel IH]; intros l Hlen.
  - destruct l; [| cbn in Hlen; lia]. cbn. split; [| now exists []].
    destruct (firstStrip ps []) as [l' |] eqn:E; [| reflexivity].
    destruct (firstStrip_some _ _ _ E) as (p & Hp & Heq).
    destruct p; [now destruct (Hne _ Hp) | discriminate Heq].
  - cbn. destruct (firstStrip ps l) as [l' |] eqn:E.
    + destruct (firstStrip_some _ _ _ E) as (p & Hp & ->).
      assert (Hp' : (1 <= List.length p)%nat).
      { destruct p; [now destruct (Hne _ Hp) | cbn; lia]. }
      rewrite length_app in Hlen.
      destruct (IH l' ltac:(lia)) as (Hnone & front & Hfront).
      split; [exact Hnone |]. exists (p ++ front)%list.
      now rewrite <- app_assoc, <- Hfront.
    + split; [exact E | now exists []].
Qed.

Lemma trimStartWith_fixed ps fuel l :
  firstStrip ps l = None -> trimStartWith ps fuel l = l.
Proof. intros H. destruct fuel; cbn; [reflexivity | now rewrite H]. Qed.

Lemma whitespace_not_nil p : In p whitespace -> p <> [].
Proof. intros H ->. pose proof (whitespace_nonempty [] H). cbn in *. lia. Qed.

Lemma reversed_whitespace_not_nil p : In p (map (@rev ascii) whitespace) -> p <> [].
Proof.
  intros H ->. apply in_map_iff in H. destruct H as (q & Hq & Hin).
  destruct q; [now apply (whitespace_not_nil [] Hin) |].
  cbn in Hq. now destruct (rev q).
Qed.

Lemma trim_twice s : trim (trim s) = trim s.
Proof.
  unfold trim. rewrite list_ascii_of_string_of_list_ascii.
  set (l := list_ascii_of_string s).
  destruct (trimStartWith_done whitespace whitespace_not_nil (List.length l) l (le_n _))
    as (Hstart & _).
  fold (trimStart l) in Hstart. set (a := trimStart l) in *.
  destruct (trimStartWith_done (map (@rev ascii) whitespace) reversed_whitespace_not_nil
              (List.length a) (rev a) ltac:(rewrite length_rev; lia))
    as (Hend & back & Hback).
  assert (Hb : trimEnd a = rev (trimStartWith (map (@rev ascii) whitespace)
                                  (List.length a) (rev a))) by reflexivity.
  set (r := trimStartWith (map (@rev ascii) whitespace) (List.length a) (rev a)) in *.
  assert (Ha : a = (rev r ++ rev back)%list).
  { rewrite <- rev_app_distr, <- Hback. now rewrite rev_involutive. }
  assert (Hfront : firstStrip whitespace (rev r) = None).
  { apply (firstStrip_prefix whitespace (rev r) (rev back)). now rewrite <- Ha. }
  rewrite Hb. f_equal.
  assert (Hs : trimStart (rev r) = rev r)
    by (unfold trimStart; now apply trimStartWith_fixed).
  rewrite Hs. unfold trimEnd. rewrite rev_involutive.
  now rewrite (trimStartWith_fixed _ _ _ Hend).
Qed.

End TrimTwice.

Section Searching.

Variable backend : World -> HttpRequest -> JsError + JsVal.

Lemma uncaught_listing (m : M JsVal) handler w :
  outcomes (envelope backend) never m -> tryCatch m handler w = m w.
Proof.
  intros H. specialize (H w). unfold tryCatch.
  destruct (m w) as [[e | v] w']; [destruct H | reflexivity].
Qed.

Lemma stringLength_nonempty s : s <> "" -> 0 < stringLength s.
Proof.
  destruct s as [| b s]; [contradiction |]. intros _.
  unfold stringLength, codeUnits. cbn [list_ascii_of_string sequences].
  assert (Hunits : forall g, (0 < List.length (unitsOf g))%nat).
  { intros g. unfold unitsOf. destruct g as [| ? [| ? [| ? [| ? [| ? ?]]]]]; cbn; lia. }
  destruct (sequences (list_ascii_of_string s)) as [| [| c g] gs];
    [| | destruct (continuation c)];
    cbn [map concat]; rewrite length_app;
    [pose proof (Hunits [b]) | pose proof (Hunits [b])
     | pose proof (Hunits (b :: c :: g)) | pose proof (Hunits [b])];
    lia.
Qed.

Lemma nonblank_test s w :
  trim s <> "" ->
  (if negb (truthy (JStr s)) then ret true
   else
     let* trimmed := callTrim (JStr s) in
     let* len := get trimmed "length" in
     ret (strictEq len (JNum 0))) w = (inr false, w).
Proof.
  intros Hs. assert (Hne : s <> "") by (intros ->; now apply Hs).
  cbn [truthy]. destruct (String.eqb_spec s ""); [contradiction |]. cbn [negb].
  unfold callTrim, bind, ret, get, lift. cbn.
  pose proof (stringLength_nonempty (trim s) Hs) as Hlen.
  destruct (Z.eqb_spec (stringLength (trim s)) 0) as [E | E]; [lia | reflexivity].
Qed.

Lemma blank_string_test s w :
  trim s = "" ->
  (if negb (truthy (JStr s)) then ret true
   else
     let* trimmed := callTrim (JStr s) in
     let* len := get trimmed "length" in
     ret (strictEq len (JNum 0))) w = (inr true, w).
Proof.
  intros Hs. destruct (negb (truthy (JStr s))); [reflexivity |].
  unfold callTrim, bind, ret, get, lift. cbn. now rewrite Hs.
Qed.

Lemma searchEvents_of_string s filters w :
  Events.searchEvents backend (JStr s) filters w
  = if String.eqb (trim s) "" then Events.getEvents backend filters w
    else Events.getEvents backend
           (JObj (setField "search" (JStr (trim s))
                    (spread (defaultArg filters (JObj []))))) w.
Proof.
  unfold Events.searchEvents. rewrite <- (getEvents_default backend filters).
  destruct (String.eqb_spec (trim s) "") as [Hs | Hs].
  - unfold tryCatch at 1. rewrite (bind_returned _ _ _ _ _ (blank_string_test s w Hs)).
    fold (tryCatch (Events.getEvents backend (defaultArg filters (JObj []))) 
            (fun error =>
               ret (JObj [("success", JBool false);
                          ("message", jsOr (errorMessage error)
                                        (JStr "Failed to search events"));
                          ("data", JArr [])])) w).
    apply uncaught_listing, getEvents_ok.
  - unfold tryCatch at 1. rewrite (bind_returned _ _ _ _ _ (nonblank_test s w Hs)).
    unfold callTrim. unfold bind at 1, ret at 1.
    match goal with
    | |- match ?m w with _ => _ end = _ =>
        change (tryCatch m
                  (fun error =>
                     ret (JObj [("success", JBool false);
                                ("message", jsOr (errorMessage error)
                                              (JStr "Failed to search events"));
                                ("data", JArr [])])) w = m w)
    end.
    apply uncaught_listing, getEvents_ok.
Qed.

End Searching.

(** X9. [searchEvents] looks for the trimmed term: white space around a
    term changes neither the result nor the request, a term of white space
    only being no term at all. For a term with text, the request is the one
    of [getEvents] on the filters with their [search] field set to the
    trimmed term. *)
Theorem searchEvents_trims_the_term
    (backend : World -> HttpRequest -> JsError + JsVal)
    (term : string) (filters : JsVal) (w : World) :
  Events.searchEvents backend (JStr term) filters w
  = Events.searchEvents backend (JStr (trim term)) filters w /\
  (trim term <> "" ->
   Events.searchEvents backend (JStr term) filters w
   = Events.getEvents backend
       (JObj (setField "search" (JStr (trim term)) (spread (defaultArg filters (JObj [])))))
       w).
Proof.
  rewrite !searchEvents_of_string, trim_twice. split; [reflexivity |].
  intros Hs. now destruct (String.eqb_spec (trim term) "").
Qed.

Lemma search_request_holds_the_trimmed_term :
  snd (Events.searchEvents accepting (JStr "  choir practice ")
         (JObj [("search", JStr "old"); ("page", JNum 2)]) [])
  = [Http (mkRequest "get" "/events?page=2&search=choir+practice" JUndefined JUndefined)].
Proof.
  rewrite (proj1 (searchEvents_trims_the_term accepting "  choir practice "
                    (JObj [("search", JStr "old"); ("page", JNum 2)]) [])).
  reflexivity.
Defined.

Section ServiceSearch.

Variable backend : World -> HttpRequest -> JsError + JsVal.

Lemma forwarded_after_own_value fs k key :
  forwarded (setField k (default JUndefined (lookupField k fs)) fs) key
  = forwarded fs key.
Proof.
  unfold forwarded. rewrite lookupField_setField.
  destruct (String.eqb_spec (fst key) k) as [-> | Hne]; reflexivity.
Qed.

Lemma queryOf_after_own_value keys fs k :
  queryOf keys (setField k (default JUndefined (lookupField k fs)) fs) = queryOf keys fs.
Proof.
  unfold queryOf. induction keys as [| key keys IH]; [reflexivity |].
  rewrite !omap_cons_list, IH. now rewrite forwarded_after_own_value.
Qed.

End ServiceSearch.

(** X10. [searchAttendance] uses a term with text only when the term
    contains the lower-case word [service], and then as the service type of
    the listing, untrimmed and in place of the service type of the filters.
    Any other term is dropped: the result and the request are those of
    [getAttendanceRecords] on the filters alone. *)
Theorem searchAttendance_reads_service_terms_only
    (backend : World -> HttpRequest -> JsError + JsVal)
    (term : string) (filters : list (string * JsVal)) (w : World) :
  trim term <> "" ->
  Attendance.searchAttendance backend (JStr term) (JObj filters) w
  = Attendance.getAttendanceRecords backend
      (JObj (if includes "service" term
             then setField "serviceType" (JStr term) filters
             else filters)) w.
Proof.
  intros Hterm. unfold Attendance.searchAttendance. cbn [defaultArg].
  unfold tryCatch at 1. rewrite (bind_returned _ _ _ _ _ (nonblank_test term w Hterm)).
  unfold callIncludes. unfold bind at 1, ret at 1.
  destruct (includes "service" term).
  - unfold bind at 1, ret at 1. cbn [spread].
    pose proof (getAttendanceRecords_ok backend
                  (JObj (setField "serviceType" (JStr term) filters)) w) as H.
    destruct (Attendance.getAttendanceRecords backend _ w) as [[e | v] w'];
      [destruct H | reflexivity].
  - unfold bind at 1, get, lift. cbn [prop spread].
    rewrite !getAttendanceRecords_object, queryOf_after_own_value.
    unfold tryCatch, bind, apiGet, apiCall.
    destruct (backend w _) as [e | body]; [reflexivity |].
    unfold get, lift. cbn. destruct (prop body "data"); cbn; [reflexivity |].
    destruct (prop body "pagination"); cbn; [reflexivity |].
    destruct (prop body "message"); reflexivity.
Qed.

Lemma capitalised_service_is_dropped :
  trim "Sunday Main Service" <> "" /\
  snd (Attendance.searchAttendance accepting (JStr "Sunday Main Service")
         (JObj [("page", JNum 1)]) [])
  = [Http (mkRequest "get" "/attendance?page=1" JUndefined JUndefined)] /\
  snd (Attendance.searchAttendance accepting (JStr "Midweek service")
         (JObj [("page", JNum 1); ("serviceType", JStr "Sunday School")]) [])
  = [Http (mkRequest "get" "/attendance?page=1&serviceType=Midweek+service" JUndefined
             JUndefined)].
Proof.
  assert (H1 : trim "Sunday Main Service" <> "") by discriminate.
  assert (H2 : trim "Midweek service" <> "") by discriminate.
  split; [exact H1 |]. split.
  - rewrite (searchAttendance_reads_service_terms_only accepting "Sunday Main Service"
               [("page", JNum 1)] [] H1).
    reflexivity.
  - rewrite (searchAttendance_reads_service_terms_only accepting "Midweek service"
               [("page", JNum 1); ("serviceType", JStr "Sunday School")] [] H2).
    reflexivity.
Defined.

(* ===================================================================== *)
(** * The gateways: what a request carries                                *)
(* ===================================================================== *)

Import RequestSpec.

Section QuietRules.

Context {A B : Type}.

Lemma quiet_ret (R : A -> Prop) (x : A) : R x -> quiet R (ret x).
Proof. intros H w. now split. Qed.

Lemma quiet_throw (R : A -> Prop) e : quiet R (throw e).
Proof. intros w. now split. Qed.

Lemma quiet_bind (R1 : A -> Prop) (R : B -> Prop) (m : M A) (k : A -> M B) :
  quiet R1 m -> (forall x, R1 x -> quiet R (k x)) -> quiet R (bind m k).
Proof.
  intros Hm Hk w. unfold bind. destruct (Hm w) as [Hw Hv].
  destruct (m w) as [[e | x] w']; cbn in *; subst w'.
  - now split.
  - apply Hk, Hv.
Qed.

Lemma quiet_weaken (R R' : A -> Prop) (m : M A) :
  quiet R m -> (forall x, R x -> R' x) -> quiet R' m.
Proof.
  intros H HR w. destruct (H w) as [Hw Hv]. split; [exact Hw |].
  destruct (fst (m w)); auto.
Qed.

Lemma atMostOne_quiet (P : HttpRequest -> Prop) (R : A -> Prop) (m : M A) :
  quiet R m -> atMostOne P m.
Proof. intros H w. left. apply H. Qed.

Lemma atMostOne_after (P : HttpRequest -> Prop) (R1 : A -> Prop) (m : M A)
    (k : A -> M B) :
  quiet R1 m -> (forall x, R1 x -> atMostOne P (k x)) -> atMostOne P (bind m k).
Proof.
  intros Hm Hk w. unfold bind. destruct (Hm w) as [Hw Hv].
  destruct (m w) as [[e | x] w']; cbn in *; subst w'.
  - now left.
  - apply Hk, Hv.
Qed.

Lemma atMostOne_tryCatch (P : HttpRequest -> Prop) (body : M A) handler :
  atMostOne P body -> (forall e, quiet anything (handler e)) ->
  atMostOne P (tryCatch body handler).
Proof.
  intros Hb Hh w. unfold tryCatch. specialize (Hb w).
  destruct (body w) as [[e | x] w']; cbn in *; [| exact Hb].
  destruct (Hh e w') as [Hw _]. rewrite Hw. exact Hb.
Qed.

End QuietRules.

Section QuietSteps.

Variable backend : World -> HttpRequest -> JsError + JsVal.

Lemma quiet_get d k : quiet (fun v => v = optProp d k) (get d k).
Proof.
  intros w. split; [reflexivity |]. unfold get, lift, optProp. cbn.
  now destruct (prop d k).
Qed.

Lemma quiet_require c msg : quiet (fun _ => truthy c = true) (require c msg).
Proof.
  intros w. unfold require. destruct (truthy c); now split.
Qed.

Lemma quiet_callTrim v : quiet (fun t => exists s, v = JStr s /\ t = JStr (trim s)) (callTrim v).
Proof.
  intros w. destruct v; cbn; split; try reflexivity; try exact I. now exists s.
Qed.

Lemma quiet_optTrim v :
  quiet (fun t => t = JUndefined \/ exists s, v = JStr s /\ t = JStr (trim s)) (optTrim v).
Proof.
  intros w. destruct v; cbn; split; try reflexivity; try exact I; try (now left).
  right. now exists s.
Qed.

Lemma quiet_requireTrimmed d k msg :
  quiet trimmedText (Events.requireTrimmed d k msg).
Proof.
  unfold Events.requireTrimmed.
  eapply quiet_bind; [apply quiet_get | intros v _].
  eapply quiet_bind; [apply quiet_optTrim | intros t Ht].
  eapply quiet_bind; [apply quiet_require | intros ? Htruthy; cbn beta in Htruthy].
  apply quiet_ret. destruct Ht as [Ht | (s & _ & Ht)]; subst t; [discriminate Htruthy |].
  exists (trim s). split; [reflexivity |]. split.
  - now apply truthy_JStr.
  - apply trim_twice.
Qed.

(** A call followed by the unpacking of its answer. *)
Lemma atMostOne_call {A} (P : HttpRequest -> Prop) r (k : JsVal -> M A) :
  P r -> (forall body, quiet anything (k body)) ->
  atMostOne P (bind (apiCall backend r) k).
Proof.
  intros HP Hk w. right. exists r. split; [| exact HP].
  unfold bind, apiCall. destruct (backend w r) as [e | body]; [reflexivity |].
  apply Hk.
Qed.

Lemma quiet_unpack (body : JsVal) (k : JsVal -> JsVal -> JsVal) :
  quiet anything
    (let* data := get body "data" in
     let* message := get body "message" in
     ret (k data message)).
Proof.
  eapply quiet_bind; [apply quiet_get | intros data _].
  eapply quiet_bind; [apply quiet_get | intros message _].
  now apply quiet_ret.
Qed.

End QuietSteps.

Section CompleteEvent.

Variable backend : World -> HttpRequest -> JsError + JsVal.
Variable parseFloat : JsVal -> JsVal.

Lemma createEvent_atMostOne eventData :
  atMostOne (eventCreation parseFloat eventData)
    (Events.createEvent backend parseFloat eventData).
Proof.
  unfold Events.createEvent.
  apply atMostOne_tryCatch; [| intros e; now apply quiet_ret].
  eapply atMostOne_after; [apply quiet_requireTrimmed | intros title Htitle].
  eapply atMostOne_after; [apply quiet_requireTrimmed | intros description Hdescription].
  eapply atMostOne_after; [apply quiet_get | intros date ->].
  eapply atMostOne_after; [apply quiet_require | intros ? Hdate; cbn beta in Hdate].
  eapply atMostOne_after; [apply quiet_get | intros time ->].
  eapply atMostOne_after; [apply quiet_require | intros ? Htime; cbn beta in Htime].
  eapply atMostOne_after; [apply quiet_requireTrimmed | intros location Hlocation].
  eapply atMostOne_after; [apply quiet_get | intros category ->].
  eapply atMostOne_after; [apply quiet_require | intros ? Hcategory; cbn beta in Hcategory].
  do 9 (eapply atMostOne_after; [apply quiet_get | intros ? ->]).
  unfold apiPost. apply (atMostOne_call backend); [| intros body; apply quiet_unpack].
  split; [reflexivity |]. split; [reflexivity |]. eexists. split; [reflexivity |].
  repeat split.
  - intros k Hk. cbn [In] in Hk.
    repeat (destruct Hk as [<- | Hk]; [eexists; split; [reflexivity | assumption] |]).
    destruct Hk.
  - cbn [In] in H. repeat (destruct H as [<- | H]; [reflexivity |]). destruct H.
  - cbn [In] in H. repeat (destruct H as [<- | H]; [assumption |]). destruct H.
  - intros k Hk. cbn [In] in Hk.
    repeat (destruct Hk as [<- | Hk]; [reflexivity |]). destruct Hk.
  - intros k Hk. cbn [In] in Hk.
    repeat (destruct Hk as [<- | Hk]; [reflexivity |]). destruct Hk.
  - cbn. now destruct (optProp eventData "tags").
Qed.

End CompleteEvent.

(** X11. [createEvent] sends nothing or one request. A request it sends is
    a POST to [/events] whose title, description and location are texts that
    are not empty and have no white space around them, whose date, time and
    category are the truthy values given, whose two flags are booleans, whose
    tags are an array (empty unless an array was given) and whose optional
    fields are null when absent or falsy. *)
Theorem createEvent_posts_a_complete_event
    (backend : World -> HttpRequest -> JsError + JsVal) (parseFloat : JsVal -> JsVal)
    (eventData : JsVal) (w : World) :
  let w' := snd (Events.createEvent backend parseFloat eventData w) in
  w' = w \/
  exists r, w' = (w ++ [Http r])%list /\ eventCreation parseFloat eventData r.
Proof. cbv zeta. apply createEvent_atMostOne. Qed.

Section PartialUpdate.

Variable backend : World -> HttpRequest -> JsError + JsVal.

(** The fields written so far are those of [done] that [eventData] defines. *)
Let written (eventData : JsVal) (done : list string) (u : list (string * JsVal)) : Prop :=
  forall k, is_Some (lookupField k u) <-> In k done /\ optProp eventData k <> JUndefined.

Lemma strictEq_undefined v : strictEq v JUndefined = true <-> v = JUndefined.
Proof. destruct v; cbn; split; congruence. Qed.

Lemma quiet_anything {A} (R : A -> Prop) (m : M A) : quiet R m -> quiet anything m.
Proof. intros H. eapply quiet_weaken; [exact H | now intros]. Qed.

Lemma quiet_requireNonEmptyIfGiven d k msg :
  quiet anything (Events.requireNonEmptyIfGiven d k msg).
Proof.
  unfold Events.requireNonEmptyIfGiven.
  eapply quiet_bind; [apply quiet_get | intros v _].
  destruct (negb (strictEq v JUndefined)); [| now apply quiet_ret].
  eapply quiet_bind; [apply quiet_optTrim | intros t _].
  eapply quiet_anything, quiet_require.
Qed.

Lemma quiet_spreadIfGiven d key f done acc :
  (forall v, quiet anything (f v)) ->
  written d done acc ->
  quiet (written d (done ++ [key])) (Events.spreadIfGiven d key f acc).
Proof.
  intros Hf Hacc. unfold Events.spreadIfGiven.
  eapply quiet_bind; [apply quiet_get | intros v ->].
  destruct (strictEq (optProp d key) JUndefined) eqn:E; cbn [negb].
  - apply strictEq_undefined in E. apply quiet_ret. intros k.
    rewrite (Hacc k), in_app_iff. cbn [In]. split.
    + intros [Hin Hdef]. now split; [left |].
    + intros [[Hin | [<- | []]] Hdef]; [now split | contradiction].
  - assert (Hdef : optProp d key <> JUndefined).
    { intros H. apply strictEq_undefined in H. congruence. }
    eapply quiet_bind; [apply Hf | intros x _].
    apply quiet_ret. intros k. rewrite lookupField_setField, in_app_iff. cbn [In].
    destruct (String.eqb_spec k key) as [-> | Hne].
    + split; [intros _; split; [right; now left | exact Hdef] | intros _; now eexists].
    + rewrite (Hacc k). split.
      * intros [Hin Hk]. now split; [left |].
      * intros [[Hin | [<- | []]] Hk]; [now split | contradiction].
Qed.

Lemma written_nothing d : written d [] [].
Proof.
  intros k. cbn. split; [intros [x Hx]; discriminate Hx | intros [[] _]].
Qed.

Lemma updateEvent_atMostOne parseFloat id eventData :
  atMostOne (eventUpdate id eventData) (Events.updateEvent backend parseFloat id eventData).
Proof.
  assert (Hret : forall g : JsVal -> JsVal, forall v, quiet anything (ret (g v)))
    by (intros; now apply quiet_ret).
  assert (Hid : forall v : JsVal, quiet anything (ret v)) by (intros; now apply quiet_ret).
  assert (Htrim : forall v, quiet anything (callTrim v))
    by (intros; eapply quiet_anything, quiet_callTrim).
  unfold Events.updateEvent.
  apply atMostOne_tryCatch; [| intros e; now apply quiet_ret].
  eapply atMostOne_after; [apply quiet_require | intros ? _].
  do 3 (eapply atMostOne_after; [apply quiet_requireNonEmptyIfGiven | intros ? _]).
  eapply atMostOne_after;
    [apply (quiet_spreadIfGiven eventData "title" callTrim [] [] Htrim (written_nothing _))
    | intros u Hu].
  repeat (eapply atMostOne_after;
          [ eapply quiet_spreadIfGiven;
            [ first [ exact Htrim | exact Hid | intros v; now apply quiet_ret ]
            | exact Hu ]
          | clear u Hu; intros u Hu ]).
  unfold apiPut. apply atMostOne_call; [| intros body; apply quiet_unpack].
  split; [reflexivity |]. split; [reflexivity |]. exists u. split; [reflexivity |].
  exact Hu.
Qed.

End PartialUpdate.

(** X12. [updateEvent] sends nothing or one request. A request it sends is
    a PUT to the event's address whose body has a field exactly for each of
    the sixteen updatable fields that the given data defines: a field that
    was not given is not sent, and a field outside the sixteen is dropped. *)
Theorem updateEvent_puts_the_given_fields
    (backend : World -> HttpRequest -> JsError + JsVal) (parseFloat : JsVal -> JsVal)
    (id eventData : JsVal) (w : World) :
  let w' := snd (Events.updateEvent backend parseFloat id eventData w) in
  w' = w \/
  exists r, w' = (w ++ [Http r])%list /\ eventUpdate id eventData r.
Proof. cbv zeta. apply updateEvent_atMostOne. Qed.

Lemma status_change_sends_the_status_only :
  snd (Events.updateEvent accepting (fun v => v) (JNum 3)
         (JObj [("status", JStr "cancelled"); ("colour", JStr "red")]) [])
  = [Http (mkRequest "put" "/events/3" (JObj [("status", JStr "cancelled")]) JUndefined)].
Proof.
  destruct (updateEvent_puts_the_given_fields accepting (fun v => v) (JNum 3)
              (JObj [("status", JStr "cancelled"); ("colour", JStr "red")]) [])
    as [Hnone | (r & Hsent & _)].
  - discriminate Hnone.
  - rewrite Hsent. vm_compute in Hsent. injection Hsent as Hr. now rewrite <- Hr.
Defined.

Lemma blank_title_is_never_posted :
  snd (Events.createEvent accepting (fun v => v)
         (JObj [("title", JStr "   "); ("description", JStr "Annual thanksgiving")]) [])
  = [].
Proof.
  destruct (createEvent_posts_a_complete_event accepting (fun v => v)
              (JObj [("title", JStr "   "); ("description", JStr "Annual thanksgiving")]) [])
    as [Hnone | (r & Hsent & _)].
  - exact Hnone.
  - discriminate Hsent.
Defined.

(** X13. With an id, [updateEventAttendance] refuses a count below zero
    without sending anything, and sends every other count, read with
    [parseInt], in one PATCH to the attendance address of the event. A count
    that is missing or is not a number is not below zero: it is sent, as
    NaN. *)
Theorem updateEventAttendance_refuses_negative_counts
    (backend : World -> HttpRequest -> JsError + JsVal)
    (id attendanceCount : JsVal) (w : World) :
  truthy id = true ->
  if ltNum attendanceCount 0 then
    Events.updateEventAttendance backend id attendanceCount w
    = (inr (JObj [("success", JBool false);
                  ("message", JStr "Attendance count cannot be negative")]), w)
  else
    snd (Events.updateEventAttendance backend id attendanceCount w)
    = (w ++ [Http (mkRequest "patch" ("/events/" ++ toString id ++ "/attendance")
                     (JObj [("attendanceCount", parseInt attendanceCount)])
                     JUndefined)])%list.
Proof.
  intros Hid. unfold Events.updateEventAttendance, tryCatch.
  rewrite (bind_returned _ _ _ _ _ (require_passed id _ w Hid)).
  destruct (ltNum attendanceCount 0); [reflexivity |].
  unfold bind, apiPatch, apiCall.
  destruct (backend w _) as [e | body]; [reflexivity |].
  unfold get, lift. cbn. destruct (prop body "data"); cbn; [reflexivity |].
  destruct (prop body "message"); reflexivity.
Qed.

Lemma missing_count_is_sent_as_NaN :
  truthy (JNum 3) = true /\
  Events.updateEventAttendance accepting (JNum 3) (JStr "-0.5") []
  = (inr (JObj [("success", JBool false);
                ("message", JStr "Attendance count cannot be negative")]), []) /\
  snd (Events.updateEventAttendance accepting (JNum 3) JUndefined [])
  = [Http (mkRequest "patch" "/events/3/attendance" (JObj [("attendanceCount", JNaN)])
             JUndefined)].
Proof.
  split; [reflexivity |]. split.
  - exact (updateEventAttendance_refuses_negative_counts accepting (JNum 3) (JStr "-0.5") []
             eq_refl).
  - exact (updateEventAttendance_refuses_negative_counts accepting (JNum 3) JUndefined []
             eq_refl).
Defined.

(* ===================================================================== *)
(** * Bulk creation and the composite operations                          *)
(* ===================================================================== *)

Import CompositeSpec.

Section BulkEvents.

Variable backend : World -> HttpRequest -> JsError + JsVal.

Lemma mapM_settledEach (create : JsVal -> M JsVal) records w :
  (forall record, outcomes (envelope backend) never (create record)) ->
  exists results w',
    mapM (fun record => settled (create record)) records w = (inr results, w') /\
    settledEach create w records results w' /\
    Forall settledEnvelope results.
Proof.
  intros Hcreate. revert w. induction records as [| record records IH]; intros w; simpl.
  - exists [], w. repeat split; constructor.
  - destruct (outcomes_total _ _ (Hcreate record) w)
      as (v & w1 & Hrun & fs & b & msg & -> & Hs & _).
    destruct (IH w1) as (results & w2 & Hmap & Heach & Hall).
    exists (fulfilled (JObj fs) :: results), w2.
    rewrite (bind_returned _ _ _ _ _ (settled_returned _ _ _ _ Hrun)).
    rewrite (bind_returned _ _ _ _ _ Hmap).
    split; [reflexivity |]. split.
    + econstructor; eassumption.
    + constructor; [now exists fs, b | exact Hall].
Qed.

Lemma settledEach_length (create : JsVal -> M JsVal) w records results w' :
  settledEach create w records results w' -> List.length results = List.length records.
Proof. induction 1; simpl; congruence. Qed.

Lemma guard_passed record records w :
  notAnArrayOrEmpty (JArr (record :: records)) w = (inr false, w).
Proof.
  unfold notAnArrayOrEmpty, get, lift, bind, ret. cbn.
  now destruct (List.length records).
Qed.

Lemma guard_refused v w : noRecords v -> notAnArrayOrEmpty v w = (inr true, w).
Proof.
  intros [H | ->]; unfold notAnArrayOrEmpty.
  - now rewrite H.
  - reflexivity.
Qed.

End BulkEvents.

(** X14. For every array of at least one event, [bulkCreateEvents] runs one
    [createEvent] per event, in order and each on its own: every outcome is
    kept in [results], the numbers of successful and of failed creates add up
    to [total], the length of the input, and [success] is true exactly when
    no create failed. *)
Theorem bulkCreateEvents_reports_counts
    (backend : World -> HttpRequest -> JsError + JsVal) (parseFloat : JsVal -> JsVal)
    (first : JsVal) (others : list JsVal) (w : World) :
  let eventsData := first :: others in
  exists results w',
    settledEach (Events.createEvent backend parseFloat) w eventsData results w' /\
    Events.bulkCreateEvents backend parseFloat (JArr eventsData) w =
      (inr (JObj [("success", JBool (countOf (fun r => negb (succeeded r)) results =? 0));
                  ("data", JObj [("successful", JNum (countOf succeeded results));
                                 ("failed", JNum (countOf (fun r => negb (succeeded r)) results));
                                 ("total", JNum (Z.of_nat (List.length eventsData)));
                                 ("results", JArr results)]);
                  ("message",
                   JStr ("Bulk create completed: "
                         ++ pretty (countOf succeeded results) ++ " successful, "
                         ++ pretty (countOf (fun r => negb (succeeded r)) results)
                         ++ " failed"))]), w') /\
    countOf succeeded results + countOf (fun r => negb (succeeded r)) results
      = Z.of_nat (List.length eventsData).
Proof.
  intros eventsData.
  destruct (mapM_settledEach backend (Events.createEvent backend parseFloat) eventsData w
              (createEvent_ok backend parseFloat))
    as (results & w' & Hmap & Heach & Hall).
  exists results, w'. split; [exact Heach |]. split.
  - unfold Events.bulkCreateEvents. apply tryCatch_returned.
    rewrite (bind_returned _ _ _ _ _ (guard_passed first others w)).
    cbn [arrayElements]. fold eventsData.
    rewrite (bind_returned _ _ _ _ _ Hmap).
    rewrite (bind_returned _ _ _ _ _
               (filterM_pure fulfilledOk succeeded results w' Hall
                  (fun r0 w0 H => fulfilledOk_settled r0 w0 H))).
    rewrite (bind_returned _ _ _ _ _
               (filterM_pure rejectedOrFailed (fun r0 => negb (succeeded r0)) results w' Hall
                  (fun r0 w0 H => rejectedOrFailed_settled r0 w0 H))).
    reflexivity.
  - unfold countOf. rewrite <- Nat2Z.inj_add, filter_partition.
    now rewrite (settledEach_length _ _ _ _ _ Heach).
Qed.

(** X15. A bulk operation whose argument is not an array, or is the empty
    array, creates nothing: it sends no request and answers a failure that
    says the array is required. *)
Theorem bulk_operations_need_records
    (backend : World -> HttpRequest -> JsError + JsVal) (parseFloat : JsVal -> JsVal)
    (records : JsVal) (w : World) :
  noRecords records ->
  Attendance.bulkCreateAttendance backend records w
  = (inr (JObj [("success", JBool false);
                ("message", JStr "Attendance records array is required")]), w) /\
  Events.bulkCreateEvents backend parseFloat records w
  = (inr (JObj [("success", JBool false);
                ("message", JStr "Events data array is required")]), w).
Proof.
  intros Hnone. split.
  - unfold Attendance.bulkCreateAttendance, tryCatch.
    now rewrite (bind_returned _ _ _ _ _ (guard_refused records w Hnone)).
  - unfold Events.bulkCreateEvents, tryCatch.
    now rewrite (bind_returned _ _ _ _ _ (guard_refused records w Hnone)).
Qed.

Lemma one_record_is_not_an_array_of_records :
  noRecords (sunday 120) /\
  Attendance.bulkCreateAttendance accepting (sunday 120) []
  = (inr (JObj [("success", JBool false);
                ("message", JStr "Attendance records array is required")]), []) /\
  Events.bulkCreateEvents accepting (fun v => v) (sunday 120) []
  = (inr (JObj [("success", JBool false);
                ("message", JStr "Events data array is required")]), []).
Proof.
  assert (H : noRecords (sunday 120)) by (now left).
  split; [exact H |].
  exact (bulk_operations_need_records accepting (fun v => v) (sunday 120) [] H).
Defined.

Lemma two_events_one_without_title :
  exists results w',
    Events.bulkCreateEvents accepting (fun v => v)
      (JArr [JObj [("title", JStr "Easter Service"); ("description", JStr "Morning service");
                   ("date", JStr "2026-04-05"); ("time", JStr "09:00");
                   ("location", JStr "Main hall"); ("category", JStr "Service")];
             JObj [("title", JStr "  ")]]) []
    = (inr (JObj [("success", JBool false);
                  ("data", JObj [("successful", JNum 1); ("failed", JNum 1);
                                 ("total", JNum 2); ("results", JArr results)]);
                  ("message", JStr "Bulk create completed: 1 successful, 1 failed")]),
       w') /\
    List.length w' = 1%nat.
Proof.
  destruct (bulkCreateEvents_reports_counts accepting (fun v => v)
              (JObj [("title", JStr "Easter Service"); ("description", JStr "Morning service");
                     ("date", JStr "2026-04-05"); ("time", JStr "09:00");
                     ("location", JStr "Main hall"); ("category", JStr "Service")])
              [JObj [("title", JStr "  ")]] [])
    as (results & w' & _ & Hrun & _).
  exists results, w'. vm_compute in Hrun.
  injection Hrun as Hres Hw. subst results w'. split; reflexivity.
Defined.

Section Composites.

Variable backend : World -> HttpRequest -> JsError + JsVal.

Lemma getEvents_log fs w :
  snd (Events.getEvents backend (JObj fs) w)
  = (w ++ [getRequest ("/events?" ++ queryString (queryOf eventsKeys fs))])%list.
Proof.
  rewrite getEvents_object. unfold tryCatch, bind, apiGet, apiCall, getRequest.
  destruct (backend w _) as [e | body]; [reflexivity |].
  unfold get, lift. cbn. destruct (prop body "data"); cbn; [reflexivity |].
  destruct (prop body "pagination"); cbn; [reflexivity |].
  destruct (prop body "message"); reflexivity.
Qed.

Lemma getEvents_returns fs w :
  exists fields,
    Events.getEvents backend (JObj fs) w
    = (inr (JObj fields),
       (w ++ [getRequest ("/events?" ++ queryString (queryOf eventsKeys fs))])%list).
Proof.
  pose proof (getEvents_log fs w) as Hlog.
  destruct (outcomes_total _ _ (getEvents_ok backend (JObj fs)) w)
    as (v & w' & Hrun & fields & _ & _ & -> & _).
  rewrite Hrun in Hlog. cbn [snd] in Hlog. subst w'. now exists fields.
Qed.

Lemma getUpcomingEvents_returns limit w :
  exists fields,
    Events.getUpcomingEvents backend limit w
    = (inr (JObj fields),
       (w ++ [getRequest ("/events/upcoming?limit="
                          ++ toString (defaultArg limit (JNum 10)))])%list).
Proof.
  destruct (outcomes_total _ _ (getUpcomingEvents_ok backend limit) w)
    as (v & w' & Hrun & fields & _ & _ & -> & _).
  exists fields. rewrite Hrun. f_equal.
  change w' with (snd (inr (B := JsVal) (A := JsError) (JObj fields), w')).
  rewrite <- Hrun.
  unfold Events.getUpcomingEvents, tryCatch, bind, apiGet, apiCall, getRequest.
  destruct (backend w _) as [e | body]; [reflexivity |].
  unfold get, lift. cbn. destruct (prop body "data"); cbn; [reflexivity |].
  destruct (prop body "message"); reflexivity.
Qed.

Lemma getEventsStats_answered body w :
  backend w (mkRequest "get" "/events/stats" JUndefined JUndefined) = inr (JObj body) ->
  Events.getEventsStats backend w
  = (inr (JObj [("success", JBool true);
                ("data", optProp (JObj body) "data");
                ("message", jsOr (optProp (JObj body) "message")
                              (JStr "Events statistics retrieved successfully"))]),
     (w ++ [getRequest "/events/stats"])%list).
Proof.
  intros Hb. unfold Events.getEventsStats, tryCatch, bind, apiGet, apiCall.
  now rewrite Hb.
Qed.

Lemma getEventsStats_rejected e w :
  backend w (mkRequest "get" "/events/stats" JUndefined JUndefined) = inl e ->
  Events.getEventsStats backend w
  = (inr (JObj [("success", JBool false);
                ("message", jsOr (responseMessage e)
                              (JStr "Failed to fetch events statistics"));
                ("data", noEventStatistics)]),
     (w ++ [getRequest "/events/stats"])%list).
Proof.
  intros Hb. unfold Events.getEventsStats, tryCatch, bind, apiGet, apiCall.
  now rewrite Hb.
Qed.

End Composites.

Section AttendanceListing.

Variable backend : World -> HttpRequest -> JsError + JsVal.

Lemma getAttendanceRecords_returns fs w :
  exists fields,
    Attendance.getAttendanceRecords backend (JObj fs) w
    = (inr (JObj fields),
       (w ++ [getRequest ("/attendance?" ++ queryString (queryOf attendanceKeys fs))])%list).
Proof.
  destruct (outcomes_total _ _ (getAttendanceRecords_ok backend (JObj fs)) w)
    as (v & w' & Hrun & fields & _ & _ & -> & _).
  exists fields. rewrite Hrun. f_equal.
  change w' with (snd (inr (B := JsVal) (A := JsError) (JObj fields), w')).
  rewrite <- Hrun, getAttendanceRecords_object.
  unfold tryCatch, bind, apiGet, apiCall, getRequest.
  destruct (backend w _) as [e | body]; [reflexivity |].
  unfold get, lift. cbn. destruct (prop body "data"); cbn; [reflexivity |].
  destruct (prop body "pagination"); cbn; [reflexivity |].
  destruct (prop body "message"); reflexivity.
Qed.

End AttendanceListing.

(** X16. [getEventsSummary] stands or falls with its statistics call. When
    that call is rejected the summary is the failure of [getEventsStats],
    with zeroed statistics, and nothing else is requested. When it is
    answered the summary succeeds whatever becomes of the two listings: it
    requests, in this order, the statistics, the events under the given
    filters (five, newest first, unless the filters say otherwise) and five
    upcoming events, and a listing that fails shows as an empty list. *)
Theorem getEventsSummary_follows_its_statistics
    (backend : World -> HttpRequest -> JsError + JsVal) (filters : JsVal) (w : World) :
  let statistics := mkRequest "get" "/events/stats" JUndefined JUndefined in
  let w1 := (w ++ [Http statistics])%list in
  let w2 :=
    (w1 ++ [getRequest ("/events?"
                        ++ queryString (queryOf eventsKeys (recentFilters filters)))])%list in
  (forall e,
     backend w statistics = inl e ->
     Events.getEventsSummary backend filters w
     = (inr (JObj [("success", JBool false);
                   ("message", jsOr (responseMessage e)
                                 (JStr "Failed to fetch events statistics"));
                   ("data", noEventStatistics)]), w1)) /\
  (forall body,
     backend w statistics = inr (JObj body) ->
     exists recent upcoming,
       fst (Events.getEvents backend (JObj (recentFilters filters)) w1) = inr recent /\
       fst (Events.getUpcomingEvents backend (JNum 5) w2) = inr upcoming /\
       Events.getEventsSummary backend filters w
       = (inr (JObj [("success", JBool true);
                     ("data", JObj [("stats", optProp (JObj body) "data");
                                    ("recentEvents", listed recent);
                                    ("upcomingEvents", listed upcoming)]);
                     ("message", JStr "Events summary retrieved successfully")]),
          (w2 ++ [getRequest "/events/upcoming?limit=5"])%list)).
Proof.
  intros statistics w1 w2. split.
  - intros e He. unfold Events.getEventsSummary. apply tryCatch_returned.
    now rewrite (bind_returned _ _ _ _ _ (getEventsStats_rejected backend e w He)).
  - intros body Hbody.
    destruct (getEvents_returns backend (recentFilters filters) w1) as (recent & Hrecent).
    destruct (getUpcomingEvents_returns backend (JNum 5) w2) as (upcoming & Hupcoming).
    exists (JObj recent), (JObj upcoming).
    split; [now rewrite Hrecent |]. split; [now rewrite Hupcoming |].
    unfold Events.getEventsSummary. apply tryCatch_returned.
    rewrite (bind_returned _ _ _ _ _ (getEventsStats_answered backend body w Hbody)).
    unfold get at 1, lift, bind at 1.
    cbn [prop lookupField String.eqb Ascii.eqb Bool.eqb default id truthy negb].
    unfold recentFilters in Hrecent.
    rewrite (bind_returned _ _ _ _ _ Hrecent).
    rewrite (bind_returned _ _ _ _ _ Hupcoming).
    unfold listed, optProp, get, lift, bind, ret. cbn [prop].
    destruct (truthy (default JUndefined (lookupField "success" recent)));
      destruct (truthy (default JUndefined (lookupField "success" upcoming)));
      reflexivity.
Qed.

Import MoreExamples.

Lemma summary_without_listings :
  Events.getEventsSummary statisticsOnly JUndefined []
  = (inr (JObj [("success", JBool true);
                ("data", JObj [("stats", JObj [("totalEvents", JNum 12)]);
                               ("recentEvents", JArr []);
                               ("upcomingEvents", JArr [])]);
                ("message", JStr "Events summary retrieved successfully")]),
     [getRequest "/events/stats";
      getRequest "/events?limit=5&sortBy=date&sortOrder=DESC";
      getRequest "/events/upcoming?limit=5"]).
Proof.
  destruct (proj2 (getEventsSummary_follows_its_statistics statisticsOnly JUndefined [])
              [("data", JObj [("totalEvents", JNum 12)])] eq_refl)
    as (recent & upcoming & Hrecent & Hupcoming & Hrun).
  rewrite Hrun. vm_compute in Hrecent. vm_compute in Hupcoming.
  injection Hrecent as Hrecent. injection Hupcoming as Hupcoming.
  now rewrite <- Hrecent, <- Hupcoming.
Defined.

(** X17. The two fixed listings. [getEventsByDateRange] needs both dates
    and sends neither: with two dates it is the listing of the first hundred
    events by date, whatever the dates are, and with a date missing it sends
    nothing. [getEventsByCategory] lists the first fifty events of the
    category by date, and for the category ['all'] the first fifty events of
    every category. *)
Theorem fixed_listings_send_fixed_queries
    (backend : World -> HttpRequest -> JsError + JsVal)
    (startDate endDate category : JsVal) (w : World) :
  (if truthy startDate && truthy endDate then
     snd (Events.getEventsByDateRange backend startDate endDate w)
     = (w ++ [getRequest "/events?limit=100&sortBy=date&sortOrder=ASC"])%list
   else
     Events.getEventsByDateRange backend startDate endDate w
     = (inr (JObj [("success", JBool false);
                   ("message", JStr "Start date and end date are required");
                   ("data", JArr [])]), w)) /\
  (truthy category = true ->
   snd (Events.getEventsByCategory backend category w)
   = (w ++ [getRequest
              ("/events?"
               ++ queryString
                    (if strictEq category (JStr "all")
                     then [("limit", "50"); ("sortBy", "date"); ("sortOrder", "ASC")]
                     else [("limit", "50"); ("category", toString category);
                           ("sortBy", "date"); ("sortOrder", "ASC")]))])%list).
Proof.
  split.
  - unfold Events.getEventsByDateRange.
    destruct (truthy startDate); destruct (truthy endDate); cbn [negb andb orb];
      try reflexivity.
    pose proof (getEvents_returns backend
                  [("limit", JNum 100); ("sortBy", JStr "date"); ("sortOrder", JStr "ASC")] w)
      as (fields & Hrun).
    now rewrite (tryCatch_returned _ _ _ _ _ Hrun).
  - intros Hcategory. unfold Events.getEventsByCategory, tryCatch at 1.
    rewrite (bind_returned _ _ _ _ _ (require_passed category _ w Hcategory)).
    pose proof (getEvents_returns backend
                  [("category", category); ("limit", JNum 50); ("sortBy", JStr "date");
                   ("sortOrder", JStr "ASC")] w) as (fields & Hrun).
    rewrite Hrun. cbn [snd]. do 4 f_equal.
    unfold queryOf, eventsKeys, forwarded.
    cbn [omap list_omap fst snd lookupField String.eqb Ascii.eqb Bool.eqb default id
           truthy negb andb Z.eqb toString].
    rewrite Hcategory. cbn [andb].
    now destruct (strictEq category (JStr "all")).
Qed.

Lemma dates_do_not_narrow_the_listing :
  snd (Events.getEventsByDateRange accepting (JStr "2026-04-01") (JStr "2026-04-30") [])
  = [getRequest "/events?limit=100&sortBy=date&sortOrder=ASC"] /\
  snd (Events.getEventsByCategory accepting (JStr "Youth Event") [])
  = [getRequest "/events?limit=50&category=Youth+Event&sortBy=date&sortOrder=ASC"] /\
  snd (Events.getEventsByCategory accepting (JStr "all") [])
  = [getRequest "/events?limit=50&sortBy=date&sortOrder=ASC"].
Proof.
  split; [| split].
  - exact (proj1 (fixed_listings_send_fixed_queries accepting (JStr "2026-04-01")
                    (JStr "2026-04-30") JNull [])).
  - exact (proj2 (fixed_listings_send_fixed_queries accepting JNull JNull
                    (JStr "Youth Event") []) eq_refl).
  - exact (proj2 (fixed_listings_send_fixed_queries accepting JNull JNull (JStr "all") [])
             eq_refl).
Defined.

Section Today.

Variable backend : World -> HttpRequest -> JsError + JsVal.
Variable today : string.

Lemma filterM_onDate events w :
  Forall present events ->
  filterM (fun event => let* date := get event "date" in
                        ret (strictEq date (JStr today))) events w
  = (inr (onDate today events), w).
Proof.
  induction 1 as [| event events [Hu Hn] _ IH]; [reflexivity |].
  cbn [filterM onDate List.filter].
  assert (Hget : (let* date := get event "date" in ret (strictEq date (JStr today))) w
                 = (inr (strictEq (optProp event "date") (JStr today)), w)).
  { unfold bind, get, lift, ret, optProp. destruct event; try reflexivity; congruence. }
  rewrite (bind_returned _ _ _ _ _ Hget), (bind_returned _ _ _ _ _ IH). reflexivity.
Qed.

End Today.

(** X18. [getTodaysEvents] requests the first fifty events by time and
    keeps, in their order, those whose date is today's date. When the
    listing is rejected it answers the failure of the listing itself. When
    the listing is answered without an array of events it answers its own
    failure, with an empty list. *)
Theorem getTodaysEvents_keeps_the_events_of_today
    (backend : World -> HttpRequest -> JsError + JsVal) (today : string) (w : World) :
  let listing :=
    mkRequest "get" "/events?limit=50&sortBy=time&sortOrder=ASC" JUndefined JUndefined in
  (forall body events,
     backend w listing = inr (JObj body) ->
     lookupField "data" body = Some (JArr events) ->
     Forall present events ->
     Events.getTodaysEvents backend today w
     = (inr (JObj [("success", JBool true);
                   ("data", JArr (onDate today events));
                   ("message", JStr "Today's events retrieved successfully")]),
        (w ++ [Http listing])%list)) /\
  (forall e,
     backend w listing = inl e ->
     Events.getTodaysEvents backend today w
     = (inr (JObj [("success", JBool false);
                   ("message", jsOr (responseMessage e) (JStr "Failed to fetch events"));
                   ("error", responseData e)]),
        (w ++ [Http listing])%list)) /\
  (forall body,
     backend w listing = inr (JObj body) ->
     isArray (optProp (JObj body) "data") = false ->
     Events.getTodaysEvents backend today w
     = (inr (JObj [("success", JBool false);
                   ("message", JStr "Failed to get today's events");
                   ("data", JArr [])]),
        (w ++ [Http listing])%list)).
Proof.
  intros listing.
  assert (Hlist : forall w0,
             Events.getEvents backend
               (JObj [("limit", JNum 50); ("sortBy", JStr "time"); ("sortOrder", JStr "ASC")])
               w0
             = tryCatch
                 (let* body := apiCall backend listing in
                  let* data := get body "data" in
                  let* pagination := get body "pagination" in
                  let* message := get body "message" in
                  ret (JObj [("success", JBool true);
                             ("data", data);
                             ("pagination", pagination);
                             ("message", jsOr message (JStr "Events retrieved successfully"))]))
                 (fun error =>
                    ret (JObj [("success", JBool false);
                               ("message", jsOr (responseMessage error)
                                             (JStr "Failed to fetch events"));
                               ("error", responseData error)])) w0).
  { intros w0. now rewrite getEvents_object. }
  split; [| split].
  - intros body events Hbody Hdata Hpresent.
    unfold Events.getTodaysEvents, tryCatch at 1. unfold bind at 1. rewrite Hlist.
    unfold tryCatch, bind at 1, apiCall. rewrite Hbody.
    assert (Hget : forall k w0,
               get (JObj body) k w0 = (inr (default JUndefined (lookupField k body)), w0))
      by reflexivity.
    rewrite !(bind_returned _ _ _ _ _ (Hget _ _)). unfold ret at 1.
    assert (Hread : forall fs k w0,
               get (JObj fs) k w0 = (inr (default JUndefined (lookupField k fs)), w0))
      by reflexivity.
    rewrite (bind_returned _ _ _ _ _ (Hread _ "success" _)).
    cbn [lookupField String.eqb Ascii.eqb Bool.eqb default id truthy negb].
    rewrite (bind_returned _ _ _ _ _ (Hread _ "data" _)).
    cbn [lookupField String.eqb Ascii.eqb Bool.eqb default id]. rewrite Hdata.
    cbn [default id callFilter].
    rewrite (bind_returned _ _ _ _ _
               (bind_returned _ _ _ _ _ (filterM_onDate today events _ Hpresent))).
    reflexivity.
  - intros e He.
    unfold Events.getTodaysEvents, tryCatch at 1. unfold bind at 1. rewrite Hlist.
    unfold tryCatch, bind at 1, apiCall. rewrite He. reflexivity.
  - intros body Hbody Hdata.
    unfold Events.getTodaysEvents, tryCatch at 1. unfold bind at 1. rewrite Hlist.
    unfold tryCatch, bind at 1, apiCall. rewrite Hbody.
    unfold get, lift, bind at 1 2 3 4 5, ret at 1. cbn [prop] in *. unfold optProp in Hdata.
    cbn [prop] in Hdata.
    cbn [lookupField String.eqb Ascii.eqb Bool.eqb default id truthy negb].
    destruct (default JUndefined (lookupField "data" body)); try discriminate Hdata;
      reflexivity.
Qed.

Lemma two_of_three_events_are_today :
  Events.getTodaysEvents (serving (JObj [("data", JArr threeEvents)])) "2026-04-05" []
  = (inr (JObj [("success", JBool true);
                ("data", JArr [JObj [("id", JNum 1); ("date", JStr "2026-04-05")];
                               JObj [("id", JNum 3); ("date", JStr "2026-04-05")]]);
                ("message", JStr "Today's events retrieved successfully")]),
     [getRequest "/events?limit=50&sortBy=time&sortOrder=ASC"]).
Proof.
  apply (proj1 (getTodaysEvents_keeps_the_events_of_today
                  (serving (JObj [("data", JArr threeEvents)])) "2026-04-05" [])
           [("data", JArr threeEvents)] threeEvents eq_refl eq_refl).
  repeat constructor; discriminate.
Defined.

(* ===================================================================== *)
(** * Validation before creation                                          *)
(* ===================================================================== *)

Section Validation.

Variable backend : World -> HttpRequest -> JsError + JsVal.
Variable parseFloat : JsVal -> JsVal.

Lemma bind_fst_inr {A B} (m : M A) (k : A -> M B) w y :
  fst (bind m k w) = inr y -> exists x w1, m w = (inr x, w1) /\ fst (k x w1) = inr y.
Proof.
  unfold bind. destruct (m w) as [[e | x] w1]; [discriminate |]. intros H. now exists x, w1.
Qed.

Lemma quiet_inr {A} (R : A -> Prop) (m : M A) w x w1 :
  quiet R m -> m w = (inr x, w1) -> w1 = w /\ R x.
Proof. intros H Hm. destruct (H w) as [Hw HR]. rewrite Hm in *. now split. Qed.

Lemma get_anywhere d k w x w1 :
  get d k w = (inr x, w1) -> forall k' w', get d k' w' = (inr (optProp d k'), w').
Proof.
  unfold get, lift, optProp. intros H k' w'.
  destruct d; cbn in *; try discriminate H; reflexivity.
Qed.

Lemma optTrim_anywhere v w t w1 :
  optTrim v w = (inr t, w1) -> forall w', optTrim v w' = (inr t, w').
Proof.
  intros H w'. destruct v; cbn in *; try discriminate H; now injection H as <- _.
Qed.

Lemma requireTrimmed_passed d k msg t w :
  (forall k' w', get d k' w' = (inr (optProp d k'), w')) ->
  (forall w', optTrim (optProp d k) w' = (inr t, w')) ->
  truthy t = true ->
  Events.requireTrimmed d k msg w = (inr t, w).
Proof.
  intros Hget Htrim Ht. unfold Events.requireTrimmed.
  rewrite (bind_returned _ _ _ _ _ (Hget k w)), (bind_returned _ _ _ _ _ (Htrim w)).
  now rewrite (bind_returned _ _ _ _ _ (require_passed t msg w Ht)).
Qed.

Lemma pushIf_nil c msg errors : Events.pushIf c msg errors = [] -> c = false /\ errors = [].
Proof.
  unfold Events.pushIf. destruct c; [| now split].
  intros H. now destruct errors.
Qed.

Lemma pushed_or_checked (c : bool) msg (errors checked : list JsVal) :
  (if c then (errors ++ [JStr msg])%list else checked) = [] -> c = false /\ checked = [].
Proof. destruct c; [| now split]. intros H. now destruct errors. Qed.

Lemma lengthOf_zero errors : strictEq (lengthOf errors) (JNum 0) = true -> errors = [].
Proof. destruct errors; [reflexivity |]. cbn. discriminate. Qed.

Lemma tryCatch_log {A} (body : M A) handler w :
  (forall e, quiet anything (handler e)) -> snd (tryCatch body handler w) = snd (body w).
Proof.
  intros Hh. unfold tryCatch. destruct (body w) as [[e | x] w1]; [| reflexivity].
  apply Hh.
Qed.

Lemma call_log {A} r (k : JsVal -> M A) w :
  (forall body, quiet anything (k body)) ->
  snd (bind (apiCall backend r) k w) = (w ++ [Http r])%list.
Proof.
  intros Hk. unfold bind, apiCall. destruct (backend w r) as [e | body]; [reflexivity |].
  apply Hk.
Qed.

End Validation.

(** X19. Event data that [validateEventData] declares valid passes the
    local checks of [createEvent]: the event is posted. *)
Theorem valid_event_data_is_posted
    (backend : World -> HttpRequest -> JsError + JsVal) (parseFloat : JsVal -> JsVal)
    (dateValue : JsVal -> option Z) (startOfToday : Z)
    (eventData report : JsVal) (w : World) :
  Events.validateEventData dateValue startOfToday eventData = inr report ->
  optProp report "isValid" = JBool true ->
  exists r,
    snd (Events.createEvent backend parseFloat eventData w) = (w ++ [Http r])%list /\
    eventCreation parseFloat eventData r.
Proof.
  intros Hrun Hvalid. unfold Events.validateEventData in Hrun.
  apply bind_fst_inr in Hrun. destruct Hrun as (titleRaw & w1 & Hget & Hrun).
  pose proof (get_anywhere _ _ _ _ _ Hget) as Hread.
  rewrite Hread in Hget. injection Hget as <- <-.
  apply bind_fst_inr in Hrun. destruct Hrun as (title & w1 & Htitle & Hrun).
  pose proof (optTrim_anywhere _ _ _ _ Htitle) as Htitle'.
  rewrite Htitle' in Htitle. injection Htitle as <-.
  apply bind_fst_inr in Hrun. destruct Hrun as (titleLen & w1 & Hlen & Hrun).
  assert (w1 = []) as ->.
  { destruct (truthy title); [| now injection Hlen as _ <-].
    unfold get, lift in Hlen. now injection Hlen as _ <-. }
  clear Hlen. cbv zeta in Hrun.
  rewrite (bind_returned _ _ _ _ _ (Hread "description" [])) in Hrun.
  apply bind_fst_inr in Hrun. destruct Hrun as (description & w1 & Hdescription & Hrun).
  pose proof (optTrim_anywhere _ _ _ _ Hdescription) as Hdescription'.
  rewrite Hdescription' in Hdescription. injection Hdescription as <-.
  apply bind_fst_inr in Hrun. destruct Hrun as (descriptionLen & w1 & Hlen & Hrun).
  assert (w1 = []) as ->.
  { destruct (truthy description); [| now injection Hlen as _ <-].
    unfold get, lift in Hlen. now injection Hlen as _ <-. }
  clear Hlen.
  rewrite (bind_returned _ _ _ _ _ (Hread "date" [])) in Hrun.
  rewrite (bind_returned _ _ _ _ _ (Hread "time" [])) in Hrun.
  rewrite (bind_returned _ _ _ _ _ (Hread "location" [])) in Hrun.
  apply bind_fst_inr in Hrun. destruct Hrun as (location & w1 & Hlocation & Hrun).
  pose proof (optTrim_anywhere _ _ _ _ Hlocation) as Hlocation'.
  rewrite Hlocation' in Hlocation. injection Hlocation as <-.
  rewrite (bind_returned _ _ _ _ _ (Hread "category" [])) in Hrun.
  rewrite (bind_returned _ _ _ _ _ (Hread "maxAttendees" [])) in Hrun.
  rewrite (bind_returned _ _ _ _ _ (Hread "endTime" [])) in Hrun.
  rewrite (bind_returned _ _ _ _ _ (Hread "isRecurring" [])) in Hrun.
  rewrite (bind_returned _ _ _ _ _ (Hread "recurringPattern" [])) in Hrun.
  rewrite (bind_returned _ _ _ _ _ (Hread "eventFee" [])) in Hrun.
  unfold ret in Hrun. cbn [fst] in Hrun. injection Hrun as <-.
  unfold optProp in Hvalid. cbn [prop lookupField String.eqb Ascii.eqb Bool.eqb default id]
    in Hvalid.
  injection Hvalid as Hvalid. apply lengthOf_zero in Hvalid.
  do 4 (apply pushIf_nil in Hvalid; destruct Hvalid as [_ Hvalid]).
  apply pushIf_nil in Hvalid. destruct Hvalid as [Hcategory Hvalid].
  apply pushIf_nil in Hvalid. destruct Hvalid as [Hlocation Hvalid].
  apply pushIf_nil in Hvalid. destruct Hvalid as [Htime Hvalid].
  apply pushed_or_checked in Hvalid. destruct Hvalid as [Hdate Hvalid].
  apply pushIf_nil in Hvalid. destruct Hvalid as [_ Hvalid].
  apply pushed_or_checked in Hvalid. destruct Hvalid as [Hdescription Hvalid].
  apply pushIf_nil in Hvalid. destruct Hvalid as [_ Hvalid].
  assert (Htitle : truthy title = true).
  { destruct (truthy title); [reflexivity | discriminate Hvalid]. }
  apply negb_false_iff in Hcategory, Hlocation, Htime, Hdate, Hdescription.
  destruct (createEvent_atMostOne backend parseFloat eventData w) as [Hnone | Hsent];
    [| exact Hsent].
  exfalso. revert Hnone. unfold Events.createEvent.
  rewrite tryCatch_log by (intros e; now apply quiet_ret).
  rewrite (bind_returned _ _ _ _ _
             (requireTrimmed_passed eventData "title" _ title w Hread Htitle' Htitle)).
  rewrite (bind_returned _ _ _ _ _
             (requireTrimmed_passed eventData "description" _ description w Hread
                Hdescription' Hdescription)).
  rewrite (bind_returned _ _ _ _ _ (Hread "date" w)).
  rewrite (bind_returned _ _ _ _ _ (require_passed _ _ w Hdate)).
  rewrite (bind_returned _ _ _ _ _ (Hread "time" w)).
  rewrite (bind_returned _ _ _ _ _ (require_passed _ _ w Htime)).
  rewrite (bind_returned _ _ _ _ _
             (requireTrimmed_passed eventData "location" _ location w Hread Hlocation'
                Hlocation)).
  rewrite (bind_returned _ _ _ _ _ (Hread "category" w)).
  rewrite (bind_returned _ _ _ _ _ (require_passed _ _ w Hcategory)).
  rewrite !(bind_returned _ _ _ _ _ (Hread _ w)).
  unfold apiPost. rewrite call_log by (intros body; apply quiet_unpack).
  intros H. apply (f_equal (@List.length Effect)) in H. rewrite length_app in H.
  cbn in H. lia.
Qed.

Lemma easter_service_is_posted :
  Events.validateEventData noDates 0
    (JObj [("title", JStr " Easter Service"); ("description", JStr "Morning service");
           ("date", JStr "2026-04-05"); ("time", JStr "09:00");
           ("location", JStr "Main hall "); ("category", JStr "Service")])
  = inr (JObj [("isValid", JBool true); ("errors", JArr [])]) /\
  snd (Events.createEvent accepting (fun v => v)
         (JObj [("title", JStr " Easter Service"); ("description", JStr "Morning service");
                ("date", JStr "2026-04-05"); ("time", JStr "09:00");
                ("location", JStr "Main hall "); ("category", JStr "Service")]) [])
  = [Http (mkRequest "post" "/events"
             (JObj [("title", JStr "Easter Service");
                    ("description", JStr "Morning service");
                    ("date", JStr "2026-04-05"); ("time", JStr "09:00");
                    ("endTime", JNull); ("location", JStr "Main hall");
                    ("category", JStr "Service"); ("maxAttendees", JNull);
                    ("isRecurring", JBool false); ("recurringPattern", JNull);
                    ("registrationRequired", JBool false);
                    ("registrationDeadline", JNull); ("eventFee", JNum 0);
                    ("tags", JArr []); ("image", JNull)])
             JUndefined)].
Proof.
  split; [reflexivity |].
  destruct (valid_event_data_is_posted accepting (fun v => v) noDates 0
              (JObj [("title", JStr " Easter Service");
                     ("description", JStr "Morning service");
                     ("date", JStr "2026-04-05"); ("time", JStr "09:00");
                     ("location", JStr "Main hall "); ("category", JStr "Service")])
              _ [] eq_refl eq_refl) as (r & Hsent & _).
  rewrite Hsent. vm_compute in Hsent. injection Hsent as Hr. now rewrite <- Hr.
Defined.

(* ===================================================================== *)
(** * The display form of an event                                        *)
(* ===================================================================== *)

Import DisplaySpec.

(** X20. [formatEventForDisplay] answers null for no event. For an event it
    answers the event with five fields added or replaced: every other field
    keeps its value; the time texts are empty when the event has no time,
    and the fee text is [Free] when it has no fee; when the date of the event
    is a date, [daysUntil] is the number of days, rounded up, from now to the
    date: the whole number [n] with [(n - 1) days < date - now <= n days]. *)
Theorem formatEventForDisplay_extends_the_event
    (dateValue : JsVal -> option Z) (now : Z) (localeDate localeTime : option Z -> string)
    (formatNaira : JsVal -> string) (fields : list (string * JsVal)) :
  let event := JObj fields in
  let display := Events.formatEventForDisplay dateValue now localeDate localeTime formatNaira in
  (forall nothing, truthy nothing = false -> display nothing = inr JNull) /\
  exists shown,
    display event = inr (JObj shown) /\
    (forall k, ~ In k displayFields -> lookupField k shown = lookupField k fields) /\
    (forall k, In k displayFields -> is_Some (lookupField k shown)) /\
    (truthy (optProp event "time") = false ->
     lookupField "formattedTime" shown = Some (JStr "")) /\
    (truthy (optProp event "endTime") = false ->
     lookupField "formattedEndTime" shown = Some (JStr "")) /\
    (truthy (optProp event "eventFee") = false ->
     lookupField "formattedFee" shown = Some (JStr "Free")) /\
    (forall date,
       dateValue (optProp event "date") = Some date ->
       exists n,
         lookupField "daysUntil" shown = Some (JNum n) /\
         (n - 1) * day < date - now <= n * day).
Proof.
  intros event display. split.
  - intros nothing Hnothing. unfold display, Events.formatEventForDisplay.
    now rewrite Hnothing.
  - unfold display, Events.formatEventForDisplay, event.
    cbn [truthy negb get lift bind ret prop fst spread setFields fold_left fst snd].
    eexists. split; [reflexivity |].
    split; [| split; [| split; [| split; [| split]]]].
    + intros k Hk. rewrite !lookupField_setField.
      unfold displayFields in Hk. cbn [In] in Hk.
      repeat match goal with
             | |- context [String.eqb k ?s] =>
                 destruct (String.eqb_spec k s) as [-> | _]; [exfalso; tauto |]
             end.
      reflexivity.
    + intros k Hk. unfold displayFields in Hk. cbn [In] in Hk.
      repeat (destruct Hk as [<- | Hk];
              [rewrite !lookupField_setField; cbn; now eexists |]).
      destruct Hk.
    + intros Htime. rewrite !lookupField_setField. cbn.
      unfold event, optProp in Htime. cbn [prop] in Htime. now rewrite Htime.
    + intros Htime. rewrite !lookupField_setField. cbn.
      unfold event, optProp in Htime. cbn [prop] in Htime. now rewrite Htime.
    + intros Hfee. rewrite !lookupField_setField. cbn.
      unfold event, optProp in Hfee. cbn [prop] in Hfee. now rewrite Hfee.
    + intros date Hdate. rewrite !lookupField_setField. cbn.
      unfold event, optProp in Hdate. cbn [prop] in Hdate. rewrite Hdate. cbn.
      eexists. split; [reflexivity |]. unfold day.
      pose proof (Z.div_mod (now - date) 86400000 ltac:(lia)) as Hdiv.
      pose proof (Z.mod_pos_bound (now - date) 86400000 ltac:(lia)) as Hmod.
      lia.
Qed.

Lemma an_event_tomorrow_is_one_day_away :
  exists shown,
    Events.formatEventForDisplay (fun _ => Some 90000000) 3600000 noText noText noAmount
      (JObj [("title", JStr "Easter Service"); ("date", JStr "1970-01-02T01:00:00Z");
             ("daysUntil", JStr "soon")])
    = inr (JObj shown) /\
    lookupField "title" shown = Some (JStr "Easter Service") /\
    lookupField "daysUntil" shown = Some (JNum 1) /\
    lookupField "formattedFee" shown = Some (JStr "Free").
Proof.
  destruct (proj2 (formatEventForDisplay_extends_the_event (fun _ => Some 90000000) 3600000
                     noText noText noAmount
                     [("title", JStr "Easter Service"); ("date", JStr "1970-01-02T01:00:00Z");
                      ("daysUntil", JStr "soon")]))
    as (shown & Hrun & _).
  exists shown. split; [exact Hrun |].
  vm_compute in Hrun. injection Hrun as Hshown. rewrite <- Hshown. repeat split.
Defined.

(* ===================================================================== *)
(** * The file helpers and the token manager                              *)
(* ===================================================================== *)

(** X21. [uploadFile] and [downloadFile] send one request each and never
    throw. An upload that is answered succeeds with the whole answer as its
    data, whatever the answer is, even null. A download that is answered
    saves the content received, once, under the given name, and succeeds. A
    rejected upload or download saves nothing and answers a failure whose
    message is not empty. *)
Theorem file_helpers_follow_the_request
    (backend : World -> HttpRequest -> JsError + JsVal)
    (endpoint filename : string) (file : JsVal) (w : World) :
  let upload :=
    mkRequest "post" endpoint (JObj [("file", file)])
      (JObj [("headers", JObj [("Content-Type", JStr "multipart/form-data")])]) in
  let download :=
    mkRequest "get" endpoint JUndefined (JObj [("responseType", JStr "blob")]) in
  match backend w upload with
  | inr body =>
      ApiHelpers.uploadFile backend endpoint file w
      = (inr (JObj [("success", JBool true); ("data", body);
                    ("message", jsOr (optProp body "message")
                                  (JStr "File uploaded successfully"))]),
         (w ++ [Http upload])%list)
  | inl e =>
      exists message,
        ApiHelpers.uploadFile backend endpoint file w
        = (inr (JObj [("success", JBool false); ("message", message)]),
           (w ++ [Http upload])%list) /\
        truthy message = true
  end /\
  match backend w download with
  | inr content =>
      ApiHelpers.downloadFile backend endpoint filename w
      = (inr (JObj [("success", JBool true);
                    ("message", JStr "File downloaded successfully")]),
         (w ++ [Http download; Download filename "" content])%list)
  | inl e =>
      exists message,
        ApiHelpers.downloadFile backend endpoint filename w
        = (inr (JObj [("success", JBool false); ("message", message)]),
           (w ++ [Http download])%list) /\
        truthy message = true
  end.
Proof.
  intros upload download.
  assert (Hmsg : forall e s, s <> "" ->
                 truthy (jsOr (jsOr (responseMessage e) (errorMessage e)) (JStr s)) = true).
  { intros e s Hs. unfold jsOr.
    destruct (truthy (responseMessage e)) eqn:E1; rewrite ?E1; [reflexivity |].
    destruct (truthy (errorMessage e)) eqn:E2; rewrite ?E2; [reflexivity |].
    cbn. now destruct (String.eqb_spec s ""). }
  split.
  - unfold ApiHelpers.uploadFile, tryCatch, bind, apiPostWith, apiCall. fold upload.
    destruct (backend w upload) as [e | body]; [| reflexivity].
    eexists. split; [reflexivity |]. now apply Hmsg.
  - unfold ApiHelpers.downloadFile, tryCatch, bind, apiGetWith, apiCall, emit. fold download.
    destruct (backend w download) as [e | content].
    + eexists. split; [reflexivity |]. now apply Hmsg.
    + cbn. now rewrite <- app_assoc.
Qed.

Lemma an_empty_answer_is_a_successful_upload :
  ApiHelpers.uploadFile (serving JNull) "/members/import" (JStr "members.csv") []
  = (inr (JObj [("success", JBool true); ("data", JNull);
                ("message", JStr "File uploaded successfully")]),
     [Http (mkRequest "post" "/members/import" (JObj [("file", JStr "members.csv")])
              (JObj [("headers", JObj [("Content-Type", JStr "multipart/form-data")])]))]) /\
  ApiHelpers.downloadFile (failing 404 JNull) "/reports/7" "report.pdf" []
  = (inr (JObj [("success", JBool false); ("message", JStr "Request failed")]),
     [Http (mkRequest "get" "/reports/7" JUndefined (JObj [("responseType", JStr "blob")]))]).
Proof.
  split.
  - exact (proj1 (file_helpers_follow_the_request (serving JNull) "/members/import" ""
                    (JStr "members.csv") [])).
  - destruct (proj2 (file_helpers_follow_the_request (failing 404 JNull) "/reports/7"
                       "report.pdf" JNull [])) as (message & Hrun & _).
    rewrite Hrun. vm_compute in Hrun. injection Hrun as Hmessage. now rewrite <- Hmessage.
Defined.

(** X23. The token manager and the interceptors use the same two entries
    of the storage. Stored tokens are read back as their texts and cleared
    tokens are gone, other entries being left alone; a request sent after
    [setTokens] carries the stored access token as its bearer, and one sent
    after [clearTokens] is left without one; a refresh that succeeds stores
    what [setTokens] stores for the new access token and the refresh token
    in use, and a refresh that fails clears what [clearTokens] clears. *)
Theorem token_manager_agrees_with_the_interceptors
    (storage : gmap string string) (token refreshToken : JsVal) (now : Z)
    (config : Config) (st : Client) (request : nat) (e : JsError) :
  let stored := ApiHelpers.setTokens token refreshToken storage in
  let cleared := ApiHelpers.clearTokens storage in
  (ApiHelpers.getToken stored = Some (toString token) /\
   ApiHelpers.getRefreshToken stored = Some (toString refreshToken) /\
   ApiHelpers.getToken cleared = None /\
   ApiHelpers.getRefreshToken cleared = None) /\
  (forall key,
     key <> "churchAdminToken" -> key <> "churchAdminRefreshToken" ->
     stored !! key = storage !! key /\ cleared !! key = storage !! key) /\
  (toString token <> "" ->
   headers (requestInterceptor stored now config) !! "Authorization"
   = Some ("Bearer " ++ toString token)) /\
  headers (requestInterceptor cleared now config) = headers config /\
  (forall refresh,
     localStorage (refreshSucceeded request refresh token st)
     = ApiHelpers.setTokens token (JStr refresh) (localStorage st)) /\
  localStorage (refreshFailed request e st) = ApiHelpers.clearTokens (localStorage st).
Proof.
  intros stored cleared.
  unfold stored, cleared, ApiHelpers.setTokens, ApiHelpers.clearTokens, ApiHelpers.getToken,
    ApiHelpers.getRefreshToken.
  split; [| split; [| split; [| split; [| split]]]].
  - repeat split.
    + rewrite lookup_insert_ne by discriminate. now rewrite lookup_insert_eq.
    + now rewrite lookup_insert_eq.
    + rewrite lookup_delete_ne by discriminate. now rewrite lookup_delete_eq.
    + now rewrite lookup_delete_eq.
  - intros key H1 H2. split.
    + now rewrite !lookup_insert_ne by congruence.
    + now rewrite !lookup_delete_ne by congruence.
  - intros Htoken. unfold requestInterceptor, truthyItem.
    rewrite lookup_insert_ne by discriminate. rewrite lookup_insert_eq.
    destruct (String.eqb_spec (toString token) ""); [contradiction |].
    cbn. now rewrite lookup_insert_eq.
  - unfold requestInterceptor, truthyItem.
    rewrite lookup_delete_ne by discriminate. now rewrite lookup_delete_eq.
  - intros refresh.
    destruct (refreshSucceeded_spec request refresh token st) as (configs & ->).
    reflexivity.
  - now rewrite refreshFailed_spec.
Qed.

Lemma a_stored_token_is_the_bearer :
  headers (requestInterceptor (ApiHelpers.setTokens (JStr "access-1") (JStr "refresh-1") ∅)
             0 (plainConfig "/members")) !! "Authorization"
  = Some "Bearer access-1" /\
  ApiHelpers.getToken
    (localStorage (refreshSettled (inl refreshRejected) refreshing)) = None.
Proof.
  destruct (token_manager_agrees_with_the_interceptors ∅ (JStr "access-1")
              (JStr "refresh-1") 0 (plainConfig "/members") (setAwaiting None refreshing) 1
              refreshRejected) as (_ & _ & Hbearer & _ & _ & Hfailed).
  split; [apply Hbearer; discriminate |].
  change (refreshSettled (inl refreshRejected) refreshing)
    with (refreshFailed 1 refreshRejected (setAwaiting None refreshing)).
  rewrite Hfailed. reflexivity.
Defined.

(* ===================================================================== *)
(** * The listing pages                                                   *)
(* ===================================================================== *)

Import PageSpec.

(** X24. The page buttons of a listing. A listing of a single page shows
    no page button. With more pages, on a page between 1 and the number of
    pages, the buttons show a run of consecutive page numbers that lies
    within the pages and contains the current page: all pages when there are
    at most five, and otherwise the pages from two before the current one
    (from 1 at the least) to four after that start (to the last page at the
    most), so that fewer than five are shown on the last two pages. Every
    number shown is a page [handlePageChange] moves to. *)
Theorem page_buttons_are_a_window (totalPages currentPage : Z) (filters : JsVal) :
  1 <= currentPage <= totalPages ->
  let first := if totalPages <=? 5 then 1 else Z.max 1 (currentPage - 2) in
  let last := if totalPages <=? 5 then totalPages else Z.min totalPages (first + 4) in
  (totalPages = 1 -> Pages.pageButtons totalPages currentPage = []) /\
  (1 < totalPages ->
   shownPages (Pages.pageButtons totalPages currentPage) = fromTo first last) /\
  1 <= first <= currentPage /\ currentPage <= last <= totalPages /\
  (5 < totalPages -> totalPages - 1 <= currentPage ->
   last - first + 1 = totalPages - currentPage + 3) /\
  (forall page,
     In page (shownPages (Pages.pageButtons totalPages currentPage)) ->
     Pages.handlePageChange totalPages page filters
     = Pages.handleFilterChange "page" (JNum page) filters).
Proof.
  intros Hpage first last.
  assert (Hone : totalPages = 1 -> Pages.pageButtons totalPages currentPage = [])
    by (now intros ->).
  assert (Hshown : 1 < totalPages ->
                   shownPages (Pages.pageButtons totalPages currentPage) = fromTo first last).
  { intros Hpages. subst first last. unfold Pages.pageButtons, shownPages, fromTo.
    destruct (Z.ltb_spec 1 totalPages) as [_ | Hle]; [| lia].
    destruct (Z.leb_spec totalPages 5) as [Hfew | Hmany].
    - assert (Hcases : totalPages = 2 \/ totalPages = 3 \/
                       totalPages = 4 \/ totalPages = 5) by lia.
      destruct Hcases as [-> | [-> | [-> | ->]]]; reflexivity.
    - replace (Z.min 5 totalPages) with 5 by lia.
      change (Z.to_nat 5) with 5%nat. cbn [seq map].
      set (start := Z.max 1 (currentPage - 2)).
      set (stop := Z.min totalPages (start + 4)).
      assert (Hstop : stop = start + 2 \/ stop = start + 3 \/ stop = start + 4) by lia.
      destruct Hstop as [Hs | [Hs | Hs]]; rewrite Hs;
        [ replace (start + 2 - start + 1) with 3 by lia
        | replace (start + 3 - start + 1) with 4 by lia
        | replace (start + 4 - start + 1) with 5 by lia ];
        repeat match goal with
               | |- context [?a <? ?b] => destruct (Z.ltb_spec a b); try lia
               end;
        reflexivity. }
  split; [exact Hone |]. split; [exact Hshown |].
  assert (Hbounds : 1 <= first <= currentPage /\ currentPage <= last <= totalPages).
  { unfold first, last. destruct (Z.leb_spec totalPages 5); lia. }
  split; [apply Hbounds |]. split; [apply Hbounds |]. split.
  - unfold first, last. destruct (Z.leb_spec totalPages 5); lia.
  - intros page Hin.
    assert (Hpages : 1 < totalPages).
    { destruct (Z.eq_dec totalPages 1) as [E | E]; [| lia].
      rewrite (Hone E) in Hin. destruct Hin. }
    rewrite (Hshown Hpages) in Hin. unfold fromTo in Hin.
    apply in_map_iff in Hin. destruct Hin as (i & <- & Hi). apply in_seq in Hi.
    unfold Pages.handlePageChange.
    destruct (Z.leb_spec 1 (first + Z.of_nat i)); [| lia].
    destruct (Z.leb_spec (first + Z.of_nat i) totalPages); [reflexivity | lia].
Qed.

Lemma buttons_on_the_last_of_ten_pages :
  1 <= 10 <= 10 /\
  Pages.pageButtons 10 10 = [Some 8; Some 9; Some 10; None; None] /\
  shownPages (Pages.pageButtons 10 10) = [8; 9; 10] /\
  Pages.handlePageChange 10 9 (JObj [("page", JNum 10); ("limit", JNum 10)])
  = JObj [("page", JNum 9); ("limit", JNum 10)] /\
  Pages.pageButtons 1 1 = [].
Proof.
  assert (H : 1 <= 10 <= 10) by lia.
  split; [exact H |]. split; [reflexivity |].
  destruct (page_buttons_are_a_window 10 10 (JObj [("page", JNum 10); ("limit", JNum 10)]) H)
    as (_ & Hshown & _ & _ & _ & Hmove).
  assert (Hten : 1 < 10) by lia.
  split; [rewrite (Hshown Hten); reflexivity |]. split; [| reflexivity].
  rewrite (Hmove 9); [reflexivity |]. rewrite (Hshown Hten). vm_compute. tauto.
Defined.

Section FilterState.

Lemma lookupField_setFields_other k new fs :
  ~ In k (map fst new) -> lookupField k (setFields new fs) = lookupField k fs.
Proof.
  unfold setFields. revert fs. induction new as [| [k' v] new IH]; intros fs Hk; cbn.
  - reflexivity.
  - cbn in Hk. rewrite IH by tauto. rewrite lookupField_setField.
    destruct (String.eqb_spec k k') as [-> | _]; [tauto | reflexivity].
Qed.

Lemma forwarded_same fs fs' key :
  lookupField (fst key) fs = lookupField (fst key) fs' ->
  forwarded fs key = forwarded fs' key.
Proof. intros H. unfold forwarded. now rewrite H. Qed.

End FilterState.

(** X25. The filters of a listing page. Changing a filter other than the
    page sets that filter and returns to page 1; changing the page sets the
    page alone; a page number below 1 or beyond the last page changes
    nothing; in each case every other filter keeps its value. After the
    events filters are cleared, the listing request carries page 1 and no
    search, status or category, the limit and the sorting being as before. *)
Theorem filter_changes_return_to_the_first_page
    (backend : World -> HttpRequest -> JsError + JsVal)
    (fields : list (string * JsVal)) (key : string) (value : JsVal)
    (totalPages newPage : Z) (w : World) :
  let filters := JObj fields in
  (key <> "page" ->
   optProp (Pages.handleFilterChange key value filters) "page" = JNum 1 /\
   optProp (Pages.handleFilterChange key value filters) key = value) /\
  optProp (Pages.handleFilterChange "page" value filters) "page" = value /\
  (forall k, k <> key -> k <> "page" ->
             optProp (Pages.handleFilterChange key value filters) k = optProp filters k) /\
  (newPage < 1 \/ totalPages < newPage ->
   Pages.handlePageChange totalPages newPage filters = filters) /\
  snd (Events.getEvents backend (Pages.clearEventFilters filters) w)
  = (w ++ [getRequest
             ("/events?"
              ++ queryString
                   (queryOf [("page", false); ("limit", false); ("upcoming", false);
                             ("sortBy", false); ("sortOrder", false)]
                      (setField "page" (JNum 1) fields)))])%list /\
  snd (Attendance.getAttendanceRecords backend (Pages.clearAttendanceFilters filters) w)
  = (w ++ [getRequest
             ("/attendance?"
              ++ queryString
                   (queryOf [("page", false); ("limit", false); ("sortBy", false);
                             ("sortOrder", false)]
                      (setField "page" (JNum 1) fields)))])%list.
Proof.
  intros filters. unfold Pages.handleFilterChange, filters, optProp. cbn [prop spread].
  split; [| split; [| split; [| split; [| split]]]].
  - intros Hkey. rewrite !lookupField_setField, String.eqb_refl.
    destruct (String.eqb_spec key "page") as [-> | _]; [contradiction |].
    split; [reflexivity |]. rewrite String.eqb_refl. reflexivity.
  - now rewrite !lookupField_setField, String.eqb_refl.
  - intros k Hk Hpage. rewrite !lookupField_setField.
    destruct (String.eqb_spec k "page") as [-> | _]; [contradiction |].
    destruct (String.eqb_spec k key) as [-> | _]; [contradiction | reflexivity].
  - intros Hout. unfold Pages.handlePageChange.
    destruct (Z.leb_spec 1 newPage); [| reflexivity].
    destruct (Z.leb_spec newPage totalPages); [lia | reflexivity].
  - unfold Pages.clearEventFilters. cbn [spread]. rewrite getEvents_log.
    do 4 f_equal. unfold queryOf, eventsKeys. cbn [omap list_omap].
    assert (Hkeep : forall flag k,
               ~ In k ["search"; "status"; "category"; "page"] ->
               forwarded
                 (setFields [("search", JStr ""); ("status", JStr "all");
                             ("category", JStr "all"); ("page", JNum 1)] fields) (k, flag)
               = forwarded (setField "page" (JNum 1) fields) (k, flag)).
    { intros flag k Hk. apply forwarded_same. cbn [fst].
      rewrite lookupField_setFields_other by exact Hk.
      rewrite lookupField_setField.
      destruct (String.eqb_spec k "page") as [-> | _]; [| reflexivity].
      cbn in Hk. tauto. }
    rewrite (Hkeep false "limit"), (Hkeep false "upcoming"), (Hkeep false "sortBy"),
      (Hkeep false "sortOrder") by (cbn; intuition discriminate).
    assert (Hgone : forall flag k v,
               In (k, v) [("search", JStr ""); ("status", JStr "all");
                          ("category", JStr "all")] ->
               (k = "search" \/ flag = true) ->
               forwarded
                 (setFields [("search", JStr ""); ("status", JStr "all");
                             ("category", JStr "all"); ("page", JNum 1)] fields) (k, flag)
               = None).
    { intros flag k v Hin Hflag. unfold forwarded, setFields.
      cbn [fold_left fst snd]. rewrite !lookupField_setField.
      cbn [In] in Hin.
      destruct Hin as [[= <- <-] | [[= <- <-] | [[= <- <-] | []]]]; cbn;
        destruct Hflag as [Hflag | ->]; try discriminate Hflag; reflexivity. }
    rewrite (Hgone false "search" (JStr "")) by (cbn; tauto).
    rewrite (Hgone true "status" (JStr "all")) by (cbn; tauto).
    rewrite (Hgone true "category" (JStr "all")) by (cbn; tauto).
    assert (Hpage : forwarded
                      (setFields [("search", JStr ""); ("status", JStr "all");
                                  ("category", JStr "all"); ("page", JNum 1)] fields)
                      ("page", false)
                    = forwarded (setField "page" (JNum 1) fields) ("page", false)).
    { apply forwarded_same. unfold setFields. cbn [fold_left fst snd].
      now rewrite !lookupField_setField. }
    rewrite Hpage. reflexivity.
  - unfold Pages.clearAttendanceFilters. cbn [spread].
    destruct (getAttendanceRecords_returns backend
                (setFields [("startDate", JStr ""); ("endDate", JStr "");
                            ("serviceType", JStr "all"); ("page", JNum 1)] fields) w)
      as (answer & Hrun).
    rewrite Hrun. cbn [snd]. do 4 f_equal. unfold queryOf, attendanceKeys.
    cbn [omap list_omap].
    assert (Hkeep : forall k,
               ~ In k ["startDate"; "endDate"; "serviceType"; "page"] ->
               forwarded
                 (setFields [("startDate", JStr ""); ("endDate", JStr "");
                             ("serviceType", JStr "all"); ("page", JNum 1)] fields)
                 (k, false)
               = forwarded (setField "page" (JNum 1) fields) (k, false)).
    { intros k Hk. apply forwarded_same. cbn [fst].
      rewrite lookupField_setFields_other by exact Hk.
      rewrite lookupField_setField.
      destruct (String.eqb_spec k "page") as [-> | _]; [| reflexivity].
      cbn in Hk. tauto. }
    rewrite (Hkeep "limit"), (Hkeep "sortBy"), (Hkeep "sortOrder")
      by (cbn; intuition discriminate).
    assert (Hgone : forall flag k,
               In k ["startDate"; "endDate"; "serviceType"] ->
               (k = "serviceType" -> flag = true) ->
               forwarded
                 (setFields [("startDate", JStr ""); ("endDate", JStr "");
                             ("serviceType", JStr "all"); ("page", JNum 1)] fields)
                 (k, flag)
               = None).
    { intros flag k Hin Hflag. unfold forwarded, setFields.
      cbn [fold_left fst snd]. rewrite !lookupField_setField.
      cbn [In] in Hin.
      destruct Hin as [<- | [<- | [<- | []]]]; cbn; try reflexivity.
      now rewrite (Hflag eq_refl). }
    rewrite (Hgone false "startDate"), (Hgone false "endDate"),
      (Hgone true "serviceType") by (cbn; intuition discriminate).
    assert (Hpage : forwarded
                      (setFields [("startDate", JStr ""); ("endDate", JStr "");
                                  ("serviceType", JStr "all"); ("page", JNum 1)] fields)
                      ("page", false)
                    = forwarded (setField "page" (JNum 1) fields) ("page", false)).
    { apply forwarded_same. unfold setFields. cbn [fold_left fst snd].
      now rewrite !lookupField_setField. }
    rewrite Hpage. reflexivity.
Qed.

Lemma clearing_keeps_the_limit_and_the_sorting :
  snd (Events.getEvents accepting
         (Pages.clearEventFilters
            (Pages.handleFilterChange "status" (JStr "upcoming")
               (JObj [("page", JNum 3); ("limit", JNum 10); ("search", JStr "choir");
                      ("status", JStr "all"); ("category", JStr "Service");
                      ("sortBy", JStr "date"); ("sortOrder", JStr "ASC")]))) [])
  = [getRequest "/events?page=1&limit=10&sortBy=date&sortOrder=ASC"].
Proof.
  unfold Pages.handleFilterChange.
  rewrite (proj1 (proj2 (proj2 (proj2 (proj2
             (filter_changes_return_to_the_first_page accepting _ "" JNull 0 0 [])))))).
  reflexivity.
Defined.

Section PageExports.

Lemma unlessAll_or_all v : jsOr (Pages.unlessAll v) (JStr "all") = jsOr v (JStr "all").
Proof.
  unfold Pages.unlessAll. destruct (strictEq v (JStr "all")) eqn:E; [| reflexivity].
  destruct v; try discriminate E. cbn in E. apply String.eqb_eq in E. now subst.
Qed.

End PageExports.

(** X26. The export of the events page and the report of the attendance
    page always ask for a CSV file: one request, whose status and category,
    or service type, are those of the page (['all'] when the page has none)
    and whose empty dates travel as null. The page shows a success exactly
    when the file was received and saved, and otherwise a failure with the
    message of the backend or the general failure text. *)
Theorem page_exports_ask_for_csv
    (backend : World -> HttpRequest -> JsError + JsVal) (today : string)
    (fields : list (string * JsVal)) (w : World) :
  let filters := JObj fields in
  let export :=
    mkRequest "get" "/events/export" JUndefined
      (JObj [("params",
              JObj [("format", JStr "csv");
                    ("status", jsOr (optProp filters "status") (JStr "all"));
                    ("category", jsOr (optProp filters "category") (JStr "all"))]);
             ("responseType", JStr "blob");
             ("headers", JObj [("Accept", JStr "text/csv")])]) in
  let report :=
    mkRequest "post" "/attendance/report"
      (JObj [("format", JStr "csv");
             ("startDate", jsOr (optProp filters "startDate") JNull);
             ("endDate", jsOr (optProp filters "endDate") JNull);
             ("serviceType", jsOr (optProp filters "serviceType") (JStr "all"))])
      (JObj [("responseType", JStr "blob");
             ("headers", JObj [("Accept", JStr "text/csv")])]) in
  match backend w export with
  | inr content =>
      Pages.handleExport backend today filters w
      = (inr (Pages.Succeeded (JStr "CSV export downloaded successfully")),
         (w ++ [Http export;
                Download ("events_export_" ++ today ++ ".csv") "text/csv" content])%list)
  | inl e =>
      Pages.handleExport backend today filters w
      = (inr (Pages.Failed (jsOr (responseMessage e) (JStr "Failed to export events"))),
         (w ++ [Http export])%list)
  end /\
  match backend w report with
  | inr content =>
      Pages.generateReport backend today filters w
      = (inr (Pages.Succeeded (JStr "CSV report downloaded successfully")),
         (w ++ [Http report;
                Download ("attendance_report_" ++ today ++ ".csv") "text/csv" content])%list)
  | inl e =>
      Pages.generateReport backend today filters w
      = (inr (Pages.Failed (jsOr (responseMessage e) (JStr "Failed to generate report"))),
         (w ++ [Http report])%list)
  end.
Proof.
  intros filters export report. split.
  - unfold Pages.handleExport, Events.exportEvents, filters, tryCatch, bind, get, lift,
      apiGetWith, apiCall, emit, ret, optProp.
    cbn [prop defaultArg lookupField String.eqb Ascii.eqb Bool.eqb default id jsOr truthy
           negb strictEq].
    rewrite !unlessAll_or_all.
    unfold export, filters, optProp. cbn [prop].
    destruct (backend w _) as [e | content]; cbn; [reflexivity |].
    now rewrite <- app_assoc.
  - unfold Pages.generateReport, Attendance.generateReport, filters, tryCatch, bind, get, lift,
      apiPostWith, apiCall, emit, ret, optProp.
    cbn [prop defaultArg lookupField String.eqb Ascii.eqb Bool.eqb default id jsOr truthy
           negb strictEq].
    rewrite !unlessAll_or_all.
    unfold report, filters, optProp. cbn [prop].
    destruct (backend w _) as [e | content]; cbn; [reflexivity |].
    now rewrite <- app_assoc.
Qed.

Lemma the_page_report_of_all_service_types :
  Pages.generateReport (serving csvBlob) "2025-03-02"
    (JObj [("page", JNum 1); ("startDate", JStr ""); ("endDate", JStr "");
           ("serviceType", JStr "all")]) []
  = (inr (Pages.Succeeded (JStr "CSV report downloaded successfully")),
     [Http (mkRequest "post" "/attendance/report"
              (JObj [("format", JStr "csv"); ("startDate", JNull); ("endDate", JNull);
                     ("serviceType", JStr "all")])
              (JObj [("responseType", JStr "blob");
                     ("headers", JObj [("Accept", JStr "text/csv")])]));
      Download "attendance_report_2025-03-02.csv" "text/csv" csvBlob]).
Proof.
  exact (proj2 (page_exports_ask_for_csv (serving csvBlob) "2025-03-02"
                  [("page", JNum 1); ("startDate", JStr ""); ("endDate", JStr "");
                   ("serviceType", JStr "all")] [])).
Defined.

(* ===================================================================== *)
(** * The transport core: requests that waited for a refresh              *)
(* ===================================================================== *)

Section Replayed.

Lemma resubmit_keeps_the_mark q token st r :
  option_map _retry (requests (resubmit q token st) !! r)
  = option_map _retry (requests st !! r).
Proof.
  unfold resubmit. destruct (requests st !! q) as [c |] eqn:E; [| reflexivity].
  cbn [act setRequests requests].
  destruct (decide (q = r)) as [<- | Hne].
  - now rewrite lookup_insert_eq, E.
  - now rewrite lookup_insert_ne.
Qed.

Lemma resumeResolved_keeps_the_mark queued token st r :
  option_map _retry (requests (resumeResolved queued token st) !! r)
  = option_map _retry (requests st !! r).
Proof.
  unfold resumeResolved. revert st.
  induction queued as [| q queued IH]; intros st; cbn [fold_left]; [reflexivity |].
  rewrite IH. apply resubmit_keeps_the_mark.
Qed.

Lemma refreshSucceeded_keeps_the_mark request refreshToken token st r :
  option_map _retry (requests (refreshSucceeded request refreshToken token st) !! r)
  = option_map _retry (requests st !! r).
Proof.
  unfold refreshSucceeded. cbv zeta.
  rewrite resumeResolved_keeps_the_mark. unfold setRefreshing. cbn [requests].
  rewrite resubmit_keeps_the_mark, processQueue_resolve. reflexivity.
Qed.

End Replayed.

(** X27. Only the request that starts a refresh is marked as retried. A
    request that waited in the queue and was sent again after the refresh
    succeeded is still unmarked: if it is answered 401 once more, it starts a
    new refresh, with the refresh token in use. *)
Theorem replayed_requests_may_refresh_again
    (st : Client) (first queued : nat) (refreshToken : string) (config : Config)
    (payload token answer : JsVal) :
  consistent st ->
  awaiting st = Some (first, refreshToken) ->
  In queued (failedQueue st) ->
  requests st !! queued = Some config ->
  _retry config = false ->
  newAccessTokenOf payload = Some token ->
  let refreshed := refreshSettled (inr payload) st in
  In (Resubmit queued (setAuthorization ("Bearer " ++ toString token) config))
    (trace refreshed) /\
  exists again,
    requests refreshed !! queued = Some again /\ _retry again = false /\
    responseErrorHandler (unauthorized queued answer) refreshed
    = mkClient true [] (localStorage refreshed)
        (<[queued := setRetry again]> (requests refreshed)) (pathname refreshed)
        (Some (queued, refreshToken))
        (trace refreshed ++ [RefreshCall refreshToken])%list.
Proof.
  intros Hconsistent Hawaiting Hin Hconfig Hretry Htoken refreshed.
  unfold consistent in Hconsistent. rewrite Hawaiting in Hconsistent.
  destruct Hconsistent as (_ & Hstored & Hne).
  assert (Hrefreshed : refreshed
                       = refreshSucceeded first refreshToken token (setAwaiting None st)).
  { unfold refreshed, refreshSettled. now rewrite Hawaiting, Htoken. }
  destruct (refreshSucceeded_spec first refreshToken token (setAwaiting None st))
    as (configs & Hspec).
  pose proof (refreshSucceeded_keeps_the_mark first refreshToken token (setAwaiting None st)
                queued) as Hmark.
  rewrite <- Hrefreshed in Hspec, Hmark. cbn [setAwaiting requests] in Hmark.
  rewrite Hconfig in Hmark. cbn [option_map] in Hmark.
  destruct (requests refreshed !! queued) as [again |] eqn:Hagain; [| discriminate Hmark].
  injection Hmark as Hmark. rewrite Hretry in Hmark.
  split.
  - rewrite Hspec. cbn [trace setAwaiting failedQueue requests].
    apply in_or_app. right. apply in_or_app. right. apply in_or_app. right.
    apply in_map_iff. exists queued. split; [| exact Hin].
    unfold resubmitted. now rewrite Hconfig.
  - exists again. split; [reflexivity |]. split; [exact Hmark |].
    assert (Hidle : isRefreshing refreshed = false) by now rewrite Hspec.
    assert (Hqueue : failedQueue refreshed = []) by now rewrite Hspec.
    assert (Hitem : truthyItem (localStorage refreshed) "churchAdminRefreshToken"
                    = Some refreshToken).
    { rewrite Hspec. cbn [localStorage]. unfold truthyItem.
      rewrite lookup_insert_eq. now destruct (String.eqb_spec refreshToken ""). }
    rewrite (handler_starts_refresh (unauthorized queued answer) again refreshToken
               refreshed); try assumption.
    + cbn [unauthorized ax_config]. now rewrite Hqueue.
    + now exists answer.
Qed.

Lemma the_second_of_two_requests_refreshes_again :
  consistent bothWaiting /\
  trace (responseErrorHandler (expired 2) (refreshSettled (inr freshToken) bothWaiting))
  = [RefreshCall "refresh-1"; QueueResolve 2 (JStr "fresh");
     Resubmit 1 (setAuthorization "Bearer fresh" (setRetry (plainConfig "/members")));
     Resubmit 2 (setAuthorization "Bearer fresh" (plainConfig "/events"));
     RefreshCall "refresh-1"].
Proof.
  assert (Hc : consistent bothWaiting).
  { apply run_consistent, idle_consistent. repeat split. }
  split; [exact Hc |].
  destruct (replayed_requests_may_refresh_again bothWaiting 1 2 "refresh-1"
              (plainConfig "/events") freshToken (JStr "fresh") JNull Hc eq_refl
              ltac:(vm_compute; tauto) eq_refl eq_refl eq_refl) as (_ & again & _ & _ & Hrun).
  unfold expired. rewrite Hrun. reflexivity.
Defined.

(* ===================================================================== *)
(** * The attendance summary and the format of an export                  *)
(* ===================================================================== *)



(** X28. For one of the periods week, month and year, [getAttendanceSummary]
    succeeds whenever its statistics call is answered, whatever becomes of
    the listing: it requests the statistics of the period and then the ten
    newest records, and a listing that fails shows as an empty list. *)
Theorem getAttendanceSummary_needs_its_statistics_only
    (backend : World -> HttpRequest -> JsError + JsVal) (period : JsVal)
    (body : list (string * JsVal)) (w : World) :
  let asked := defaultArg period (JStr "month") in
  let statistics :=
    mkRequest "get" ("/attendance/stats?period=" ++ toString asked) JUndefined JUndefined in
  let w1 := (w ++ [Http statistics])%list in
  In asked [JStr "week"; JStr "month"; JStr "year"] ->
  backend w statistics = inr (JObj body) ->
  exists recent,
    fst (Attendance.getAttendanceRecords backend
           (JObj [("limit", JNum 10); ("sortBy", JStr "date"); ("sortOrder", JStr "DESC")])
           w1) = inr recent /\
    Attendance.getAttendanceSummary backend period w
    = (inr (JObj [("success", JBool true);
                  ("data", JObj [("stats", optProp (JObj body) "data");
                                 ("recentRecords", listed recent);
                                 ("period", asked)]);
                  ("message", JStr "Attendance summary retrieved successfully")]),
       (w1 ++ [getRequest "/attendance?limit=10&sortBy=date&sortOrder=DESC"])%list).
Proof.
  intros asked statistics w1 Hin Hbody.
  destruct (getAttendanceRecords_returns backend
              [("limit", JNum 10); ("sortBy", JStr "date"); ("sortOrder", JStr "DESC")] w1)
    as (recent & Hrecent).
  exists (JObj recent). split; [now rewrite Hrecent |].
  assert (Hstats : Attendance.getAttendanceStats backend asked w
                   = (inr (JObj [("success", JBool true);
                                 ("data", optProp (JObj body) "data");
                                 ("message",
                                  jsOr (optProp (JObj body) "message")
                                    (JStr "Attendance statistics retrieved successfully"))]),
                      w1)).
  { unfold Attendance.getAttendanceStats.
    assert (Hsame : defaultArg asked (JStr "month") = asked).
    { cbn [In] in Hin. now repeat (destruct Hin as [<- | Hin]; [reflexivity |]). }
    rewrite Hsame.
    assert (Hvalid : existsb (strictEq asked) Attendance.validPeriods = true).
    { cbn [In] in Hin. repeat (destruct Hin as [<- | Hin]; [reflexivity |]). destruct Hin. }
    rewrite Hvalid. cbn [negb]. unfold tryCatch, bind, apiGet, apiCall.
    fold statistics. now rewrite Hbody. }
  unfold Attendance.getAttendanceSummary. fold asked. apply tryCatch_returned.
  rewrite (bind_returned _ _ _ _ _ Hstats).
  unfold get at 1, lift, bind at 1.
  cbn [prop lookupField String.eqb Ascii.eqb Bool.eqb default id truthy negb].
  rewrite (bind_returned _ _ _ _ _ Hrecent).
  unfold listed, optProp, get, lift, bind, ret. cbn [prop].
  destruct (truthy (default JUndefined (lookupField "success" recent))); reflexivity.
Qed.

Lemma weekly_summary_of_an_accepting_backend :
  In (defaultArg (JStr "week") (JStr "month")) [JStr "week"; JStr "month"; JStr "year"] /\
  snd (Attendance.getAttendanceSummary accepting (JStr "week") [])
  = [getRequest "/attendance/stats?period=week";
     getRequest "/attendance?limit=10&sortBy=date&sortOrder=DESC"].
Proof.
  assert (H : In (defaultArg (JStr "week") (JStr "month"))
                [JStr "week"; JStr "month"; JStr "year"]) by (cbn; tauto).
  split; [exact H |].
  destruct (getAttendanceSummary_needs_its_statistics_only accepting (JStr "week")
              [("data", JObj [("id", JNum 0)]); ("message", JStr "Saved")] [] H eq_refl)
    as (recent & _ & Hrun).
  now rewrite Hrun.
Defined.

(** X29. The format of an export. [generateReport] and [exportEvents] send
    one request and ask for CSV when no format or the format ['csv'] is
    given; for every other format, whatever it is, they ask for JSON. Only a
    CSV export saves a file. *)
Theorem exports_are_csv_unless_told_otherwise
    (backend : World -> HttpRequest -> JsError + JsVal) (today : string)
    (fields : list (string * JsVal)) (w : World) :
  let format := jsOr (optProp (JObj fields) "format") (JStr "csv") in
  let asked := if strictEq format (JStr "csv") then JStr "csv" else JStr "json" in
  (exists r saved,
     snd (Attendance.generateReport backend today (JObj fields) w)
     = (w ++ Http r :: saved)%list /\
     req_method r = "post" /\ req_url r = "/attendance/report" /\
     optProp (req_data r) "format" = asked /\
     requestsIn saved = [] /\ (saved <> [] -> asked = JStr "csv")) /\
  (exists r saved,
     snd (Events.exportEvents backend today (JObj fields) w)
     = (w ++ Http r :: saved)%list /\
     req_method r = "get" /\ req_url r = "/events/export" /\
     optProp (optProp (req_config r) "params") "format" = asked /\
     requestsIn saved = [] /\ (saved <> [] -> asked = JStr "csv")).
Proof.
  intros format asked. unfold asked, format, optProp. cbn [prop]. split.
  - unfold Attendance.generateReport, tryCatch, bind, get, lift, apiPostWith, apiPost, apiCall,
      emit, ret. cbn [prop defaultArg].
    destruct (strictEq (jsOr (default JUndefined (lookupField "format" fields)) (JStr "csv"))
                (JStr "csv")) eqn:E.
    + assert (Hformat : jsOr (default JUndefined (lookupField "format" fields)) (JStr "csv")
                        = JStr "csv").
      { destruct (jsOr _ _); try discriminate E. cbn in E.
        apply String.eqb_eq in E. now subst. }
      destruct (backend w _) as [e | content]; cbn.
      * eexists _, []. split; [reflexivity |]. repeat split; try reflexivity.
        exact Hformat.
      * eexists _, [_]. rewrite <- app_assoc. split; [reflexivity |].
        repeat split; try reflexivity. exact Hformat.
    + destruct (backend w _) as [e | body]; cbn.
      * eexists _, []. split; [reflexivity |]. repeat split; try reflexivity.
        intros H. now destruct H.
      * destruct (prop body "data"); cbn;
          [| destruct (prop body "count"); cbn; [| destruct (prop body "message"); cbn]];
          (eexists _, []; split; [reflexivity |]; repeat split; try reflexivity;
           intros H; now destruct H).
  - unfold Events.exportEvents, tryCatch, bind, get, lift, apiGetWith, apiCall, emit, ret.
    cbn [prop defaultArg].
    destruct (strictEq (jsOr (default JUndefined (lookupField "format" fields)) (JStr "csv"))
                (JStr "csv")) eqn:E.
    + assert (Hformat : jsOr (default JUndefined (lookupField "format" fields)) (JStr "csv")
                        = JStr "csv").
      { destruct (jsOr _ _); try discriminate E. cbn in E.
        apply String.eqb_eq in E. now subst. }
      destruct (backend w _) as [e | content]; cbn.
      * eexists _, []. split; [reflexivity |]. repeat split; try reflexivity.
        exact Hformat.
      * eexists _, [_]. rewrite <- app_assoc. split; [reflexivity |].
        repeat split; try reflexivity. exact Hformat.
    + destruct (backend w _) as [e | body]; cbn.
      * eexists _, []. split; [reflexivity |]. repeat split; try reflexivity.
        intros H. now destruct H.
      * destruct (prop body "data"); cbn;
          [| destruct (prop body "count"); cbn; [| destruct (prop body "message"); cbn]];
          (eexists _, []; split; [reflexivity |]; repeat split; try reflexivity;
           intros H; now destruct H).
Qed.

Lemma a_spreadsheet_is_asked_as_json :
  snd (Attendance.generateReport accepting "2025-03-02" (JObj [("format", JStr "xlsx")]) [])
  = [Http (mkRequest "post" "/attendance/report"
             (JObj [("format", JStr "json"); ("startDate", JNull); ("endDate", JNull);
                    ("serviceType", JStr "all")]) JUndefined)] /\
  snd (Events.exportEvents (serving csvBlob) "2025-03-02" (JObj []) [])
  = [Http (mkRequest "get" "/events/export" JUndefined
             (JObj [("params", JObj [("format", JStr "csv"); ("status", JStr "all");
                                     ("category", JStr "all")]);
                    ("responseType", JStr "blob");
                    ("headers", JObj [("Accept", JStr "text/csv")])]));
     Download "events_export_2025-03-02.csv" "text/csv" csvBlob].
Proof.
  split.
  - destruct (proj1 (exports_are_csv_unless_told_otherwise accepting "2025-03-02"
                       [("format", JStr "xlsx")] [])) as (r & saved & Hrun & _).
    rewrite Hrun. vm_compute in Hrun. injection Hrun as Hr Hsaved. now subst.
  - destruct (proj2 (exports_are_csv_unless_told_otherwise (serving csvBlob) "2025-03-02"
                       [] [])) as (r & saved & Hrun & _).
    rewrite Hrun. vm_compute in Hrun. injection Hrun as Hr Hsaved. now subst.
Defined.
